(** * boinc2docker_create_work: packaging a Docker image as a BOINC job

    A shallow embedding of [bin/boinc2docker_create_work.py] (Python 2).
    The pure parts of the function (command quoting, the text of the
    [boinc_app] script, the list of input files, the input template) are
    plain functions. The parts that talk to the outside (docker, tar, gzip,
    the download directory, the scratch directory, [create_work]) run in a
    state-and-exception monad over an explicit file system; the external
    tools and the library calls are given by an environment record, and
    every run yields the list of what it did.

    What the model takes for granted:
    - image ids, layer ids and paths hold no shell metacharacters and no
      braces, so that [fmt] is plain substitution and each [sh] call is the
      command it is meant to be;
    - [verbose] only prints and is left out;
    - [create_work] stages the inline files by itself; what it does to the
      download directory is not part of the model;
    - Python 2.7.3 or later: [toprettyxml] writes the text of an element as
      it is, without white space around it;
    - what the XML libraries make of a tree with a tag that is not a plain
      XML name, or with text outside ASCII or outside the XML characters,
      is left to the environment, and so is the exception that [tarfile]
      raises on a compressed archive that was cut short;
    - a tool that stops with a failure or an interruption leaves behind what
      the environment says it had written. *)

From Stdlib Require Import Ascii String DecimalString DecimalNat.
From stdpp Require Import gmap strings list.

Local Open Scope string_scope.
Local Open Scope list_scope.
Local Open Scope nat_scope.
Set Warnings "-register-all".

(** ** Python string primitives *)

Module Py.

(** The double quote and the newline, written by character code. *)
Definition dq : string := String "034"%char "".
Definition nl : string := String "010"%char "".

(** [c.isspace()] of a byte string in the C locale. *)
Definition isspace (c : ascii) : bool :=
  let n := nat_of_ascii c in
  ((9 <=? n) && (n <=? 13)) || (n =? 32).

Definition is_empty (s : string) : bool :=
  match s with "" => true | _ => false end.

(** [s.split()]: the maximal runs of non-space characters. [tok] is the
    run being read. *)
Fixpoint split_ws_from (tok s : string) : list string :=
  match s with
  | "" => if is_empty tok then [] else [tok]
  | String c s' =>
      if isspace c
      then (if is_empty tok then split_ws_from "" s'
            else tok :: split_ws_from "" s')
      else split_ws_from (tok +:+ String c "") s'
  end.

Definition split_ws (s : string) : list string := split_ws_from "" s.

(** [s.lstrip()], [s.rstrip()], [s.strip()]. *)
Fixpoint lstrip (s : string) : string :=
  match s with
  | String c s' => if isspace c then lstrip s' else s
  | "" => ""
  end.

Fixpoint rstrip (s : string) : string :=
  match s with
  | "" => ""
  | String c s' =>
      let r := rstrip s' in
      if is_empty r && isspace c then "" else String c r
  end.

Definition strip (s : string) : string := rstrip (lstrip s).

(** [c in s] for a one-character [c]. *)
Fixpoint contains (c : ascii) (s : string) : bool :=
  match s with
  | "" => false
  | String d s' => if Ascii.eqb c d then true else contains c s'
  end.

(** [s.split(sep)] for a one-character separator: empty fields are kept. *)
Fixpoint split_on_from (sep : ascii) (field s : string) : list string :=
  match s with
  | "" => [field]
  | String c s' =>
      if Ascii.eqb c sep then field :: split_on_from sep "" s'
      else split_on_from sep (field +:+ String c "") s'
  end.

Definition split_on (sep : ascii) (s : string) : list string :=
  split_on_from sep "" s.

(** [sep.join(l)]. *)
Definition join (sep : string) (l : list string) : string :=
  String.concat sep l.

(** [str(n)] of a non-negative integer. *)
Definition str_int (n : nat) : string :=
  NilEmpty.string_of_uint (Nat.to_uint n).

(** One lower-case hexadecimal digit. *)
Definition hex_digit (n : nat) : ascii :=
  if n <? 10 then ascii_of_nat (48 + n) else ascii_of_nat (87 + n).

(** One character of [repr(s)] (CPython 2, [string_repr]). *)
Definition repr_char (quote c : ascii) : string :=
  let n := nat_of_ascii c in
  if Ascii.eqb c quote || Ascii.eqb c "\"%char then String "\"%char (String c "")
  else if n =? 9 then "\t"
  else if n =? 10 then "\n"
  else if n =? 13 then "\r"
  else if (n <? 32) || (127 <=? n)
       then String "\"%char (String "x"%char
              (String (hex_digit (n / 16)) (String (hex_digit (n mod 16)) "")))
  else String c "".

Fixpoint repr_body (quote : ascii) (s : string) : string :=
  match s with
  | "" => ""
  | String c s' => repr_char quote c +:+ repr_body quote s'
  end.

(** [repr(s)] of a byte string: single quotes, unless the string holds a
    single quote and no double quote. *)
Definition repr (s : string) : string :=
  let quote :=
    if contains "'"%char s && negb (contains "034"%char s)
    then "034"%char else "'"%char in
  String quote (repr_body quote s +:+ String quote "").

(** [str(l)] of a list of byte strings. *)
Definition str_list (l : list string) : string :=
  "[" +:+ join ", " (map repr l) +:+ "]".

(** [p.rfind('/') + 1], counted from the front. *)
Fixpoint after_last_slash (p : string) : nat :=
  match p with
  | "" => 0
  | String c p' =>
      let i := after_last_slash p' in
      if (0 <? i) then S i
      else if Ascii.eqb c "/"%char then 1 else 0
  end.

Fixpoint take (n : nat) (s : string) : string :=
  match n, s with
  | S n', String c s' => String c (take n' s')
  | _, _ => ""
  end.

Fixpoint drop (n : nat) (s : string) : string :=
  match n, s with
  | S n', String c s' => drop n' s'
  | _, _ => s
  end.

Fixpoint rstrip_slash (s : string) : string :=
  match s with
  | "" => ""
  | String c s' =>
      let r := rstrip_slash s' in
      if is_empty r && Ascii.eqb c "/"%char then "" else String c r
  end.

(** [os.path.basename(p)] (posixpath). *)
Definition basename (p : string) : string := drop (after_last_slash p) p.

(** [os.path.split(p)] (posixpath): the head loses its trailing slashes
    unless it consists of slashes only. *)
Definition path_split (p : string) : string * string :=
  let i := after_last_slash p in
  let head := take i p in
  let tail := drop i p in
  (if is_empty (rstrip_slash head) then head else rstrip_slash head, tail).

End Py.

(** ** Commands and the boinc_app script *)

(** The [command] argument: a string or a list of arguments. *)
Inductive command :=
| CmdStr (s : string)
| CmdList (args : list string).

(** What the list that line 81 iterates over can hold: a string, or (after
    line 80) a list of strings. *)
Inductive pyval :=
| PStr (s : string)
| PList (l : list string).

(** [str(x)]. *)
Definition str (x : pyval) : string :=
  match x with
  | PStr s => s
  | PList l => Py.str_list l
  end.

(** Lines 51 and 80: [None] becomes the empty string, and
    [if isinstance(command,str): command=[command.split()]]. *)
Definition normalize_command (c : option command) : list pyval :=
  match c with
  | None => [PList (Py.split_ws "")]
  | Some (CmdStr s) => [PList (Py.split_ws s)]
  | Some (CmdList args) => map PStr args
  end.

(** Line 81: [' '.join('"'+str(x)+'"' for x in command)]. *)
Definition quote_command (xs : list pyval) : string :=
  Py.join " " (map (fun x => Py.dq +:+ str x +:+ Py.dq) xs).

Definition command_text (c : option command) : string :=
  quote_command (normalize_command c).

(** Line 82: ['--entrypoint '+entrypoint if entrypoint else '']. *)
Definition entrypoint_text (e : option string) : string :=
  match e with
  | Some e => if Py.is_empty e then "" else "--entrypoint " +:+ e
  | None => ""
  end.

(** Lines 83-107: the dedented template with its five fields filled in.
    [prerun], [entrypoint], [image], [command] and [postrun] are the values
    of the local variables at line 83. *)
Definition script_text (prerun entrypoint image command postrun : string) : string :=
  Py.join Py.nl
    [ "";
      "#!/bin/sh";
      "set -e ";
      "";
      "echo " +:+ Py.dq +:+ "Importing Docker data from BOINC..." +:+ Py.dq;
      "mkdir -p /tmp/image";
      "cat /root/shared/image/*.tar | tar xi -C /tmp/image";
      "tar cf - -C /tmp/image . | docker load ";
      "rm -rf /tmp/image";
      "";
      "echo " +:+ Py.dq +:+ "Prerun diagnostics..." +:+ Py.dq;
      "docker images";
      "docker ps -a";
      "du -sh /var/lib/docker";
      "free -m";
      "";
      "echo " +:+ Py.dq +:+ "Prerun commands..." +:+ Py.dq;
      prerun;
      "";
      "echo " +:+ Py.dq +:+ "Running... " +:+ Py.dq;
      "docker run --rm -v /root/shared:/root/shared " +:+ entrypoint +:+ " "
        +:+ image +:+ " " +:+ command;
      "";
      "echo " +:+ Py.dq +:+ "Postrun commands..." +:+ Py.dq;
      postrun;
      "" ].

(** Line 53: [if ':' not in image: image+=':latest']. *)
Definition default_tag (image : string) : string :=
  if Py.contains ":"%char image then image else image +:+ ":latest".

(** ** Input files and the input template *)

(** The second component of an input-file triple: [(name, contents)] for
    a file given inline, or the name of a file of the download directory. *)
Inductive backing :=
| Inline (name contents : string)
| Stored (filename : string).

(** [(open_name, backing, flags)]. *)
Definition input_file : Type := string * backing * list string.

Definition open_name_of (f : input_file) : string := f.1.1.
Definition backing_of (f : input_file) : backing := f.1.2.
Definition flags_of (f : input_file) : list string := f.2.

(** Lines 74-77: the caller's [(open_name, contents, flags)] triples. *)
Definition extra_input_files (input_files : option (list (string * string * list string)))
  : list input_file :=
  match input_files with
  | None => []
  | Some l =>
      map (fun '(open_name, contents, flags) =>
             (open_name, Inline (Py.basename open_name) contents, flags)) l
  end.

(** Line 108. *)
Definition script_file (script : string) : input_file :=
  ("shared/boinc_app", Inline "boinc_app" script, []).

(** Line 110. *)
Definition layer_flags : list string := ["sticky"; "no_delete"; "gzip"].

(** Lines 114-115. *)
Definition layer_id_of (layer : string) : string := (Py.path_split layer).1.
Definition layer_filename_of (layer : string) : string :=
  "layer_" +:+ layer_id_of layer +:+ ".tar".

(** Line 59. *)
Definition image_filename_of (image_id : string) : string :=
  "image_" +:+ image_id +:+ ".tar".

(** Line 128: what the image archive is made of. *)
Definition image_members (image_id : string) : list string :=
  [image_id +:+ ".json"; "manifest.json"; "repositories"].

(** Lines 117 and 125: the entry of an archive of the download directory. *)
Definition archive_file (filename : string) : input_file :=
  ("shared/image/" +:+ filename, Stored filename, layer_flags).

(** An ElementTree element: tag, text, children. *)
Inductive xml :=
| Element (tag : string) (text : option string) (children : list xml).

Definition tag_of (x : xml) : string := let 'Element t _ _ := x in t.
Definition text_of (x : xml) : option string := let 'Element _ t _ := x in t.
Definition children_of (x : xml) : list xml := let 'Element _ _ c := x in c.

(** Lines 136-138. *)
Definition file_info_elem (i : nat) (flags : list string) : xml :=
  Element "file_info" None
    (Element "number" (Some (Py.str_int i)) []
       :: map (fun flag => Element flag None []) flags).

(** Lines 139-142. *)
Definition file_ref_elem (i : nat) (open_name : string) : xml :=
  Element "file_ref" None
    [ Element "file_number" (Some (Py.str_int i)) [];
      Element "open_name" (Some open_name) [];
      Element "copy_file" None [] ].

(** Lines 135-142: one turn of the loop appends a [file_info] to the root
    and a [file_ref] to the work unit. [infos] are the children of the root
    after the work unit, [refs] the children of the work unit. *)
Fixpoint template_loop (i : nat) (files : list input_file) (infos refs : list xml)
  : list xml * list xml :=
  match files with
  | [] => (infos, refs)
  | (open_name, _, flags) :: rest =>
      template_loop (S i) rest
        (infos ++ [file_info_elem i flags])
        (refs ++ [file_ref_elem i open_name])
  end.

(** Lines 133-142: the work unit is the first child of the root. *)
Definition input_template (files : list input_file) : xml :=
  let '(infos, refs) := template_loop 0 files [] [] in
  Element "input_template" None (Element "workunit" None refs :: infos).

(** [file_info] and [file_ref] declarations of a template. *)
Definition file_infos (t : xml) : list xml :=
  filter (fun x => tag_of x = "file_info") (children_of t).

Definition file_refs (t : xml) : list xml :=
  filter (fun x => tag_of x = "file_ref")
    (flat_map children_of
       (filter (fun x => tag_of x = "workunit") (children_of t))).

(** The text of the first child with a given tag. *)
Definition child_text (tag : string) (x : xml) : option string :=
  match filter (fun c => tag_of c = tag) (children_of x) with
  | c :: _ => text_of c
  | [] => None
  end.


(** The trees for which the model itself tells what line 144 writes: tags
    that are XML names of ASCII letters, digits, [_], [-] and [.] (no
    colon, no brace) and text made of XML characters, in ASCII. For these
    [ET.tostring] writes each tag and each text as it is (with [&], [<]
    and [>] escaped) and [minidom.parseString] accepts the result. *)
Definition name_start_char (c : ascii) : bool :=
  let n := nat_of_ascii c in
  ((65 <=? n) && (n <=? 90)) || ((97 <=? n) && (n <=? 122))
  || (n =? 95).

Definition name_char (c : ascii) : bool :=
  let n := nat_of_ascii c in
  name_start_char c || ((48 <=? n) && (n <=? 57)) || (n =? 45) || (n =? 46).

Definition text_char (c : ascii) : bool :=
  let n := nat_of_ascii c in
  ((32 <=? n) && (n <=? 127)) || (n =? 9) || (n =? 10) || (n =? 13).

Fixpoint all_chars (p : ascii -> bool) (s : string) : bool :=
  match s with
  | "" => true
  | String c s' => p c && all_chars p s'
  end.

Definition xml_name (s : string) : bool :=
  match s with
  | "" => false
  | String c s' => name_start_char c && all_chars name_char s'
  end.

Definition xml_text (t : option string) : bool :=
  match t with
  | None => true
  | Some s => all_chars text_char s
  end.

Fixpoint well_formed (x : xml) : bool :=
  let 'Element tag text children := x in
  xml_name tag && xml_text text && forallb well_formed children.

(** A node of the document that [minidom.parseString] builds and that
    [toprettyxml] writes into the template file. *)
Inductive dnode :=
| DElement (name : string) (attributes : list (string * string))
    (children : list dnode)
| DText (data : string)
| DCData (data : string)
| DComment (data : string)
| DInstruction (target data : string).

(** What the XML parser makes of the line ends of a text: [\r\n] and a
    lone [\r] become [\n]. *)
Fixpoint line_ends (s : string) : string :=
  match s with
  | "" => ""
  | String c s' =>
      if Ascii.eqb c "013"%char then
        match s' with
        | String d _ =>
            if Ascii.eqb d "010"%char then line_ends s'
            else String "010"%char (line_ends s')
        | "" => String "010"%char ""
        end
      else String c (line_ends s')
  end.

(** The text node of an element: [ET.tostring] writes an element whose
    text is empty like one without text. *)
Definition written_text (text : option string) : list dnode :=
  match text with
  | Some s => if Py.is_empty s then [] else [DText (line_ends s)]
  | None => []
  end.

(** Line 144 for a tree that is [well_formed]: the document of
    [minidom.parseString(ET.tostring(root, 'utf-8'))]. *)
Fixpoint written (x : xml) : dnode :=
  let 'Element tag text children := x in
  DElement tag [] (written_text text ++ map written children).

(** How the XML libraries refuse a tree: [ET.tostring] with [ValueError]
    (a tag with an opening brace and no closing one) or
    [UnicodeDecodeError] (a byte outside ASCII), [minidom.parseString]
    with [ExpatError], the write of the document with
    [UnicodeEncodeError]. *)
Inductive refusal :=
| UnbalancedBrace
| ByteOutsideAscii
| NotWellFormed
| CharacterOutsideAscii.

Inductive rendering :=
| Document (d : dnode)
| Refused (r : refusal).

(** Reading a document: the elements with a given name among the children
    of a node, and the text of a node. *)
Definition is_named (tag : string) (d : dnode) : bool :=
  match d with
  | DElement n _ _ => String.eqb n tag
  | _ => false
  end.

Definition nodes_of (d : dnode) : list dnode :=
  match d with
  | DElement _ _ c => c
  | _ => []
  end.

Definition named (tag : string) (d : dnode) : list dnode :=
  filter (fun c => is_named tag c = true) (nodes_of d).

Definition data_of (d : dnode) : string :=
  match d with
  | DText s | DCData s => s
  | _ => ""
  end.

Definition text_in (d : dnode) : string :=
  String.concat "" (map data_of (nodes_of d)).

(** The [file_info] and [file_ref] declarations of a document, and the
    text of the first child with a given name. *)
Definition declared_infos (d : dnode) : list dnode := named "file_info" d.

Definition declared_refs (d : dnode) : list dnode :=
  flat_map (named "file_ref") (named "workunit" d).

Definition field (tag : string) (d : dnode) : option string :=
  match named tag d with
  | c :: _ => Some (text_in c)
  | [] => None
  end.

(** The names of the elements that follow the first child of a node: the
    flag markers of a [file_info]. *)
Definition marker_names (d : dnode) : list string :=
  omap (fun c => match c with DElement n _ _ => Some n | _ => None end)
    (drop 1 (nodes_of d)).

(** ** The outside world *)

(** One entry of docker's [manifest.json]. *)
Record manifest_entry := ManifestEntry {
  Config : string;
  RepoTags : list string;
  Layers : list string
}.

Definition manifest_json : Type := list manifest_entry.

(** A directory tree or the content of an archive, by top-level name: the
    parsed [manifest.json], or anything else. *)
Inductive member :=
| Json (m : manifest_json)
| Blob (data : string).

Definition tree : Type := list (string * member).

Fixpoint tree_lookup (name : string) (t : tree) : option member :=
  match t with
  | [] => None
  | (n, m) :: t' => if String.eqb n name then Some m else tree_lookup name t'
  end.

(** The members that [tar c] finds under the given names. *)
Definition pick (names : list string) (t : tree) : tree :=
  omap (fun n => pair n <$> tree_lookup n t) names.

(** A file of the download directory: a tar archive, a file compressed by
    gzip or by bzip2, or anything else. A file that a tool was still
    writing when it stopped is not [complete]. *)
Inductive file :=
| Tar (complete : bool) (content : tree)
| Gz (complete : bool) (source : file)
| Bz2 (complete : bool) (source : file)
| Raw (data : string).

Definition is_complete (f : file) : bool :=
  match f with
  | Tar c _ => c
  | Gz c _ => c
  | Bz2 c _ => c
  | Raw _ => true
  end.

(** What [tarfile.open(path)] (mode [r:*]) finds in a file: the members of
    a tar archive, plain or compressed once by gzip or bzip2; a compressed
    archive that was cut short; or no archive. Python's tarfile reads a
    truncated tar archive up to its last whole member. *)
Inductive opened :=
| Members (content : tree)
| CutShort
| NoArchive.

Definition tarfile_open (f : file) : opened :=
  match f with
  | Tar _ content => Members content
  | Gz true (Tar _ content) | Bz2 true (Tar _ content) => Members content
  | Gz false (Tar _ _) | Bz2 false (Tar _ _) => CutShort
  | _ => NoArchive
  end.

(** Where reading a compressed archive that was cut short stops: when it
    is opened ([ReadError]), or at the end of the data, with [IOError]
    from gzip or [EOFError] from bz2. *)
Inductive cut :=
| CutAtOpen
| CutInGzip
| CutInBzip2.

(** A scratch directory: what [docker save | tar xf -] unpacked into it, and
    the input template file with what was written into it, if anything. *)
Record scratch_dir := ScratchDir {
  exported : tree;
  template_file : option (string * option dnode)
}.

(** The download directory (by path) and the scratch directories (by
    path). *)
Record filesystem := Filesystem {
  store : gmap string file;
  scratch : gmap string scratch_dir
}.

(** The shell commands of the script. *)
Inductive cmd :=
| DockerInspect (image : string)
    (* docker inspect --format "{{ .Id }}" {image} *)
| DockerSave (image tmpdir : string)
    (* docker save {image} | tar xf - -C {tmpdir} *)
| BinDirHierPath (filename : string)
    (* bin/dir_hier_path {layer_filename} *)
| TarCreate (dest dir : string) (members : list string)
    (* tar cvf {dest} -C {dir} {members} *)
| GzipKeep (path : string)
    (* gzip -k {path} *)
| RmRf (dir : string).
    (* rm -rf {tmpdir} *)

(** What a run does that can be seen from outside, in order. *)
Inductive event :=
| PathExists (path : string) (found : bool)
    (* os.path.exists(path) and its answer *)
| ReadManifest (path : string) (m : manifest_json)
    (* json.load of the manifest.json found at or in path *)
| Sh (c : cmd)
| CreateWork (appname : string) (args : gmap string string)
    (template : dnode) (files : list backing).
    (* create_work(appname, args, files), with the document in the file
       that args['wu_template'] names *)

Inductive exn :=
| CalledProcessError
| KeyboardInterrupt
| IndexError
| IOError
| KeyError
| ValueError
| ReadError
| ExpatError
| OSError
| SubmitError
| UnicodeDecodeError
| UnicodeEncodeError
| EOFError.

Inductive result (A : Type) :=
| Val (a : A)
| Exc (e : exn).
Arguments Val {A} a.
Arguments Exc {A} e.

(** How a shell command ends other than well: with a non-zero exit status
    ([check_output] raises [CalledProcessError]) or with the interruption
    of the run while it waits ([KeyboardInterrupt]). *)
Inductive failure :=
| NonZeroExit
| Interrupt.

Definition exn_of (f : failure) : exn :=
  match f with
  | NonZeroExit => CalledProcessError
  | Interrupt => KeyboardInterrupt
  end.

(** The reply of a command that prints. *)
Inductive reply (A : Type) :=
| Done (out : A)
| Failed (f : failure).
Arguments Done {A} out.
Arguments Failed {A} f.

(** The reply of a command that writes a file: [Broken f left] stops with
    [f], and [left] tells what it leaves at its destination ([None]: the
    destination is as before). *)
Inductive wreply (A : Type) :=
| Written
| Broken (f : failure) (left : option A).
Arguments Written {A}.
Arguments Broken {A} f left.

(** The collaborators of the script: the library calls that are not part of
    the repository and the tools behind [sh]. *)
Record Env := {
  mkdtemp : result string;
  uuid_hex : string;
  dir_hier_path : string -> string;
  create_work : string -> gmap string string -> list backing -> result string;
  docker_inspect : string -> reply string;
  docker_save : string -> reply tree;
  bin_dir_hier_path : string -> reply string;
  tar_create : string -> list string -> wreply (list string);
  gzip_keep : string -> wreply unit;
  rm_rf : string -> reply unit;
  xml_libraries : xml -> rendering;
    (* line 144 for a tree that is not well_formed *)
  cut_archive : string -> cut
    (* tarfile on the compressed archive at a path, cut short *)
}.

Definition exn_of_refusal (r : refusal) : exn :=
  match r with
  | UnbalancedBrace => ValueError
  | ByteOutsideAscii => UnicodeDecodeError
  | NotWellFormed => ExpatError
  | CharacterOutsideAscii => UnicodeEncodeError
  end.

Definition exn_of_cut (c : cut) : exn :=
  match c with
  | CutAtOpen => ReadError
  | CutInGzip => IOError
  | CutInBzip2 => EOFError
  end.

(** Line 144: [minidom.parseString(ET.tostring(root, 'utf-8')).toprettyxml(...)],
    the document that is written into the template file. *)
Definition template_document (E : Env) (root : xml) : result dnode :=
  if well_formed root then Val (written root)
  else match xml_libraries E root with
       | Document d => Val d
       | Refused r => Exc (exn_of_refusal r)
       end.

(** ** The monad of the script: file system state, exceptions, events *)

Definition M (A : Type) : Type := filesystem -> result A * filesystem * list event.

Definition ret {A} (a : A) : M A := fun s => (Val a, s, []).

Definition raise {A} (e : exn) : M A := fun s => (Exc e, s, []).

Definition bind {A B} (m : M A) (k : A -> M B) : M B :=
  fun s =>
    match m s with
    | (Val a, s1, t1) => let '(r, s2, t2) := k a s1 in (r, s2, t1 ++ t2)
    | (Exc e, s1, t1) => (Exc e, s1, t1)
    end.

Notation "'let*' x ':=' m 'in' k" := (bind m (fun x => k))
  (at level 10, x pattern, m at level 100, k at level 200).

Definition log (e : event) : M unit := fun s => (Val tt, s, [e]).

Definition lift {A} (r : result A) : M A := fun s => (r, s, []).

Definition get_store : M (gmap string file) := fun s => (Val (store s), s, []).

Definition put_file (path : string) (f : file) : M unit :=
  fun s => (Val tt, Filesystem (<[path := f]> (store s)) (scratch s), []).

Definition get_scratch (dir : string) : M scratch_dir :=
  fun s => (Val (default (ScratchDir [] None) (scratch s !! dir)), s, []).

Definition put_scratch (dir : string) (d : scratch_dir) : M unit :=
  fun s => (Val tt, Filesystem (store s) (<[dir := d]> (scratch s)), []).

Definition remove_scratch (dir : string) : M unit :=
  fun s => (Val tt, Filesystem (store s) (delete dir (scratch s)), []).

(** [l[i]]. *)
Definition index {A} (i : nat) (l : list A) : M A :=
  match l !! i with
  | Some a => ret a
  | None => raise IndexError
  end.

(** [os.path.exists(path)] for a path of the download directory. *)
Definition exists_ (path : string) : M bool :=
  let* st := get_store in
  let found := bool_decide (is_Some (st !! path)) in
  let* _ := log (PathExists path found) in
  ret found.

(** [json.load] of a member named [manifest.json]; the exception depends on
    where it is read from. *)
Definition load_manifest (missing : exn) (t : tree) : result manifest_json :=
  match tree_lookup "manifest.json" t with
  | Some (Json m) => Val m
  | Some (Blob _) => Exc ValueError
  | None => Exc missing
  end.

(** Line 70: [json.load(open(join(tmpdir,'manifest.json')))]. *)
Definition exported_manifest (tmpdir : string) : M manifest_json :=
  let* d := get_scratch tmpdir in
  let* m := lift (load_manifest IOError (exported d)) in
  let* _ := log (ReadManifest (tmpdir +:+ "/manifest.json") m) in
  ret m.

Section Script.

Variable E : Env.

(** Line 65: [json.load(tarfile.open(image_path).extractfile('manifest.json'))]. *)
Definition cached_manifest (image_path : string) : M manifest_json :=
  let* st := get_store in
  match st !! image_path with
  | Some f =>
      match tarfile_open f with
      | Members content =>
          let* m := lift (load_manifest KeyError content) in
          let* _ := log (ReadManifest image_path m) in
          ret m
      | CutShort => raise (exn_of_cut (cut_archive E image_path))
      | NoArchive => raise ReadError
      end
  | None => raise IOError
  end.

(** [sh(cmd)] for the commands whose output is used: the output is
    stripped. *)
Definition sh_docker_inspect (image : string) : M string :=
  let* _ := log (Sh (DockerInspect image)) in
  match docker_inspect E image with
  | Done out => ret (Py.strip out)
  | Failed f => raise (exn_of f)
  end.

Definition sh_bin_dir_hier_path (filename : string) : M string :=
  let* _ := log (Sh (BinDirHierPath filename)) in
  match bin_dir_hier_path E filename with
  | Done out => ret (Py.strip out)
  | Failed f => raise (exn_of f)
  end.

(** Line 69. *)
Definition sh_docker_save (image tmpdir : string) : M unit :=
  let* _ := log (Sh (DockerSave image tmpdir)) in
  match docker_save E image with
  | Done t => put_scratch tmpdir (ScratchDir t None)
  | Failed f => raise (exn_of f)
  end.

(** Lines 120 and 128: [tar cvf {dest} -C {tmpdir} {members}] writes
    [dest] itself. *)
Definition sh_tar_create (dest tmpdir : string) (members : list string) : M unit :=
  let* _ := log (Sh (TarCreate dest tmpdir members)) in
  let* d := get_scratch tmpdir in
  match tar_create E dest members with
  | Written => put_file dest (Tar true (pick members (exported d)))
  | Broken f (Some kept) =>
      let* _ := put_file dest (Tar false (pick kept (exported d))) in
      raise (exn_of f)
  | Broken f None => raise (exn_of f)
  end.

(** Lines 121 and 129: [gzip -k {path}] writes [{path}.gz] and keeps
    [path]. *)
Definition sh_gzip_keep (path : string) : M unit :=
  let* _ := log (Sh (GzipKeep path)) in
  let* st := get_store in
  match st !! path, gzip_keep E path with
  | None, Written => raise CalledProcessError
  | Some f, Written => put_file (path +:+ ".gz") (Gz true f)
  | Some f, Broken fl (Some _) =>
      let* _ := put_file (path +:+ ".gz") (Gz false f) in
      raise (exn_of fl)
  | _, Broken fl _ => raise (exn_of fl)
  end.

(** Line 154, with its [try]/[except: pass]. *)
Definition cleanup (tmpdir : string) : M unit :=
  let* _ := log (Sh (RmRf tmpdir)) in
  match rm_rf E tmpdir with
  | Done _ => remove_scratch tmpdir
  | Failed _ => ret tt
  end.

(** Lines 58-70: the image id, whether the image has to be exported, and
    its manifest. *)
Definition resolve_image (image tmpdir : string)
  : M (string * bool * manifest_json) :=
  let* out := sh_docker_inspect image in
  let* image_id := index 1 (Py.split_on ":"%char (Py.strip out)) in
  let image_filename := image_filename_of image_id in
  let image_path := dir_hier_path E image_filename in
  let* found := exists_ image_path in
  if found then
    let* manifest := cached_manifest image_path in
    ret (image_id, false, manifest)
  else
    let* _ := sh_docker_save image tmpdir in
    let* manifest := exported_manifest tmpdir in
    ret (image_id, true, manifest).

(** Lines 114-121: one turn of the loop over the layers. *)
Definition layer_turn (tmpdir : string) (need_extract : bool)
    (layer : string) (input_files : list input_file)
  : M (list input_file) :=
  let layer_id := layer_id_of layer in
  let layer_filename := layer_filename_of layer in
  let* layer_path := sh_bin_dir_hier_path layer_filename in
  let input_files := input_files ++ [archive_file layer_filename] in
  let* _ :=
    if need_extract then
      let* found := exists_ layer_path in
      if negb found then
        let* _ := sh_tar_create layer_path tmpdir [layer_id] in
        sh_gzip_keep layer_path
      else ret tt
    else ret tt in
  ret input_files.

(** Line 113: [for layer in manifest[0]['Layers']]. *)
Fixpoint layer_loop (tmpdir : string) (need_extract : bool)
    (layers : list string) (input_files : list input_file)
  : M (list input_file) :=
  match layers with
  | [] => ret input_files
  | layer :: rest =>
      let* input_files := layer_turn tmpdir need_extract layer input_files in
      layer_loop tmpdir need_extract rest input_files
  end.

(** Lines 125-129. *)
Definition image_archive (tmpdir image_id : string) (need_extract : bool)
    (input_files : list input_file) : M (list input_file) :=
  let image_filename := image_filename_of image_id in
  let image_path := dir_hier_path E image_filename in
  let input_files := input_files ++ [archive_file image_filename] in
  let* _ :=
    if need_extract then
      let* _ := sh_tar_create image_path tmpdir (image_members image_id) in
      sh_gzip_keep image_path
    else ret tt in
  ret input_files.

(** Lines 133-147. At line 144 the template file is opened for writing
    before the document is serialized and parsed. *)
Definition submit (tmpdir appname : string) (create_work_args : gmap string string)
    (input_files : list input_file) : M string :=
  let root := input_template input_files in
  let template_file := tmpdir +:+ "/boinc2docker_in_" +:+ uuid_hex E in
  let* d := get_scratch tmpdir in
  let* _ := put_scratch tmpdir (ScratchDir (exported d) (Some (template_file, None))) in
  let* doc := lift (template_document E root) in
  let* _ := put_scratch tmpdir (ScratchDir (exported d) (Some (template_file, Some doc))) in
  let create_work_args := <["wu_template" := template_file]> create_work_args in
  let files := map backing_of input_files in
  let* _ := log (CreateWork appname create_work_args doc files) in
  let* out := lift (create_work E appname create_work_args files) in
  ret (Py.strip out).

(** Lines 73-147: what follows the reading of the manifest. *)
Definition staging (tmpdir image : string) (command : option command)
    (extras : option (list (string * string * list string)))
    (appname : string) (entrypoint : option string) (prerun postrun : string)
    (create_work_args : gmap string string)
    (image_id : string) (need_extract : bool) (manifest : manifest_json)
  : M string :=
  let input_files := extra_input_files extras in
  let command := command_text command in
  let entrypoint := entrypoint_text entrypoint in
  let script := script_text prerun entrypoint image command postrun in
  let input_files := input_files ++ [script_file script] in
  let* entry := index 0 manifest in
  let* input_files := layer_loop tmpdir need_extract (Layers entry) input_files in
  let* input_files := image_archive tmpdir image_id need_extract input_files in
  submit tmpdir appname create_work_args input_files.

(** Lines 56-147: the body of the [try]. *)
Definition packaging (tmpdir image : string) (command : option command)
    (input_files : option (list (string * string * list string)))
    (appname : string) (entrypoint : option string) (prerun postrun : string)
    (create_work_args : gmap string string) : M string :=
  let* (image_id, need_extract, manifest) := resolve_image image tmpdir in
  staging tmpdir image command input_files appname entrypoint prerun postrun
    create_work_args image_id need_extract manifest.

(** How a call of the function ends: with a value ([None] when nothing is
    returned) or with an exception for the caller. *)
Inductive outcome :=
| Returned (job : option string)
| Raised (e : exn).

(** Lines 149-156: [except KeyboardInterrupt] swallows the interruption,
    [finally] cleans up. *)
Definition outcome_of (r : result string) : outcome :=
  match r with
  | Val job => Returned (Some job)
  | Exc KeyboardInterrupt => Returned None
  | Exc e => Raised e
  end.

Definition guarded (tmpdir : string) (body : M string)
  : filesystem -> outcome * filesystem * list event :=
  fun s =>
    let '(r, s1, t1) := body s in
    let '(_, s2, t2) := cleanup tmpdir s1 in
    (outcome_of r, s2, t1 ++ t2).

(** Lines 21-156. *)
Definition boinc2docker_create_work (image : string) (command : option command)
    (input_files : option (list (string * string * list string)))
    (appname : string) (entrypoint : option string)
    (prerun postrun : option string)
    (create_work_args : option (gmap string string))
  : filesystem -> outcome * filesystem * list event :=
  fun s =>
    match mkdtemp E with
    | Exc e => (Raised e, s, [])
    | Val tmpdir =>
        let s := Filesystem (store s) (<[tmpdir := ScratchDir [] None]> (scratch s)) in
        let prerun := default "" prerun in
        let postrun := default "" postrun in
        let create_work_args := default ∅ create_work_args in
        let image := default_tag image in
        guarded tmpdir
          (packaging tmpdir image command input_files appname entrypoint
             prerun postrun create_work_args) s
    end.

End Script.

(** ** What a run submits *)

(** The script of line 83, from the arguments of the call ([image] with
    its tag). *)
Definition boinc_app_script (image : string) (command : option command)
    (entrypoint : option string) (prerun postrun : string) : string :=
  script_text prerun (entrypoint_text entrypoint) image (command_text command) postrun.

(** The list [input_files] at line 133, for the layers of a manifest
    entry. *)
Definition staged_files (extras : option (list (string * string * list string)))
    (script : string) (layers : list string) (image_id : string) : list input_file :=
  extra_input_files extras
    ++ [script_file script]
    ++ map (fun layer => archive_file (layer_filename_of layer)) layers
    ++ [archive_file (image_filename_of image_id)].

(** The call of line 147 for a list of input files and the document
    written from it. *)
Definition submission (E : Env) (tmpdir appname : string)
    (create_work_args : gmap string string) (staged : list input_file)
    (doc : dnode) : event :=
  CreateWork appname
    (<["wu_template" := tmpdir +:+ "/boinc2docker_in_" +:+ uuid_hex E]> create_work_args)
    doc (map backing_of staged).

(** [submits E tmpdir appname args staged e]: [e] is that call, with the
    document that line 144 writes for the list. *)
Definition submits (E : Env) (tmpdir appname : string)
    (create_work_args : gmap string string) (staged : list input_file)
    (e : event) : Prop :=
  exists doc,
    template_document E (input_template staged) = Val doc
    /\ e = submission E tmpdir appname create_work_args staged doc.

(** What can be read off the events of a run: the lists of backing files
    handed to [create_work], the input templates, the layer lists of the
    manifests read, and the cache filenames among backing files. *)
Definition submitted_files (t : list event) : list (list backing) :=
  omap (fun e => match e with CreateWork _ _ _ files => Some files | _ => None end) t.

Definition submitted_templates (t : list event) : list dnode :=
  omap (fun e => match e with CreateWork _ _ x _ => Some x | _ => None end) t.

Definition read_layers (t : list event) : list (list string) :=
  omap (fun e => match e with
                 | ReadManifest _ (entry :: _) => Some (Layers entry)
                 | _ => None
                 end) t.

Definition stored_files (files : list backing) : list string :=
  omap (fun b => match b with Stored f => Some f | Inline _ _ => None end) files.

Definition inline_files (files : list backing) : list (string * string) :=
  omap (fun b => match b with Inline n c => Some (n, c) | Stored _ => None end) files.

(** The shell commands among the events. *)
Definition commands (t : list event) : list cmd :=
  omap (fun e => match e with Sh c => Some c | _ => None end) t.

(** The same collaborators with another [tar], or another [rm]. *)
Definition with_tar_create (tar : string -> list string -> wreply (list string))
    (E : Env) : Env :=
  {| mkdtemp := mkdtemp E;
     uuid_hex := uuid_hex E;
     dir_hier_path := dir_hier_path E;
     create_work := create_work E;
     docker_inspect := docker_inspect E;
     docker_save := docker_save E;
     bin_dir_hier_path := bin_dir_hier_path E;
     tar_create := tar;
     gzip_keep := gzip_keep E;
     rm_rf := rm_rf E;
     xml_libraries := xml_libraries E;
     cut_archive := cut_archive E |}.

Definition with_rm_rf (rm : string -> reply unit) (E : Env) : Env :=
  {| mkdtemp := mkdtemp E;
     uuid_hex := uuid_hex E;
     dir_hier_path := dir_hier_path E;
     create_work := create_work E;
     docker_inspect := docker_inspect E;
     docker_save := docker_save E;
     bin_dir_hier_path := bin_dir_hier_path E;
     tar_create := tar_create E;
     gzip_keep := gzip_keep E;
     rm_rf := rm;
     xml_libraries := xml_libraries E;
     cut_archive := cut_archive E |}.

(** The line of the script that puts the archives together (line 89). *)
Definition reassembly_line : string :=
  "cat /root/shared/image/*.tar | tar xi -C /tmp/image".

(** Docker's reading of an image reference: it carries a tag (or a digest)
    when its last path component holds a colon; the colon of a registry
    port stands before a slash. *)
Definition has_tag (reference : string) : bool :=
  Py.contains ":"%char (Py.basename reference).

(** [broken_write E t p]: a [tar] or [gzip] of the events [t] stopped while
    it wrote to [p] and left what it had written. *)
Definition broken_write (E : Env) (t : list event) (p : string) : Prop :=
  (exists dir ms fl kept,
      Sh (TarCreate p dir ms) ∈ t /\ tar_create E p ms = Broken fl (Some kept))
  \/ (exists q fl x,
        Sh (GzipKeep q) ∈ t /\ p = q +:+ ".gz"
        /\ gzip_keep E q = Broken fl (Some x)).

(** ** Vocabulary of the properties *)

(** [sat m s Q]: running [m] from [s] ends in a result, a file system and
    events that satisfy [Q]. *)
Definition sat {A} (m : M A) (s : filesystem)
    (Q : result A -> filesystem -> list event -> Prop) : Prop :=
  Q (m s).1.1 (m s).1.2 (m s).2.

(** The events that write into the download directory, and the
    submission. *)
Definition is_write (e : event) : bool :=
  match e with
  | Sh (TarCreate _ _ _) | Sh (GzipKeep _) => true
  | _ => false
  end.

Definition is_submit (e : event) : bool :=
  match e with
  | CreateWork _ _ _ _ => true
  | _ => false
  end.

Definition is_check (e : event) : bool :=
  match e with
  | PathExists _ _ => true
  | _ => false
  end.

Definition is_read (e : event) : bool :=
  match e with
  | ReadManifest _ _ => true
  | _ => false
  end.

(** The image id that line 58 takes from docker's answer. *)
Definition inspected_id (E : Env) (image : string) : option string :=
  match docker_inspect E image with
  | Done out => Py.split_on ":"%char (Py.strip (Py.strip out)) !! 1
  | Failed _ => None
  end.

Definition image_path_of (E : Env) (image_id : string) : string :=
  dir_hier_path E (image_filename_of image_id).

(** [written_by E t p f]: the file [f] at [p] is what a [tar] or [gzip] of
    the events [t] wrote there, under the very name [p]; it is incomplete
    only if that tool stopped while writing. *)
Definition written_by (E : Env) (t : list event) (p : string) (f : file) : Prop :=
  (exists dir ms c content,
      f = Tar c content
      /\ Sh (TarCreate p dir ms) ∈ t
      /\ (c = false -> exists fl kept, tar_create E p ms = Broken fl (Some kept)))
  \/ (exists q c src,
        f = Gz c src
        /\ p = q +:+ ".gz"
        /\ Sh (GzipKeep q) ∈ t
        /\ (c = false -> exists fl x, gzip_keep E q = Broken fl (Some x))).

(** [frame E st st' t]: every path of the download directory holds in [st']
    what it held in [st], or what a tool of [t] wrote there. *)
Definition frame (E : Env) (st st' : gmap string file) (t : list event) : Prop :=
  forall p, st' !! p = st !! p \/ exists f, st' !! p = Some f /\ written_by E t p f.

(** The declarations that the loop appends, for files numbered from [i]. *)
Fixpoint infos_from (i : nat) (files : list input_file) : list xml :=
  match files with
  | [] => []
  | f :: rest => file_info_elem i (flags_of f) :: infos_from (S i) rest
  end.

Fixpoint refs_from (i : nat) (files : list input_file) : list xml :=
  match files with
  | [] => []
  | f :: rest => file_ref_elem i (open_name_of f) :: refs_from (S i) rest
  end.

(** C2 as the specification states it: the script decides an order of
    reassembly, and for every run this order is the order of the layers
    in the manifest that the run read. [order_of] stands for any way of
    reading the order off the text of the script. *)
Definition reassembles_in_manifest_order (order_of : string -> list string) : Prop :=
  forall E image command extras appname entrypoint prerun postrun create_work_args s
         files script layers,
    let t := (boinc2docker_create_work E image command extras appname entrypoint
                prerun postrun create_work_args s).2 in
    files ∈ submitted_files t ->
    last (inline_files files) = Some ("boinc_app", script) ->
    layers ∈ read_layers t ->
    order_of script = map layer_filename_of layers.

(** ** A small world to run the script in *)

Module Sample.

(** An image with id [1111] and the given layers, as docker exports it. *)
Definition manifest_for (layers : list string) : manifest_json :=
  [ManifestEntry "1111.json" ["myimage:latest"] layers].

Definition export_for (layers : list string) : tree :=
  map (fun layer => (layer_id_of layer, Blob "layer")) layers
    ++ [ ("1111.json", Blob "config");
         ("manifest.json", Json (manifest_for layers));
         ("repositories", Blob "tags") ].

(** Collaborators that all do their work. *)
Definition healthy (layers : list string) : Env :=
  {| mkdtemp := Val "/tmp/tmpx";
     uuid_hex := "0a1b";
     dir_hier_path := fun f => "download/" +:+ f;
     create_work := fun _ _ _ => Val ("wu_1" +:+ Py.nl);
     docker_inspect := fun _ => Done ("sha256:1111" +:+ Py.nl);
     docker_save := fun _ => Done (export_for layers);
     bin_dir_hier_path := fun f => Done ("download/" +:+ f +:+ Py.nl);
     tar_create := fun _ _ => Written;
     gzip_keep := fun _ => Written;
     rm_rf := fun _ => Done tt;
     xml_libraries := fun _ => Refused NotWellFormed;
     cut_archive := fun _ => CutAtOpen |}.

Definition layers2 : list string := ["aaa/layer.tar"; "bbb/layer.tar"].
Definition layers123 : list string := ["L1/layer.tar"; "L2/layer.tar"; "L3/layer.tar"].
Definition layers321 : list string := ["L3/layer.tar"; "L2/layer.tar"; "L1/layer.tar"].

Definition empty : filesystem := Filesystem ∅ ∅.

(** A download directory that holds the image archive and no layer
    archive. *)
Definition image_only : filesystem :=
  Filesystem
    {[ "download/image_1111.tar"
       := Tar true (pick (image_members "1111") (export_for layers2)) ]}
    ∅.

(** The same, with the image archive compressed by gzip under its own
    name. *)
Definition compressed_image : filesystem :=
  Filesystem
    {[ "download/image_1111.tar"
       := Gz true (Tar true (pick (image_members "1111") (export_for layers2))) ]}
    ∅.

(** [tar] runs out of space while it writes the first layer, after the
    header. *)
Definition tar_fails_on_layer : Env :=
  with_tar_create
    (fun dest _ =>
       if String.eqb dest "download/layer_aaa.tar"
       then Broken NonZeroExit (Some []) else Written)
    (healthy layers2).

(** The run is interrupted while [tar] writes the image archive, after
    its first member. *)
Definition interrupted_on_image : Env :=
  with_tar_create
    (fun dest _ =>
       if String.eqb dest "download/image_1111.tar"
       then Broken Interrupt (Some ["1111.json"]) else Written)
    (healthy layers2).

(** The call [boinc2docker_create_work(image, command)]. *)
Definition call (E : Env) (image : string) (command : option command)
    (s : filesystem) : outcome * filesystem * list event :=
  boinc2docker_create_work E image command None "boinc2docker" None None None None s.

End Sample.

(** ** Vocabulary of the further properties *)

(** An argument that holds no double quote. *)
Definition quote_free (a : string) : bool := negb (Py.contains "034"%char a).

(** A path component: no slash in it. *)
Definition slash_free (a : string) : bool := negb (Py.contains "/"%char a).

(** A field of docker's [algorithm:digest] answer: neither a colon nor a
    white space in it. *)
Definition plain_field (a : string) : bool :=
  all_chars (fun c => negb (Py.isspace c) && negb (Ascii.eqb c ":"%char)) a.

(** No collaborator is interrupted: none raises [KeyboardInterrupt]. *)
Definition never_interrupted (E : Env) : Prop :=
  (forall a g files, create_work E a g files <> Exc KeyboardInterrupt)
  /\ (forall image, docker_inspect E image <> Failed Interrupt)
  /\ (forall image, docker_save E image <> Failed Interrupt)
  /\ (forall f, bin_dir_hier_path E f <> Failed Interrupt)
  /\ (forall dest ms left, tar_create E dest ms <> Broken Interrupt left)
  /\ (forall path left, gzip_keep E path <> Broken Interrupt left).

(** How a run ends when [create_work] has answered. *)
Definition outcome_of_submission (r : result string) : outcome :=
  outcome_of (match r with Val out => Val (Py.strip out) | Exc e => Exc e end).

(** The commands that stage archives (lines 113-129). *)
Definition is_staging_cmd (c : cmd) : bool :=
  match c with
  | BinDirHierPath _ | TarCreate _ _ _ | GzipKeep _ => true
  | _ => false
  end.

(** The collaborators [E] with another docker behind [docker inspect]. *)
Definition with_docker_inspect (inspect : string -> reply string) (E : Env) : Env :=
  {| mkdtemp := mkdtemp E;
     uuid_hex := uuid_hex E;
     dir_hier_path := dir_hier_path E;
     create_work := create_work E;
     docker_inspect := inspect;
     docker_save := docker_save E;
     bin_dir_hier_path := bin_dir_hier_path E;
     tar_create := tar_create E;
     gzip_keep := gzip_keep E;
     rm_rf := rm_rf E;
     xml_libraries := xml_libraries E;
     cut_archive := cut_archive E |}.

(** The collaborators [E] with other XML libraries behind line 144. *)
Definition with_xml_libraries (libraries : xml -> rendering) (E : Env) : Env :=
  {| mkdtemp := mkdtemp E;
     uuid_hex := uuid_hex E;
     dir_hier_path := dir_hier_path E;
     create_work := create_work E;
     docker_inspect := docker_inspect E;
     docker_save := docker_save E;
     bin_dir_hier_path := bin_dir_hier_path E;
     tar_create := tar_create E;
     gzip_keep := gzip_keep E;
     rm_rf := rm_rf E;
     xml_libraries := libraries;
     cut_archive := cut_archive E |}.

(** The input files whose template is [well_formed]: an open name made of
    ASCII XML characters and flags that are plain XML names. *)
Definition template_ready (f : input_file) : bool :=
  all_chars text_char (open_name_of f) && forallb xml_name (flags_of f).

(** C4 as the specification states it, for the document that line 144
    writes for a list of input files: as many [file_info] and [file_ref]
    declarations as files, numbered [str(0)], [str(1)], ... in the order
    of the files, and at each index the open name of the file. *)
Definition declares (files : list input_file) (doc : dnode) : Prop :=
  let N := length files in
  length (declared_infos doc) = N
  /\ length (declared_refs doc) = N
  /\ map (field "number") (declared_infos doc)
     = map (fun i => Some (Py.str_int i)) (seq 0 N)
  /\ map (field "file_number") (declared_refs doc)
     = map (fun i => Some (Py.str_int i)) (seq 0 N)
  /\ map (field "open_name") (declared_refs doc)
     = map (fun f => Some (open_name_of f)) files.

(** The same with the open names as the XML parser leaves them. *)
Definition declares_parsed (files : list input_file) (doc : dnode) : Prop :=
  let N := length files in
  length (declared_infos doc) = N
  /\ length (declared_refs doc) = N
  /\ map (field "number") (declared_infos doc)
     = map (fun i => Some (Py.str_int i)) (seq 0 N)
  /\ map (field "file_number") (declared_refs doc)
     = map (fun i => Some (Py.str_int i)) (seq 0 N)
  /\ map (field "open_name") (declared_refs doc)
     = map (fun f => Some (line_ends (open_name_of f))) files.

(** * Properties *)

(** ** The input template (lines 133-142) *)

Section Template.

Lemma template_loop_spec (files : list input_file) :
  forall i infos refs,
    template_loop i files infos refs
    = (infos ++ infos_from i files, refs ++ refs_from i files).
Proof.
  induction files as [|[[open_name b] flags] rest IH]; intros i infos refs; simpl.
  - by rewrite !app_nil_r.
  - rewrite IH, <- !app_assoc. reflexivity.
Qed.

Lemma input_template_spec (files : list input_file) :
  input_template files
  = Element "input_template" None
      (Element "workunit" None (refs_from 0 files) :: infos_from 0 files).
Proof. unfold input_template. by rewrite template_loop_spec. Qed.

Lemma filter_infos_from (files : list input_file) :
  forall i,
    filter (fun x => tag_of x = "file_info") (infos_from i files)
    = infos_from i files.
Proof.
  induction files as [|f rest IH]; intros i; simpl; [done|].
  rewrite filter_cons_True by done. by rewrite IH.
Qed.

Lemma filter_refs_from (files : list input_file) :
  forall i,
    filter (fun x => tag_of x = "file_ref") (refs_from i files)
    = refs_from i files.
Proof.
  induction files as [|f rest IH]; intros i; simpl; [done|].
  rewrite filter_cons_True by done. by rewrite IH.
Qed.

Lemma filter_workunit_infos (files : list input_file) :
  forall i,
    filter (fun x => tag_of x = "workunit") (infos_from i files) = [].
Proof.
  induction files as [|f rest IH]; intros i; simpl; [done|].
  rewrite filter_cons_False by done. apply IH.
Qed.

Lemma file_infos_spec (files : list input_file) :
  file_infos (input_template files) = infos_from 0 files.
Proof.
  rewrite input_template_spec. unfold file_infos, children_of.
  rewrite filter_cons_False by done. apply filter_infos_from.
Qed.

Lemma file_refs_spec (files : list input_file) :
  file_refs (input_template files) = refs_from 0 files.
Proof.
  rewrite input_template_spec. unfold file_refs, children_of at 2.
  rewrite filter_cons_True by done.
  rewrite filter_workunit_infos. simpl. rewrite app_nil_r.
  apply filter_refs_from.
Qed.

Lemma length_infos_from (files : list input_file) :
  forall i, length (infos_from i files) = length files.
Proof. induction files; intros i; simpl; [done|]. by rewrite IHfiles. Qed.

Lemma length_refs_from (files : list input_file) :
  forall i, length (refs_from i files) = length files.
Proof. induction files; intros i; simpl; [done|]. by rewrite IHfiles. Qed.

Lemma numbers_infos_from (files : list input_file) :
  forall i,
    map (child_text "number") (infos_from i files)
    = map (fun j => Some (Py.str_int j)) (seq i (length files)).
Proof. induction files; intros i; simpl; [done|]. by rewrite IHfiles. Qed.

Lemma numbers_refs_from (files : list input_file) :
  forall i,
    map (child_text "file_number") (refs_from i files)
    = map (fun j => Some (Py.str_int j)) (seq i (length files)).
Proof. induction files; intros i; simpl; [done|]. by rewrite IHfiles. Qed.

Lemma open_names_refs_from (files : list input_file) :
  forall i,
    map (child_text "open_name") (refs_from i files)
    = map (fun f => Some (open_name_of f)) files.
Proof. induction files; intros i; simpl; [done|]. by rewrite IHfiles. Qed.



(** [str(i)] tells the indices apart. *)
Lemma str_int_inj (i j : nat) : Py.str_int i = Py.str_int j -> i = j.
Proof.
  unfold Py.str_int. intros H.
  apply DecimalNat.Unsigned.to_uint_inj.
  assert (Hs : Some (Nat.to_uint i) = Some (Nat.to_uint j))
    by (by rewrite <- !NilEmpty.usu, H).
  by inversion Hs.
Qed.

(** For every sequence of N input files the element tree holds
    exactly N [file_info] and exactly N [file_ref] declarations; the
    numbers of each are [str(0)], ..., [str(N-1)] in the order of the
    files, and the [open_name] of the i-th [file_ref] is the open name of
    the i-th file. *)
Lemma tree_dense_indices (files : list input_file) :
  let t := input_template files in
  let N := length files in
  length (file_infos t) = N
  /\ length (file_refs t) = N
  /\ map (child_text "number") (file_infos t)
     = map (fun i => Some (Py.str_int i)) (seq 0 N)
  /\ map (child_text "file_number") (file_refs t)
     = map (fun i => Some (Py.str_int i)) (seq 0 N)
  /\ map (child_text "open_name") (file_refs t)
     = map (fun f => Some (open_name_of f)) files.
Proof.
  simpl. rewrite file_infos_spec, file_refs_spec.
  rewrite length_infos_from, length_refs_from.
  rewrite numbers_infos_from, numbers_refs_from, open_names_refs_from.
  done.
Qed.

(** *** The document of line 144 *)

Lemma uint_text (d : Decimal.uint) :
  all_chars text_char (NilEmpty.string_of_uint d) = true.
Proof.
  induction d; cbn [NilEmpty.string_of_uint all_chars]; [done|..];
    rewrite IHd; reflexivity.
Qed.

Lemma str_int_text (i : nat) : all_chars text_char (Py.str_int i) = true.
Proof. apply uint_text. Qed.

Lemma well_formed_refs_from (files : list input_file) :
  forall i,
    forallb well_formed (refs_from i files)
    = forallb (fun f => all_chars text_char (open_name_of f)) files.
Proof.
  induction files as [|f rest IH]; intros i; [done|].
  cbn [refs_from forallb]. rewrite IH. f_equal.
  unfold file_ref_elem. cbn [well_formed forallb xml_text].
  rewrite str_int_text.
  change (xml_name "file_ref") with true. change (xml_name "file_number") with true.
  change (xml_name "open_name") with true. change (xml_name "copy_file") with true.
  cbn [andb]. by rewrite !andb_true_r.
Qed.

Lemma well_formed_markers (flags : list string) :
  forallb well_formed (map (fun flag => Element flag None []) flags)
  = forallb xml_name flags.
Proof.
  induction flags as [|flag rest IH]; [done|].
  cbn [map forallb well_formed xml_text]. rewrite IH. by rewrite !andb_true_r.
Qed.

Lemma well_formed_infos_from (files : list input_file) :
  forall i,
    forallb well_formed (infos_from i files)
    = forallb (fun f => forallb xml_name (flags_of f)) files.
Proof.
  induction files as [|f rest IH]; intros i; [done|].
  cbn [infos_from forallb]. rewrite IH. f_equal.
  unfold file_info_elem. cbn [well_formed forallb xml_text].
  rewrite str_int_text, well_formed_markers.
  change (xml_name "file_info") with true. change (xml_name "number") with true.
  by cbn [andb].
Qed.

Lemma forallb_both {A} (p q : A -> bool) (l : list A) :
  forallb p l && forallb q l = forallb (fun a => p a && q a) l.
Proof.
  induction l as [|a l IH]; [done|]. cbn [forallb]. rewrite <- IH.
  destruct (p a), (q a), (forallb p l); done.
Qed.

(** The trees of the model's own: every open name made of ASCII XML
    characters, every flag a plain XML name. *)
Lemma well_formed_input_template (files : list input_file) :
  well_formed (input_template files) = forallb template_ready files.
Proof.
  rewrite input_template_spec. cbn [well_formed forallb xml_text].
  rewrite well_formed_refs_from, well_formed_infos_from.
  change (xml_name "input_template") with true.
  change (xml_name "workunit") with true. cbn [andb].
  apply forallb_both.
Qed.

Lemma uint_line_ends (d : Decimal.uint) :
  line_ends (NilEmpty.string_of_uint d) = NilEmpty.string_of_uint d.
Proof.
  induction d; cbn [NilEmpty.string_of_uint]; [done|..];
    cbn [line_ends]; rewrite IHd; reflexivity.
Qed.

Lemma text_in_written_text (name : string) (attrs : list (string * string))
    (s : string) :
  text_in (DElement name attrs (written_text (Some s))) = line_ends s.
Proof.
  unfold written_text. destruct s as [|c s]; [done|].
  cbn [Py.is_empty]. unfold text_in. cbn [nodes_of map data_of String.concat].
  reflexivity.
Qed.

Lemma written_infos_from (files : list input_file) :
  forall i,
    filter (fun c => is_named "file_info" c = true)
      (map written (infos_from i files))
    = map written (infos_from i files)
    /\ filter (fun c => is_named "workunit" c = true)
         (map written (infos_from i files)) = []
    /\ map (field "number") (map written (infos_from i files))
       = map (fun j => Some (Py.str_int j)) (seq i (length files)).
Proof.
  induction files as [|f rest IH]; intros i; [done|].
  destruct (IH (S i)) as (IH1 & IH2 & IH3).
  cbn [infos_from map length seq]. split_and!.
  - rewrite filter_cons_True by done. by rewrite IH1.
  - rewrite filter_cons_False by done. exact IH2.
  - rewrite IH3. f_equal. unfold file_info_elem. cbn [written map app].
    change (written_text None) with (@nil dnode). rewrite ?app_nil_r.
    unfold field, named. cbn [nodes_of app].
    rewrite filter_cons_True by done.
    rewrite text_in_written_text. f_equal. apply uint_line_ends.
Qed.

Lemma written_refs_from (files : list input_file) :
  forall i,
    filter (fun c => is_named "file_ref" c = true)
      (map written (refs_from i files))
    = map written (refs_from i files)
    /\ map (field "file_number") (map written (refs_from i files))
       = map (fun j => Some (Py.str_int j)) (seq i (length files))
    /\ map (field "open_name") (map written (refs_from i files))
       = map (fun f => Some (line_ends (open_name_of f))) files.
Proof.
  induction files as [|f rest IH]; intros i; [done|].
  destruct (IH (S i)) as (IH1 & IH2 & IH3).
  cbn [refs_from map length seq]. split_and!.
  - rewrite filter_cons_True by done. by rewrite IH1.
  - rewrite IH2. f_equal. unfold file_ref_elem. cbn [written map app].
    change (written_text None) with (@nil dnode). rewrite ?app_nil_r.
    unfold field, named. cbn [nodes_of app].
    rewrite filter_cons_True by done.
    rewrite text_in_written_text. f_equal. apply uint_line_ends.
  - rewrite IH3. f_equal. unfold file_ref_elem. cbn [written map app].
    change (written_text None) with (@nil dnode). rewrite ?app_nil_r.
    unfold field, named. cbn [nodes_of app].
    rewrite filter_cons_False by done.
    rewrite filter_cons_True by done.
    by rewrite text_in_written_text.
Qed.

(** What the document of a well-formed template declares. *)
Lemma written_declares (files : list input_file) :
  declares_parsed files (written (input_template files)).
Proof.
  rewrite input_template_spec. unfold declares_parsed.
  destruct (written_infos_from files 0) as (Hi1 & Hi2 & Hi3).
  destruct (written_refs_from files 0) as (Hr1 & Hr2 & Hr3).
  assert (Hinfos : declared_infos
                     (written (Element "input_template" None
                                 (Element "workunit" None (refs_from 0 files)
                                    :: infos_from 0 files)))
                   = map written (infos_from 0 files)).
  { unfold declared_infos, named. cbn [written nodes_of map].
    change (written_text None) with (@nil dnode). cbn [app].
    rewrite filter_cons_False by done. exact Hi1. }
  assert (Hrefs : declared_refs
                    (written (Element "input_template" None
                                (Element "workunit" None (refs_from 0 files)
                                   :: infos_from 0 files)))
                  = map written (refs_from 0 files)).
  { unfold declared_refs, named at 2. cbn [written nodes_of map].
    change (written_text None) with (@nil dnode). cbn [app].
    rewrite filter_cons_True by done. rewrite Hi2.
    cbn [flat_map]. rewrite app_nil_r. unfold named. cbn [nodes_of]. exact Hr1. }
  rewrite Hinfos, Hrefs, !length_map, length_infos_from, length_refs_from.
  by rewrite Hi3, Hr2, Hr3.
Qed.

(** C4 (what the code does). For every list of N input files whose open
    names are made of ASCII XML characters and whose flags are plain XML
    names, line 144 writes a document with exactly N [file_info] and
    exactly N [file_ref] declarations; the numbers of each are [str(0)],
    ..., [str(N-1)] in the order of the files, and the [open_name] of the
    i-th [file_ref] is the open name of the i-th file as the XML parser
    leaves it: with [\r\n] and a lone [\r] turned into [\n]. *)
Theorem written_template_dense_indices (E : Env) (files : list input_file) :
  forallb template_ready files = true ->
  exists doc,
    template_document E (input_template files) = Val doc
    /\ declares_parsed files doc.
Proof.
  intros Hready. exists (written (input_template files)). split.
  - unfold template_document. by rewrite well_formed_input_template, Hready.
  - apply written_declares.
Qed.


End Template.

(** ** Command quoting (lines 80-81) *)

Section Quoting.

Lemma length_app (s1 s2 : string) :
  String.length (s1 +:+ s2) = String.length s1 + String.length s2.
Proof. induction s1; simpl; [done|]. by rewrite IHs1. Qed.

(** Joining longer pieces with a longer separator gives a longer text. *)
Lemma length_join_le (sep1 sep2 : string) (l1 l2 : list string) :
  String.length sep1 <= String.length sep2 ->
  Forall2 (fun a b => String.length a <= String.length b) l1 l2 ->
  String.length (Py.join sep1 l1) <= String.length (Py.join sep2 l2).
Proof.
  intros Hsep H. unfold Py.join.
  induction H as [|a b l1 l2 Hab Hl IH]; [done|].
  destruct Hl as [|a' b' l1 l2 Hab' Hl].
  - exact Hab.
  - change (String.length (a +:+ sep1 +:+ String.concat sep1 (a' :: l1))
            <= String.length (b +:+ sep2 +:+ String.concat sep2 (b' :: l2))).
    rewrite !length_app. lia.
Qed.

Lemma length_repr_char (quote c : ascii) :
  1 <= String.length (Py.repr_char quote c).
Proof.
  unfold Py.repr_char.
  repeat (match goal with |- context [if ?b then _ else _] => destruct b end);
    simpl; lia.
Qed.

Lemma length_repr_body (quote : ascii) (s : string) :
  String.length s <= String.length (Py.repr_body quote s).
Proof.
  induction s as [|c s IH]; simpl; [done|].
  rewrite length_app. pose proof (length_repr_char quote c). lia.
Qed.

Lemma length_repr (s : string) :
  String.length s + 2 <= String.length (Py.repr s).
Proof.
  unfold Py.repr.
  match goal with |- context [Py.repr_body ?q s] =>
    pose proof (length_repr_body q s); generalize dependent (Py.repr_body q s) end.
  intros body Hbody. simpl. rewrite length_app. simpl. lia.
Qed.

(** The representations of the arguments, joined, are at least as long
    as the quoted arguments, joined. *)
Lemma length_join_repr (args : list string) :
  String.length (Py.join " " (map (fun x => Py.dq +:+ str x +:+ Py.dq) (map PStr args)))
  <= String.length (Py.join ", " (map Py.repr args)).
Proof.
  apply length_join_le; [simpl; lia|].
  induction args as [|a rest IH]; simpl; constructor; [|exact IH].
  pose proof (length_repr a). change (str (PStr a)) with a.
  rewrite !length_app. change (String.length Py.dq) with 1. lia.
Qed.

Lemma length_quote_list (args : list string) :
  String.length (quote_command (map PStr args))
  < String.length (quote_command [PList args]).
Proof.
  pose proof (length_join_repr args) as H.
  unfold quote_command at 2.
  change (String.length (quote_command (map PStr args))
          < String.length (Py.dq +:+ ("[" +:+ Py.join ", " (map Py.repr args) +:+ "]") +:+ Py.dq)).
  rewrite !length_app. simpl. unfold quote_command. lia.
Qed.

Lemma length_script_text (prerun entrypoint image command postrun : string) :
  String.length (script_text prerun entrypoint image command postrun)
  = String.length command
    + String.length (script_text prerun entrypoint image "" postrun).
Proof.
  unfold script_text, Py.join. cbn [String.concat].
  repeat (rewrite !length_app; cbn [String.length Py.nl Py.dq]).
  lia.
Qed.

(** The command of the docstring, both ways. *)
Example command_text_string :
  command_text (Some (CmdStr "echo foo"))
  = Py.dq +:+ "['echo', 'foo']" +:+ Py.dq.
Proof. reflexivity. Qed.

Example command_text_list :
  command_text (Some (CmdList ["echo"; "foo"]))
  = Py.dq +:+ "echo" +:+ Py.dq +:+ " " +:+ Py.dq +:+ "foo" +:+ Py.dq.
Proof. reflexivity. Qed.

(** No command at all is rendered as the one argument [[]]. *)
Example command_text_none :
  command_text None = Py.dq +:+ "[]" +:+ Py.dq.
Proof. reflexivity. Qed.

(** C1 (what the code does). A command given as a string is never
    rendered like the list of its whitespace tokens: line 80 wraps the
    token list in a list, so that line 81 quotes the printed form of the
    token list as one argument, which is strictly longer than the quoted
    tokens; the two boinc_app scripts differ as well. For the string
    [echo foo] the code renders the one argument [['echo', 'foo']] and
    not the two arguments [echo] and [foo]. *)
Theorem string_command_not_rendered_as_tokens
    (s prerun entrypoint image postrun : string) :
  command_text (Some (CmdStr s)) <> command_text (Some (CmdList (Py.split_ws s)))
  /\ script_text prerun entrypoint image (command_text (Some (CmdStr s))) postrun
     <> script_text prerun entrypoint image
          (command_text (Some (CmdList (Py.split_ws s)))) postrun
  /\ command_text (Some (CmdStr "echo foo")) = Py.dq +:+ "['echo', 'foo']" +:+ Py.dq
  /\ command_text (Some (CmdList (Py.split_ws "echo foo")))
     = Py.dq +:+ "echo" +:+ Py.dq +:+ " " +:+ Py.dq +:+ "foo" +:+ Py.dq.
Proof.
  pose proof (length_quote_list (Py.split_ws s)) as Hlen.
  unfold command_text, normalize_command.
  split; [|split; [|split; reflexivity]].
  - intros Heq. rewrite Heq in Hlen. lia.
  - intros Heq.
    apply (f_equal String.length) in Heq.
    rewrite (length_script_text _ _ _ (quote_command [_])) in Heq.
    rewrite (length_script_text _ _ _ (quote_command (map _ _))) in Heq.
    lia.
Qed.

End Quoting.

(** ** Reasoning about runs *)

Lemma sat_bind {A B} (m : M A) (k : A -> M B) s Q :
  sat m s (fun r s1 t1 =>
             match r with
             | Val a => sat (k a) s1 (fun r2 s2 t2 => Q r2 s2 (t1 ++ t2))
             | Exc e => Q (Exc e) s1 t1
             end) ->
  sat (bind m k) s Q.
Proof.
  unfold sat, bind. destruct (m s) as [[[a|e] s1] t1]; simpl; [|done].
  by destruct (k a s1) as [[r2 s2] t2].
Qed.

Lemma sat_mono {A} (m : M A) s (P Q : result A -> filesystem -> list event -> Prop) :
  sat m s P -> (forall r s' t, P r s' t -> Q r s' t) -> sat m s Q.
Proof. unfold sat. auto. Qed.

Lemma sat_ret {A} (a : A) s (Q : result A -> filesystem -> list event -> Prop) :
  Q (Val a) s [] -> sat (ret a) s Q.
Proof. done. Qed.

Section Frame.

Variable E : Env.

Lemma written_by_mono t t' p f :
  written_by E t p f -> (forall e, e ∈ t -> e ∈ t') -> written_by E t' p f.
Proof.
  intros [(dir & ms & c & content & -> & Hin & Hc)|(q & c & src & -> & -> & Hin & Hc)] Hsub.
  - left. exists dir, ms, c, content. auto.
  - right. exists q, c, src. auto.
Qed.

Lemma frame_refl st t : frame E st st t.
Proof. intros p. by left. Qed.

Lemma frame_mono st st' t t' :
  frame E st st' t -> (forall e, e ∈ t -> e ∈ t') -> frame E st st' t'.
Proof.
  intros H Hsub p. destruct (H p) as [?|(f & ? & ?)]; [by left|].
  right. exists f. eauto using written_by_mono.
Qed.

Lemma frame_put st st' t p f :
  frame E st st' t -> written_by E t p f -> frame E st (<[p:=f]> st') t.
Proof.
  intros H Hw q. destruct (decide (p = q)) as [->|Hne].
  - right. exists f. by rewrite lookup_insert_eq.
  - rewrite lookup_insert_ne by done. apply H.
Qed.

Lemma frame_trans st st1 st2 t1 t2 :
  frame E st st1 t1 -> frame E st1 st2 t2 -> frame E st st2 (t1 ++ t2).
Proof.
  intros H1 H2 p. destruct (H2 p) as [Heq|(f & ? & ?)].
  - rewrite Heq. destruct (H1 p) as [?|(f & ? & ?)]; [by left|].
    right. exists f. split; [done|].
    eapply written_by_mono; [done|]. intros e. rewrite elem_of_app. auto.
  - right. exists f. split; [done|].
    eapply written_by_mono; [done|]. intros e. rewrite elem_of_app. auto.
Qed.

Lemma frame_same st st' t : st' = st -> frame E st st' t.
Proof. intros ->. apply frame_refl. Qed.

End Frame.

Lemma gz_path_ne (p : string) : p +:+ ".gz" <> p.
Proof.
  intros H. apply (f_equal String.length) in H.
  rewrite length_app in H. simpl in H. lia.
Qed.

Section Phases.

Variable E : Env.

#[local] Arguments pick : simpl never.
#[local] Arguments input_template : simpl never.
#[local] Arguments well_formed : simpl never.
#[local] Arguments tarfile_open : simpl never.
#[local] Arguments template_document : simpl never.

Ltac run_all :=
  unfold sat, resolve_image, cached_manifest, exported_manifest, exists_,
    sh_docker_inspect, sh_docker_save, sh_bin_dir_hier_path, sh_tar_create,
    sh_gzip_keep, index, lift, log, get_store, get_scratch, put_scratch,
    put_file, remove_scratch, bind, ret, raise in *.

(** Symbolic execution of straight-line code: unfold, split on what the
    outside answers, and look at every end. *)
Ltac run_cases :=
  run_all; simpl; repeat (case_match; simpl in *; simplify_eq).

Ltac in_trace Hin :=
  simpl in Hin;
  repeat (apply elem_of_cons in Hin as [Hin|Hin]; [simplify_eq; by eauto|]);
  try (by apply elem_of_nil in Hin).

(** Lines 58-70. *)
Lemma resolve_image_spec (image tmpdir : string) (s : filesystem) :
  sat (resolve_image E image tmpdir) s (fun r s' t =>
    store s' = store s
    /\ Forall (fun e => is_write e = false /\ is_submit e = false) t
    /\ (forall p b, PathExists p b ∈ t ->
          exists id, inspected_id E image = Some id
                     /\ p = image_path_of E id
                     /\ b = bool_decide (is_Some (store s !! p)))
    /\ match r with
       | Val (id, need_extract, m) =>
           inspected_id E image = Some id
           /\ need_extract = negb (bool_decide (is_Some (store s !! image_path_of E id)))
           /\ filter (fun e => is_read e = true) t
              = [ReadManifest (if need_extract then tmpdir +:+ "/manifest.json"
                               else image_path_of E id) m]
           /\ (if need_extract
               then exists tr, docker_save E image = Done tr
                               /\ scratch s' !! tmpdir = Some (ScratchDir tr None)
                               /\ load_manifest IOError tr = Val m
               else s' = s
                    /\ exists f content,
                         store s !! image_path_of E id = Some f
                         /\ tarfile_open f = Members content
                         /\ load_manifest KeyError content = Val m)
       | Exc _ => filter (fun e => is_read e = true) t = []
       end).
Proof.
  unfold inspected_id, image_path_of. run_cases.
  all: try (match goal with H : store ?f !! ?p = Some ?x |- _ =>
              assert (bool_decide (is_Some (store f !! p)) = true)
                by (apply bool_decide_eq_true_2; rewrite H; eauto) end).
  all: split_and!; try done; try (by repeat constructor).
  all: try (match goal with H : bool_decide _ = _ |- _ => by rewrite H end).
  all: try (intros p b Hin; in_trace Hin; fail).
  - eauto.
  - eexists. split; [done|]. split; [apply lookup_insert_eq|].
    match goal with
    | H : load_manifest IOError _ = Val _ |- _ =>
        by rewrite lookup_insert_eq in H
    end.
Qed.

Ltac in_list := simpl; by repeat constructor.

Ltac written :=
  first
    [ left; eexists _, _, _, _; split; [reflexivity|]; split; [in_list|];
      first [done | by eauto]
    | right; eexists _, _, _; split; [reflexivity|]; split; [reflexivity|];
      split; [in_list|]; first [done | by eauto] ].

Ltac framed :=
  simpl;
  repeat first [ apply frame_refl | apply frame_put; [|written] ].

Ltac absurd_lookup :=
  match goal with
  | H : <[?p:=_]> _ !! ?p = None |- _ => by rewrite lookup_insert_eq in H
  end.

(** Lines 114-121. *)
Lemma layer_turn_spec (tmpdir : string) (need_extract : bool) (layer : string)
    (input_files : list input_file) (s : filesystem) :
  sat (layer_turn E tmpdir need_extract layer input_files) s (fun r s' t =>
    scratch s' = scratch s
    /\ frame E (store s) (store s') t
    /\ Forall (fun e => is_submit e = false /\ is_read e = false) t
    /\ (need_extract = false ->
          store s' = store s
          /\ Forall (fun e => is_write e = false /\ is_check e = false) t)
    /\ (forall l, r = Val l ->
          l = input_files ++ [archive_file (layer_filename_of layer)])).
Proof.
  unfold layer_turn. run_cases.
  all: try absurd_lookup.
  all: split_and!; try done; try (by repeat constructor); try (by framed).
  all: try (by intros ? [= <-]).
Qed.

(** Lines 113-121. *)
Lemma layer_loop_spec (tmpdir : string) (need_extract : bool) (layers : list string) :
  forall (input_files : list input_file) (s : filesystem),
  sat (layer_loop E tmpdir need_extract layers input_files) s (fun r s' t =>
    scratch s' = scratch s
    /\ frame E (store s) (store s') t
    /\ Forall (fun e => is_submit e = false /\ is_read e = false) t
    /\ (need_extract = false ->
          store s' = store s
          /\ Forall (fun e => is_write e = false /\ is_check e = false) t)
    /\ (forall l, r = Val l ->
          l = input_files
                ++ map (fun layer => archive_file (layer_filename_of layer)) layers)).
Proof.
  induction layers as [|layer rest IH]; intros input_files s.
  - apply sat_ret. rewrite app_nil_r.
    split_and!; try done; [apply frame_refl|]. by intros ? [= <-].
  - simpl. apply sat_bind.
    eapply sat_mono; [apply layer_turn_spec|].
    intros [l1|e] s1 t1 (Hsc & Hfr & Hev & Hno & Hl); [|done].
    eapply sat_mono; [apply IH|].
    intros r s2 t2 (Hsc2 & Hfr2 & Hev2 & Hno2 & Hl2).
    split_and!.
    + congruence.
    + eauto using frame_trans.
    + by apply Forall_app.
    + intros Hneed. destruct (Hno Hneed), (Hno2 Hneed).
      split; [congruence|by apply Forall_app].
    + intros l Hr. rewrite (Hl2 l Hr), (Hl l1 eq_refl).
      by rewrite <- app_assoc.
Qed.

(** Lines 125-129. *)
Lemma image_archive_spec (tmpdir image_id : string) (need_extract : bool)
    (input_files : list input_file) (s : filesystem) :
  sat (image_archive E tmpdir image_id need_extract input_files) s (fun r s' t =>
    scratch s' = scratch s
    /\ frame E (store s) (store s') t
    /\ Forall (fun e => is_submit e = false /\ is_read e = false
                        /\ is_check e = false) t
    /\ (need_extract = false -> s' = s /\ t = [])
    /\ (forall l, r = Val l ->
          l = input_files ++ [archive_file (image_filename_of image_id)]
          /\ (need_extract = true ->
                store s' !! image_path_of E image_id
                = Some (Tar true
                          (pick (image_members image_id)
                             (exported (default (ScratchDir [] None)
                                          (scratch s !! tmpdir)))))))).
Proof.
  unfold image_archive, image_path_of. run_cases.
  all: try absurd_lookup.
  all: split_and!; try done; try (by repeat constructor); try (by framed).
  all: try (by match goal with s : filesystem |- _ => destruct s end).
  all: intros ? [= <-]; split; [done|]; try done.
  all: intros _; rewrite lookup_insert_ne by apply gz_path_ne.
  all: apply lookup_insert_eq.
Qed.

(** Lines 133-147. *)
Lemma submit_spec (tmpdir appname : string) (create_work_args : gmap string string)
    (input_files : list input_file) (s : filesystem) :
  sat (submit E tmpdir appname create_work_args input_files) s (fun r s' t =>
    store s' = store s
    /\ (t = []
        \/ exists e, submits E tmpdir appname create_work_args input_files e
                     /\ t = [e])
    /\ (forall job, r = Val job -> t <> [])).
Proof.
  unfold submit, submits, submission. run_cases.
  all: split_and!; try done; auto.
  all: right; eexists; split; [eexists; split; reflexivity|reflexivity].
Qed.

Lemma tree_lookup_pick_Some (n : string) (names : list string) (t : tree) (m : member) :
  tree_lookup n (pick names t) = Some m -> tree_lookup n t = Some m.
Proof.
  unfold pick. induction names as [|a names IH]; simpl; [done|].
  destruct (tree_lookup a t) as [m'|] eqn:Ha; simpl; [|exact IH].
  destruct (String.eqb a n) eqn:Han; [|exact IH].
  apply String.eqb_eq in Han as ->. congruence.
Qed.

Lemma tree_lookup_pick (n : string) (names : list string) (t : tree) :
  n ∈ names -> tree_lookup n (pick names t) = tree_lookup n t.
Proof.
  intros Hin.
  destruct (tree_lookup n (pick names t)) as [m|] eqn:Hp.
  { symmetry. by eapply tree_lookup_pick_Some. }
  revert Hp. unfold pick.
  induction Hin as [n names|n a names Hin IH]; simpl.
  - destruct (tree_lookup n t) as [m|] eqn:Hn; simpl; [|done].
    by rewrite String.eqb_refl.
  - destruct (tree_lookup a t) as [m|] eqn:Ha; simpl; [|exact IH].
    destruct (String.eqb a n) eqn:Han; [done|exact IH].
Qed.

Lemma load_manifest_pick (image_id : string) (t : tree) (m : manifest_json) :
  load_manifest IOError t = Val m ->
  load_manifest KeyError (pick (image_members image_id) t) = Val m.
Proof.
  unfold load_manifest. rewrite tree_lookup_pick.
  - by destruct (tree_lookup "manifest.json" t) as [[?|?]|].
  - unfold image_members. set_solver.
Qed.

Lemma staging_spec (tmpdir image : string) (command : option command)
    (extras : option (list (string * string * list string)))
    (appname : string) (entrypoint : option string) (prerun postrun : string)
    (create_work_args : gmap string string)
    (id : string) (need : bool) (m : manifest_json) (s : filesystem) :
  sat (staging E tmpdir image command extras appname entrypoint prerun postrun
         create_work_args id need m) s (fun r s' t =>
    frame E (store s) (store s') t
    /\ Forall (fun e => is_read e = false) t
    /\ (need = false ->
          store s' = store s
          /\ Forall (fun e => is_write e = false /\ is_check e = false) t)
    /\ (forall e, e ∈ t -> is_submit e = true ->
          exists entry rest,
            m = entry :: rest
            /\ submits E tmpdir appname create_work_args
                 (staged_files extras
                    (boinc_app_script image command entrypoint prerun postrun)
                    (Layers entry) id) e)
    /\ (forall job, r = Val job ->
          (exists e, e ∈ t /\ is_submit e = true)
          /\ (need = true ->
                store s' !! image_path_of E id
                = Some (Tar true
                          (pick (image_members id)
                             (exported (default (ScratchDir [] None)
                                          (scratch s !! tmpdir)))))))).
Proof.
  unfold staging. apply sat_bind. unfold index.
  destruct m as [|entry rest]; simpl.
  { unfold sat, raise; simpl.
    split_and!; [apply frame_refl|done|done| |done].
    intros e Hin. by apply elem_of_nil in Hin. }
  apply sat_ret. simpl.
  apply sat_bind. eapply sat_mono; [apply layer_loop_spec|].
  intros [l2|e2] s2 t2 (Hsc2 & Hfr2 & Hev2 & Hno2 & Hl2).
  2: { split_and!; [done| | | |done].
       - eapply Forall_impl; [exact Hev2|]. by intros ? [? ?].
       - exact Hno2.
       - intros e Hin Hs. rewrite Forall_forall in Hev2.
         destruct (Hev2 e Hin). congruence. }
  apply sat_bind. eapply sat_mono; [apply image_archive_spec|].
  intros [l3|e3] s3 t3 (Hsc3 & Hfr3 & Hev3 & Hno3 & Hl3).
  2: { split_and!; [eauto using frame_trans| | | |done].
       - apply Forall_app. split.
         + eapply Forall_impl; [exact Hev2|]. by intros ? [? ?].
         + eapply Forall_impl; [exact Hev3|]. by intros ? (? & ? & ?).
       - intros Hneed. destruct (Hno2 Hneed) as [? ?].
         destruct (Hno3 Hneed) as [-> ->]. by rewrite app_nil_r.
       - intros e Hin Hs. rewrite Forall_forall in Hev2, Hev3.
         apply elem_of_app in Hin as [Hin|Hin].
         + destruct (Hev2 e Hin). congruence.
         + destruct (Hev3 e Hin) as (? & ? & ?). congruence. }
  eapply sat_mono; [apply submit_spec|].
  intros r4 s4 t4 (Hst4 & Ht4 & Hr4).
  destruct (Hl3 l3 eq_refl) as [Hl3eq Himg]. specialize (Hl2 l2 eq_refl).
  assert (Hstaged : l3 = staged_files extras
                           (boinc_app_script image command entrypoint prerun postrun)
                           (Layers entry) id).
  { rewrite Hl3eq, Hl2. unfold staged_files. by rewrite <- !app_assoc. }
  rewrite Hstaged in *. clear Hstaged Hl3eq Hl2.
  assert (Hquiet4 : forall e0, e0 ∈ t4 ->
             is_write e0 = false /\ is_check e0 = false /\ is_read e0 = false
             /\ is_submit e0 = true
             /\ submits E tmpdir appname create_work_args
                  (staged_files extras
                     (boinc_app_script image command entrypoint prerun postrun)
                     (Layers entry) id) e0).
  { intros e0 Hin. destruct Ht4 as [->|(e4 & He4 & ->)];
      [by apply elem_of_nil in Hin|].
    apply list_elem_of_singleton in Hin as ->.
    destruct He4 as (doc & Hdoc & ->). split_and!; try done.
    by exists doc. }
  split_and!.
  - rewrite Hst4.
    eapply frame_mono; [exact (frame_trans E _ _ _ _ _ Hfr2 Hfr3)|].
    intros e0. rewrite !elem_of_app. tauto.
  - rewrite !Forall_app. split_and!.
    + eapply Forall_impl; [exact Hev2|]. by intros ? [? ?].
    + eapply Forall_impl; [exact Hev3|]. by intros ? (? & ? & ?).
    + apply Forall_forall. intros e0 Hin. by destruct (Hquiet4 e0 Hin) as (? & ? & ? & ?).
  - intros Hneed. destruct (Hno2 Hneed) as [? ?].
    destruct (Hno3 Hneed) as [-> ->]. split; [congruence|].
    rewrite !Forall_app. split_and!; [done|done|].
    apply Forall_forall. intros e0 Hin.
    by destruct (Hquiet4 e0 Hin) as (? & ? & ? & ?).
  - intros e Hin Hs. rewrite Forall_forall in Hev2, Hev3.
    apply elem_of_app in Hin as [Hin|Hin];
      [|apply elem_of_app in Hin as [Hin|Hin]].
    + destruct (Hev2 e Hin). congruence.
    + destruct (Hev3 e Hin) as (? & ? & ?). congruence.
    + destruct (Hquiet4 e Hin) as (_ & _ & _ & _ & ?). eauto.
  - intros job ->. specialize (Hr4 job eq_refl).
    destruct Ht4 as [->|(e4 & He4 & ->)]; [done|]. split.
    + exists e4. split.
      * rewrite !elem_of_app. right. right.
        apply list_elem_of_singleton. reflexivity.
      * by destruct (Hquiet4 e4 (list_elem_of_here _ _)) as (_ & _ & _ & ? & _).
    + intros Hneed. rewrite Hst4, <- Hsc2. by apply Himg.
Qed.

(** Lines 56-147. *)
Lemma packaging_spec (tmpdir image : string) (command : option command)
    (extras : option (list (string * string * list string)))
    (appname : string) (entrypoint : option string) (prerun postrun : string)
    (create_work_args : gmap string string) (s : filesystem) :
  sat (packaging E tmpdir image command extras appname entrypoint prerun postrun
         create_work_args) s (fun r s' t =>
    frame E (store s) (store s') t
    /\ (forall e, e ∈ t -> is_write e = true ->
          exists id, inspected_id E image = Some id
                     /\ store s !! image_path_of E id = None)
    /\ (forall id, inspected_id E image = Some id ->
          is_Some (store s !! image_path_of E id) ->
          store s' = store s
          /\ (forall p b, PathExists p b ∈ t -> b = true)
          /\ (forall p m, ReadManifest p m ∈ t ->
                exists f content,
                  store s !! image_path_of E id = Some f
                  /\ tarfile_open f = Members content
                  /\ load_manifest KeyError content = Val m))
    /\ (forall e, e ∈ t -> is_submit e = true ->
          exists id p entry rest,
            inspected_id E image = Some id
            /\ ReadManifest p (entry :: rest) ∈ t
            /\ submits E tmpdir appname create_work_args
                 (staged_files extras
                    (boinc_app_script image command entrypoint prerun postrun)
                    (Layers entry) id) e)
    /\ (forall job, r = Val job ->
          (exists e, e ∈ t /\ is_submit e = true)
          /\ exists id f content,
               inspected_id E image = Some id
               /\ store s' !! image_path_of E id = Some f
               /\ tarfile_open f = Members content
               /\ forall p m, ReadManifest p m ∈ t ->
                              load_manifest KeyError content = Val m)).
Proof.
  unfold packaging. apply sat_bind.
  eapply sat_mono; [apply resolve_image_spec|].
  intros [[[id need] m]|e] s1 t1 (Hst1 & Hq1 & Hchk1 & Hr1).
  2: { rewrite Hst1. rewrite Forall_forall in Hq1.
       split_and!; [apply frame_refl| | | |done].
       - intros e0 Hin Hw. destruct (Hq1 e0 Hin). congruence.
       - intros id Hid Hsome. split; [done|]. split.
         + intros p b Hin. destruct (Hchk1 p b Hin) as (id' & Hid' & -> & ->).
           rewrite Hid in Hid'. inversion Hid'; subst.
           by apply bool_decide_eq_true_2.
         + intros p m Hin.
           assert (ReadManifest p m ∈ filter (fun e => is_read e = true) t1)
             as Hf by (by apply list_elem_of_filter).
           rewrite Hr1 in Hf. by apply elem_of_nil in Hf.
       - intros e0 Hin Hs. destruct (Hq1 e0 Hin). congruence. }
  destruct Hr1 as (Hid & Hneed & Hread & Hsrc).
  rewrite Forall_forall in Hq1.
  assert (Hrd : forall p m', ReadManifest p m' ∈ t1 -> m' = m).
  { intros p m' Hin.
    assert (ReadManifest p m' ∈ filter (fun e => is_read e = true) t1)
      as Hf by (by apply list_elem_of_filter).
    rewrite Hread in Hf. apply list_elem_of_singleton in Hf. by inversion Hf. }
  assert (Hrd1 : exists p, ReadManifest p m ∈ t1).
  { eexists. eapply (list_elem_of_filter (fun e => is_read e = true)).
    rewrite Hread. apply list_elem_of_singleton. reflexivity. }
  eapply sat_mono; [apply staging_spec|].
  intros r s2 t2 (Hfr2 & Hrd2 & Hno2 & Hsub2 & Hr2).
  rewrite Forall_forall in Hrd2.
  assert (Hm : forall p m', ReadManifest p m' ∈ t1 ++ t2 -> m' = m).
  { intros p m' Hin. apply elem_of_app in Hin as [Hin|Hin]; [by eapply Hrd|].
    by specialize (Hrd2 _ Hin). }
  split_and!.
  - rewrite <- Hst1. eapply frame_mono; [exact Hfr2|].
    intros e0. rewrite elem_of_app. tauto.
  - intros e0 Hin Hw. exists id. split; [done|].
    destruct (store s !! image_path_of E id) eqn:Hlk; [|done].
    rewrite bool_decide_eq_true_2 in Hneed by eauto. subst need.
    destruct (Hno2 eq_refl) as [_ Hnw]. rewrite Forall_forall in Hnw.
    apply elem_of_app in Hin as [Hin|Hin].
    + destruct (Hq1 e0 Hin). congruence.
    + destruct (Hnw e0 Hin). congruence.
  - intros id' Hid' Hsome. rewrite Hid in Hid'. inversion Hid'; subst id'.
    rewrite bool_decide_eq_true_2 in Hneed by done. subst need.
    destruct (Hno2 eq_refl) as [Hst2 Hnw]. rewrite Forall_forall in Hnw.
    destruct Hsrc as (_ & f & content & Hlk & Hopen & Hld).
    split; [congruence|]. split.
    + intros p b Hin. apply elem_of_app in Hin as [Hin|Hin].
      * destruct (Hchk1 p b Hin) as (id' & Hid'' & -> & ->).
        rewrite Hid in Hid''. inversion Hid''; subst.
        by apply bool_decide_eq_true_2.
      * by destruct (Hnw _ Hin).
    + intros p m' Hin. rewrite (Hm p m' Hin). eauto.
  - intros e0 Hin Hs. apply elem_of_app in Hin as [Hin|Hin].
    + destruct (Hq1 e0 Hin). congruence.
    + destruct (Hsub2 e0 Hin Hs) as (entry & rest & -> & He0).
      destruct Hrd1 as [p Hp]. exists id, p, entry, rest.
      split; [done|]. split; [|done]. apply elem_of_app. by left.
  - intros job ->. destruct (Hr2 job eq_refl) as [(e0 & Hin & Hs) Himg]. split.
    { exists e0. split; [|done]. apply elem_of_app. by right. }
    destruct need.
    + destruct Hsrc as (tr & Hsave & Hscr & Hld).
      exists id. eexists _, _. split; [done|]. split; [by apply Himg|].
      split; [reflexivity|].
      intros p m' Hin'. rewrite (Hm p m' Hin').
      rewrite Hscr. simpl. by apply load_manifest_pick.
    + destruct Hsrc as (-> & f & content & Hlk & Hopen & Hld).
      destruct (Hno2 eq_refl) as [Hst2 _].
      exists id, f, content. split; [done|]. split; [congruence|].
      split; [done|].
      intros p m' Hin'. by rewrite (Hm p m' Hin').
Qed.

End Phases.

(** ** Whole runs *)

Section Runs.

Variable E : Env.

(** A run whose scratch directory could be made is the body of the [try]
    followed by the cleanup. *)
Lemma run_unfold (image : string) (command : option command)
    (extras : option (list (string * string * list string)))
    (appname : string) (entrypoint : option string) (prerun postrun : option string)
    (create_work_args : option (gmap string string)) (s : filesystem)
    (tmpdir : string) :
  mkdtemp E = Val tmpdir ->
  exists r s1 t1 s2,
    packaging E tmpdir (default_tag image) command extras appname entrypoint
      (default "" prerun) (default "" postrun) (default ∅ create_work_args)
      (Filesystem (store s) (<[tmpdir := ScratchDir [] None]> (scratch s)))
    = (r, s1, t1)
    /\ boinc2docker_create_work E image command extras appname entrypoint
         prerun postrun create_work_args s
       = (outcome_of r, s2, t1 ++ [Sh (RmRf tmpdir)])
    /\ store s2 = store s1
    /\ scratch s2 = match rm_rf E tmpdir with
                    | Done _ => delete tmpdir (scratch s1)
                    | Failed _ => scratch s1
                    end.
Proof.
  intros Htmp. unfold boinc2docker_create_work, guarded. rewrite Htmp.
  destruct (packaging _ _ _ _ _ _ _ _ _ _ _) as [[r s1] t1].
  unfold cleanup, bind, log, remove_scratch, ret.
  destruct (rm_rf E tmpdir); simpl; eauto 10.
Qed.

(** What every run does to the download directory, checks, reads and
    submits. *)
Lemma run_spec (image : string) (command : option command)
    (extras : option (list (string * string * list string)))
    (appname : string) (entrypoint : option string) (prerun postrun : option string)
    (create_work_args : option (gmap string string)) (s : filesystem) :
  let image' := default_tag image in
  let '(o, s', t) :=
    boinc2docker_create_work E image command extras appname entrypoint
      prerun postrun create_work_args s in
  frame E (store s) (store s') t
  /\ (forall e, e ∈ t -> is_write e = true ->
        exists id, inspected_id E image' = Some id
                   /\ store s !! image_path_of E id = None)
  /\ (forall id, inspected_id E image' = Some id ->
        is_Some (store s !! image_path_of E id) ->
        store s' = store s
        /\ (forall p b, PathExists p b ∈ t -> b = true)
        /\ (forall p m, ReadManifest p m ∈ t ->
              exists f content,
                store s !! image_path_of E id = Some f
                /\ tarfile_open f = Members content
                /\ load_manifest KeyError content = Val m))
  /\ (forall e, e ∈ t -> is_submit e = true ->
        exists tmpdir id p entry rest,
          mkdtemp E = Val tmpdir
          /\ inspected_id E image' = Some id
          /\ ReadManifest p (entry :: rest) ∈ t
          /\ submits E tmpdir appname (default ∅ create_work_args)
               (staged_files extras
                  (boinc_app_script image' command entrypoint
                     (default "" prerun) (default "" postrun))
                  (Layers entry) id) e)
  /\ (forall job, o = Returned (Some job) ->
        (exists e, e ∈ t /\ is_submit e = true)
        /\ exists id f content,
             inspected_id E image' = Some id
             /\ store s' !! image_path_of E id = Some f
             /\ tarfile_open f = Members content
             /\ forall p m, ReadManifest p m ∈ t ->
                            load_manifest KeyError content = Val m).
Proof.
  intros image'.
  destruct (mkdtemp E) as [tmpdir|e] eqn:Htmp.
  2: { unfold boinc2docker_create_work. rewrite Htmp.
       split_and!; [apply frame_refl| | | |done].
       - intros e0 Hin. by apply elem_of_nil in Hin.
       - intros id _ _. split_and!; [done|..];
           intros ? ? Hin; by apply elem_of_nil in Hin.
       - intros e0 Hin. by apply elem_of_nil in Hin. }
  destruct (run_unfold image command extras appname entrypoint prerun postrun
              create_work_args s tmpdir Htmp)
    as (r & s1 & t1 & s2 & Hpack & -> & Hst & _).
  pose proof (packaging_spec E tmpdir image' command extras appname entrypoint
                (default "" prerun) (default "" postrun) (default ∅ create_work_args)
                (Filesystem (store s) (<[tmpdir := ScratchDir [] None]> (scratch s))))
    as Hspec.
  unfold sat in Hspec. fold image' in Hpack. rewrite Hpack in Hspec. simpl in Hspec.
  destruct Hspec as (Hfr & Hw & Hhit & Hsub & Hret).
  assert (Hin1 : forall e0, e0 ∈ t1 ++ [Sh (RmRf tmpdir)] ->
                   e0 ∈ t1 \/ e0 = Sh (RmRf tmpdir)).
  { intros e0 Hin. apply elem_of_app in Hin as [?|Hin]; [by left|].
    apply list_elem_of_singleton in Hin. by right. }
  rewrite Hst. split_and!.
  - eapply frame_mono; [exact Hfr|]. intros e0 ?. apply elem_of_app. by left.
  - intros e0 Hin Hwr. destruct (Hin1 e0 Hin) as [?| ->]; [eauto|done].
  - intros id Hid Hsome. destruct (Hhit id Hid Hsome) as (? & Hc & Hm).
    split; [done|]. split.
    + intros p b Hin. destruct (Hin1 _ Hin) as [?|?]; [eauto|done].
    + intros p m Hin. destruct (Hin1 _ Hin) as [?|?]; [eauto|done].
  - intros e0 Hin Hs. destruct (Hin1 e0 Hin) as [Hin'| ->]; [|done].
    destruct (Hsub e0 Hin' Hs) as (id & p & entry & rest & ? & ? & ?).
    exists tmpdir, id, p, entry, rest.
    split_and!; try done. apply elem_of_app. by left.
  - intros job Ho.
    assert (r = Val job) as ->.
    { destruct r as [j|[]]; simpl in Ho; by inversion Ho. }
    destruct (Hret job eq_refl)
      as [(e0 & ? & ?) (id & f & content & ? & ? & ? & Hm)].
    split.
    + exists e0. split; [|done]. apply elem_of_app. by left.
    + exists id, f, content. split; [done|]. split; [done|]. split; [done|].
      intros p m Hin. destruct (Hin1 _ Hin) as [?|?]; [eauto|done].
Qed.

(** *** Runs on a cached image archive *)

#[local] Arguments input_template : simpl never.
#[local] Arguments template_document : simpl never.
#[local] Arguments tarfile_open : simpl never.

Lemma bind_val {A B} (m : M A) (k : A -> M B) s a s1 t1 r s2 t2 :
  m s = (Val a, s1, t1) -> k a s1 = (r, s2, t2) ->
  bind m k s = (r, s2, t1 ++ t2).
Proof. intros Hm Hk. unfold bind. by rewrite Hm, Hk. Qed.

Lemma bind_silent {A B} (m : M A) (k : A -> M B) s a s1 :
  m s = (Val a, s1, []) -> bind m k s = k a s1.
Proof.
  intros Hm. unfold bind. rewrite Hm. by destruct (k a s1) as [[r s2] t2].
Qed.

(** Lines 58-65 when the image archive is there and can be read. *)
Lemma resolve_image_cached (image tmpdir id : string) (s : filesystem)
    (f : file) (content : tree) (m : manifest_json) :
  inspected_id E image = Some id ->
  store s !! image_path_of E id = Some f ->
  tarfile_open f = Members content ->
  load_manifest KeyError content = Val m ->
  resolve_image E image tmpdir s
  = (Val (id, false, m), s,
     [ Sh (DockerInspect image);
       PathExists (image_path_of E id) true;
       ReadManifest (image_path_of E id) m ]).
Proof.
  unfold inspected_id, image_path_of. intros Hid Hf Hopen Hm.
  unfold resolve_image, sh_docker_inspect, index, exists_, cached_manifest,
    lift, log, get_store, bind, ret, raise.
  simpl. destruct (docker_inspect E image) as [out|]; [|done]. simpl.
  rewrite Hid. simpl.
  rewrite bool_decide_eq_true_2 by (rewrite Hf; eauto). simpl.
  rewrite Hf, Hopen. simpl. by rewrite Hm.
Qed.

(** Lines 113-121 when nothing has to be extracted. *)
Lemma layer_loop_cached (tmpdir : string) (layers : list string) :
  forall (input_files : list input_file) (s : filesystem),
    (forall layer, layer ∈ layers ->
       exists out, bin_dir_hier_path E (layer_filename_of layer) = Done out) ->
    layer_loop E tmpdir false layers input_files s
    = (Val (input_files
              ++ map (fun layer => archive_file (layer_filename_of layer)) layers),
       s,
       map (fun layer => Sh (BinDirHierPath (layer_filename_of layer))) layers).
Proof.
  induction layers as [|layer rest IH]; intros input_files s Hall.
  - simpl. by rewrite app_nil_r.
  - destruct (Hall layer (list_elem_of_here _ _)) as [out Hout].
    cbn [layer_loop map].
    rewrite (bind_val _ _ s
               (input_files ++ [archive_file (layer_filename_of layer)]) s
               [Sh (BinDirHierPath (layer_filename_of layer))]
               (Val ((input_files ++ [archive_file (layer_filename_of layer)])
                       ++ map (fun layer => archive_file (layer_filename_of layer))
                            rest))
               s
               (map (fun layer => Sh (BinDirHierPath (layer_filename_of layer)))
                  rest)).
    + by rewrite <- app_assoc.
    + unfold layer_turn, sh_bin_dir_hier_path, log, bind, ret. simpl.
      by rewrite Hout.
    + apply IH. intros l Hl. apply Hall. by right.
Qed.

(** Lines 133-147 when the XML libraries take the template. *)
Lemma submit_accepted (tmpdir appname : string)
    (create_work_args : gmap string string) (input_files : list input_file)
    (s : filesystem) (doc : dnode) :
  template_document E (input_template input_files) = Val doc ->
  let args := <["wu_template" := tmpdir +:+ "/boinc2docker_in_" +:+ uuid_hex E]>
                create_work_args in
  let files := map backing_of input_files in
  exists s',
    submit E tmpdir appname create_work_args input_files s
    = (match create_work E appname args files with
       | Val out => Val (Py.strip out)
       | Exc e => Exc e
       end, s', [CreateWork appname args doc files])
    /\ store s' = store s.
Proof.
  intros Hdoc. cbv zeta.
  unfold submit, lift, log, get_scratch, put_scratch, bind, ret. simpl.
  rewrite Hdoc. simpl.
  destruct (create_work E appname _ _); eexists; split; reflexivity.
Qed.

(** Lines 56-147 on a cached image archive: the commands of the run and
    its one call of [create_work]. *)
Lemma packaging_cached (tmpdir image : string) (command : option command)
    (extras : option (list (string * string * list string)))
    (appname : string) (entrypoint : option string) (prerun postrun : string)
    (create_work_args : gmap string string) (s : filesystem)
    (id : string) (f : file) (content : tree)
    (entry : manifest_entry) (rest : manifest_json) (doc : dnode) :
  inspected_id E image = Some id ->
  store s !! image_path_of E id = Some f ->
  tarfile_open f = Members content ->
  load_manifest KeyError content = Val (entry :: rest) ->
  (forall layer, layer ∈ Layers entry ->
     exists out, bin_dir_hier_path E (layer_filename_of layer) = Done out) ->
  let staged :=
    staged_files extras
      (boinc_app_script image command entrypoint prerun postrun)
      (Layers entry) id in
  template_document E (input_template staged) = Val doc ->
  let args := <["wu_template" := tmpdir +:+ "/boinc2docker_in_" +:+ uuid_hex E]>
                create_work_args in
  exists s',
    packaging E tmpdir image command extras appname entrypoint prerun postrun
      create_work_args s
    = (match create_work E appname args (map backing_of staged) with
       | Val out => Val (Py.strip out)
       | Exc e => Exc e
       end, s',
       [ Sh (DockerInspect image);
         PathExists (image_path_of E id) true;
         ReadManifest (image_path_of E id) (entry :: rest) ]
       ++ map (fun layer => Sh (BinDirHierPath (layer_filename_of layer)))
            (Layers entry)
       ++ [CreateWork appname args doc (map backing_of staged)])
    /\ store s' = store s.
Proof.
  intros Hid Hf Hopen Hm Hall. cbv zeta. intros Hdoc.
  set (staged := staged_files extras
                   (boinc_app_script image command entrypoint prerun postrun)
                   (Layers entry) id) in *.
  destruct (submit_accepted tmpdir appname create_work_args staged s doc Hdoc)
    as (s' & Hsubmit & Hst).
  exists s'. split; [|exact Hst].
  unfold packaging.
  eapply bind_val; [by eapply resolve_image_cached|].
  unfold staging.
  rewrite (bind_silent _ _ s entry s) by reflexivity.
  eapply bind_val; [by apply layer_loop_cached|].
  erewrite bind_silent by reflexivity.
  rewrite <- Hsubmit. f_equal. unfold staged, staged_files.
  by rewrite <- !app_assoc.
Qed.

(** A whole run on a cached image archive. *)
Lemma run_cached (image : string) (command : option command)
    (extras : option (list (string * string * list string)))
    (appname : string) (entrypoint : option string) (prerun postrun : option string)
    (create_work_args : option (gmap string string)) (s : filesystem)
    (tmpdir id : string) (f : file) (content : tree)
    (entry : manifest_entry) (rest : manifest_json) (doc : dnode) :
  mkdtemp E = Val tmpdir ->
  inspected_id E (default_tag image) = Some id ->
  store s !! image_path_of E id = Some f ->
  tarfile_open f = Members content ->
  load_manifest KeyError content = Val (entry :: rest) ->
  (forall layer, layer ∈ Layers entry ->
     exists out, bin_dir_hier_path E (layer_filename_of layer) = Done out) ->
  let staged :=
    staged_files extras
      (boinc_app_script (default_tag image) command entrypoint
         (default "" prerun) (default "" postrun))
      (Layers entry) id in
  template_document E (input_template staged) = Val doc ->
  let args := <["wu_template" := tmpdir +:+ "/boinc2docker_in_" +:+ uuid_hex E]>
                (default ∅ create_work_args) in
  let run :=
    boinc2docker_create_work E image command extras appname entrypoint
      prerun postrun create_work_args s in
  run.1.1 = outcome_of_submission
              (create_work E appname args (map backing_of staged))
  /\ run.2
     = [ Sh (DockerInspect (default_tag image));
         PathExists (image_path_of E id) true;
         ReadManifest (image_path_of E id) (entry :: rest) ]
       ++ map (fun layer => Sh (BinDirHierPath (layer_filename_of layer)))
            (Layers entry)
       ++ [ CreateWork appname args doc (map backing_of staged);
            Sh (RmRf tmpdir) ]
  /\ store run.1.2 = store s.
Proof.
  intros Hmk Hid Hf Hopen Hm Hall. cbv zeta. intros Hdoc.
  destruct (run_unfold image command extras appname entrypoint prerun postrun
              create_work_args s tmpdir Hmk)
    as (r & s1 & t1 & s2 & Hpack & Hrun & Hst & _).
  destruct (packaging_cached tmpdir (default_tag image) command extras appname
              entrypoint (default "" prerun) (default "" postrun)
              (default ∅ create_work_args)
              (Filesystem (store s) (<[tmpdir := ScratchDir [] None]> (scratch s)))
              id f content entry rest doc Hid Hf Hopen Hm Hall Hdoc)
    as (s1' & Hpack' & Hst').
  rewrite Hpack in Hpack'. inversion Hpack'; subst r s1' t1. clear Hpack'.
  rewrite Hrun. cbn [fst snd]. split_and!.
  - reflexivity.
  - simpl. by rewrite <- app_assoc.
  - by rewrite Hst, Hst'.
Qed.

End Runs.

(** ** Reading the events *)

Section Observations.

Lemma elem_of_submitted_files (files : list backing) (t : list event) :
  files ∈ submitted_files t <-> exists a g x, CreateWork a g x files ∈ t.
Proof.
  unfold submitted_files. rewrite list_elem_of_omap. split.
  - intros ([| |c|a g x fs] & Hin & Heq); simplify_eq. eauto.
  - intros (a & g & x & Hin). eexists. split; [exact Hin|done].
Qed.

Lemma elem_of_submitted_templates (x : dnode) (t : list event) :
  x ∈ submitted_templates t <-> exists a g files, CreateWork a g x files ∈ t.
Proof.
  unfold submitted_templates. rewrite list_elem_of_omap. split.
  - intros ([| |c|a g x' fs] & Hin & Heq); simplify_eq. eauto.
  - intros (a & g & fs & Hin). eexists. split; [exact Hin|done].
Qed.

Lemma submitted_files_app (t1 t2 : list event) :
  submitted_files (t1 ++ t2) = submitted_files t1 ++ submitted_files t2.
Proof. apply omap_app. Qed.

Lemma submitted_files_quiet (e : event) (t : list event) :
  is_submit e = false -> submitted_files (e :: t) = submitted_files t.
Proof. by destruct e. Qed.

Lemma submitted_files_commands {A} (c : A -> cmd) (l : list A) :
  submitted_files (map (fun a => Sh (c a)) l) = [].
Proof. induction l as [|a l IH]; [done|]. exact IH. Qed.

Lemma elem_of_read_layers (layers : list string) (t : list event) :
  layers ∈ read_layers t
  <-> exists p entry rest, ReadManifest p (entry :: rest) ∈ t /\ layers = Layers entry.
Proof.
  unfold read_layers. rewrite list_elem_of_omap. split.
  - intros ([|p [|entry rest]|c|a g x' fs] & Hin & Heq); simplify_eq. eauto.
  - intros (p & entry & rest & Hin & ->). eexists. split; [exact Hin|done].
Qed.

Lemma stored_files_extras (extras : option (list (string * string * list string))) :
  stored_files (map backing_of (extra_input_files extras)) = [].
Proof.
  destruct extras as [l|]; [|done]. simpl.
  induction l as [|[[o c] f] l IH]; [done|]. exact IH.
Qed.

Lemma inline_files_extras (extras : option (list (string * string * list string))) :
  inline_files (map backing_of (extra_input_files extras))
  = map (fun '(open_name, contents, _) => (Py.basename open_name, contents))
      (default [] extras).
Proof.
  destruct extras as [l|]; [|done]. simpl.
  induction l as [|[[o c] f] l IH]; [done|]. simpl. by rewrite <- IH.
Qed.

Lemma stored_files_app (l1 l2 : list backing) :
  stored_files (l1 ++ l2) = stored_files l1 ++ stored_files l2.
Proof. apply omap_app. Qed.

Lemma inline_files_app (l1 l2 : list backing) :
  inline_files (l1 ++ l2) = inline_files l1 ++ inline_files l2.
Proof. apply omap_app. Qed.

Lemma stored_files_layers (layers : list string) :
  stored_files (map backing_of
                  (map (fun layer => archive_file (layer_filename_of layer)) layers))
  = map layer_filename_of layers.
Proof. induction layers as [|l layers IH]; [done|]. simpl. by rewrite <- IH. Qed.

Lemma inline_files_layers (layers : list string) :
  inline_files (map backing_of
                  (map (fun layer => archive_file (layer_filename_of layer)) layers))
  = [].
Proof. induction layers as [|l layers IH]; [done|]. exact IH. Qed.

(** The cache filenames of a submission: the layer archives in the order
    of the manifest, then the image archive. *)
Lemma stored_files_staged extras script layers image_id :
  stored_files (map backing_of (staged_files extras script layers image_id))
  = map layer_filename_of layers ++ [image_filename_of image_id].
Proof.
  unfold staged_files. rewrite !map_app, !stored_files_app.
  by rewrite stored_files_extras, stored_files_layers.
Qed.

(** The inline files of a submission: the caller's, then the script. *)
Lemma inline_files_staged extras script layers image_id :
  inline_files (map backing_of (staged_files extras script layers image_id))
  = map (fun '(open_name, contents, _) => (Py.basename open_name, contents))
      (default [] extras)
    ++ [("boinc_app", script)].
Proof.
  unfold staged_files. rewrite !map_app, !inline_files_app.
  rewrite inline_files_extras, inline_files_layers. done.
Qed.

End Observations.

(** ** Claims about whole runs *)

Section Claims.

Implicit Types (E : Env) (s : filesystem) (image appname : string)
  (command : option command)
  (extras : option (list (string * string * list string)))
  (entrypoint prerun postrun : option string)
  (create_work_args : option (gmap string string)).

(** C10. In every run, what is handed to [create_work] is built from the
    list of input files in this order: the caller's extra input files in
    their order, each with its open name, its contents under the basename
    of the open name and its flags; then the boinc_app script with open
    name [shared/boinc_app] and no flags; then one archive per layer in
    the order of the [Layers] of the first entry of the manifest that the
    run read; then the image archive. The template document is the one
    that line 144 writes for this list, and a run that returns a job has
    made such a call. *)
Theorem staged_files_order E image command extras appname entrypoint
    prerun postrun create_work_args s :
  let '(o, s', t) :=
    boinc2docker_create_work E image command extras appname entrypoint
      prerun postrun create_work_args s in
  (forall job, o = Returned (Some job) -> exists e, e ∈ t /\ is_submit e = true)
  /\ (forall e, e ∈ t -> is_submit e = true ->
        exists tmpdir id p entry rest doc,
          mkdtemp E = Val tmpdir
          /\ inspected_id E (default_tag image) = Some id
          /\ ReadManifest p (entry :: rest) ∈ t
          /\ let script :=
               boinc_app_script (default_tag image) command entrypoint
                 (default "" prerun) (default "" postrun) in
             let staged :=
               map (fun '(open_name, contents, flags) =>
                      (open_name, Inline (Py.basename open_name) contents, flags))
                 (default [] extras)
                 ++ [("shared/boinc_app", Inline "boinc_app" script, [])]
                 ++ map (fun layer =>
                           ("shared/image/" +:+ layer_filename_of layer,
                            Stored (layer_filename_of layer),
                            ["sticky"; "no_delete"; "gzip"]))
                      (Layers entry)
                 ++ [("shared/image/" +:+ image_filename_of id,
                      Stored (image_filename_of id),
                      ["sticky"; "no_delete"; "gzip"])] in
             template_document E (input_template staged) = Val doc
             /\ e = CreateWork appname
                      (<["wu_template" := tmpdir +:+ "/boinc2docker_in_" +:+ uuid_hex E]>
                         (default ∅ create_work_args))
                      doc (map (fun f : input_file => f.1.2) staged)).
Proof.
  pose proof (run_spec E image command extras appname entrypoint prerun postrun
                create_work_args s) as H.
  simpl in H.
  destruct (boinc2docker_create_work _ _ _ _ _ _ _ _ _ _) as [[o s'] t].
  destruct H as (_ & _ & _ & Hsub & Hret). split.
  - intros job Ho. by destruct (Hret job Ho).
  - intros e Hin Hs.
    destruct (Hsub e Hin Hs)
      as (tmpdir & id & p & entry & rest & Hmk & Hid & Hrd & doc & Hdoc & He).
    exists tmpdir, id, p, entry, rest, doc.
    assert (Hextras : extra_input_files extras
                      = map (fun '(open_name, contents, flags) =>
                               (open_name, Inline (Py.basename open_name) contents,
                                flags))
                          (default [] extras)) by (by destruct extras).
    unfold staged_files, script_file, archive_file, layer_flags in Hdoc, He.
    rewrite Hextras in Hdoc, He.
    split_and!; done.
Qed.


(** C3. After a run that returned a job, a second run for the same image
    on the download directory that the first one left, whatever its
    command and other arguments, with docker and the path resolver
    answering as before, writes no archive, gets [True] from the
    existence check it makes, and leaves the download directory as it is.
    When its scratch directory is made, the path resolver answers for the
    layers and the XML libraries take its template, it calls
    [create_work] once, with the same archive filenames (layers in order,
    then the image) as the first. *)
Theorem second_run_extracts_nothing (E1 E2 : Env) image
    command1 extras1 appname1 entrypoint1 prerun1 postrun1 create_work_args1
    command2 extras2 appname2 entrypoint2 prerun2 postrun2 create_work_args2
    s (job1 tmpdir2 : string) :
  let run1 :=
    boinc2docker_create_work E1 image command1 extras1 appname1 entrypoint1
      prerun1 postrun1 create_work_args1 s in
  let run2 :=
    boinc2docker_create_work E2 image command2 extras2 appname2 entrypoint2
      prerun2 postrun2 create_work_args2 run1.1.2 in
  docker_inspect E2 (default_tag image) = docker_inspect E1 (default_tag image) ->
  (forall f, dir_hier_path E2 f = dir_hier_path E1 f) ->
  run1.1.1 = Returned (Some job1) ->
  mkdtemp E2 = Val tmpdir2 ->
  (forall layers layer,
     layers ∈ read_layers run1.2 -> layer ∈ layers ->
     exists out, bin_dir_hier_path E2 (layer_filename_of layer) = Done out) ->
  (forall id layers,
     inspected_id E1 (default_tag image) = Some id ->
     layers ∈ read_layers run1.2 ->
     exists doc,
       template_document E2
         (input_template
            (staged_files extras2
               (boinc_app_script (default_tag image) command2 entrypoint2
                  (default "" prerun2) (default "" postrun2))
               layers id)) = Val doc) ->
  Forall (fun e => is_write e = false) run2.2
  /\ (exists p, PathExists p true ∈ run2.2)
  /\ (forall p b, PathExists p b ∈ run2.2 -> b = true)
  /\ store run2.1.2 = store run1.1.2
  /\ submitted_files run1.2 <> []
  /\ (exists files2, submitted_files run2.2 = [files2])
  /\ (forall files1 files2,
        files1 ∈ submitted_files run1.2 ->
        files2 ∈ submitted_files run2.2 ->
        stored_files files2 = stored_files files1).
Proof.
  intros run1 run2 Hinspect Hpath Hjob Hmk2 Hbin2 Hdoc2.
  pose proof (run_spec E1 image command1 extras1 appname1 entrypoint1 prerun1
                postrun1 create_work_args1 s) as H1.
  pose proof (run_spec E2 image command2 extras2 appname2 entrypoint2 prerun2
                postrun2 create_work_args2 run1.1.2) as H2.
  pose proof (fun id f content entry rest doc =>
                run_cached E2 image command2 extras2 appname2 entrypoint2 prerun2
                  postrun2 create_work_args2 run1.1.2 tmpdir2 id f content entry
                  rest doc Hmk2) as Hcached.
  simpl in H1, H2, Hcached. fold run1 in H1. fold run2 in H2, Hcached.
  destruct run1 as [[o1 s1] t1]. destruct run2 as [[o2 s2] t2].
  simpl in *. subst o1.
  destruct H1 as (_ & _ & _ & Hsub1 & Hret1).
  destruct H2 as (_ & Hw2 & Hhit2 & Hsub2 & _).
  destruct (Hret1 job1 eq_refl)
    as [(e1 & Hin1 & Hs1) (id & f & content & Hid & Hlk & Hopen & Hm1)].
  destruct (Hsub1 e1 Hin1 Hs1)
    as (tmp1 & id1 & p1 & entry1 & rest1 & _ & Hid1 & Hrd1 & _).
  rewrite Hid in Hid1. inversion Hid1; subst id1. clear Hid1.
  pose proof (Hm1 _ _ Hrd1) as Hld1.
  assert (Hlayers1 : Layers entry1 ∈ read_layers t1)
    by (apply elem_of_read_layers; eauto).
  assert (Hid2 : inspected_id E2 (default_tag image) = Some id).
  { unfold inspected_id in *. by rewrite Hinspect. }
  assert (Hlk2 : store s1 !! image_path_of E2 id = Some f).
  { unfold image_path_of in *. by rewrite Hpath. }
  destruct (Hhit2 id Hid2) as (Hst & Hchk & Hm2); [by rewrite Hlk2|].
  destruct (Hdoc2 id (Layers entry1) Hid Hlayers1) as [doc2 Hdoc].
  destruct (Hcached id f content entry1 rest1 doc2 Hid2 Hlk2 Hopen Hld1
              (fun layer Hl => Hbin2 _ layer Hlayers1 Hl) Hdoc)
    as (_ & Ht2 & _).
  simpl in Ht2.
  split_and!; [| | done | done | | |].
  - apply Forall_forall. intros e Hin.
    destruct (is_write e) eqn:Hwe; [|done].
    destruct (Hw2 e Hin Hwe) as (id' & Hid' & Hnone).
    rewrite Hid2 in Hid'. inversion Hid'; subst id'. congruence.
  - eexists. rewrite Ht2. simpl. right. left.
  - destruct e1 as [| | |a g x files]; try done.
    intros Hnil.
    assert (files ∈ submitted_files t1) as Hf
      by (apply elem_of_submitted_files; eauto).
    rewrite Hnil in Hf. by apply elem_of_nil in Hf.
  - eexists. rewrite Ht2. rewrite !submitted_files_quiet by done.
    rewrite submitted_files_app, submitted_files_commands. reflexivity.
  - intros files1 files2 Hf1 Hf2.
    apply elem_of_submitted_files in Hf1 as (a1 & g1 & x1 & Hf1).
    apply elem_of_submitted_files in Hf2 as (a2 & g2 & x2 & Hf2).
    destruct (Hsub1 _ Hf1 eq_refl)
      as (tmp1' & id1 & p1' & entry1' & rest1' & _ & Hid1' & Hrd1' & d1 & _ & He1).
    destruct (Hsub2 _ Hf2 eq_refl)
      as (tmp2 & id2 & p2 & entry2 & rest2 & _ & Hid2' & Hrd2 & d2 & _ & He2).
    rewrite Hid in Hid1'. rewrite Hid2 in Hid2'.
    inversion Hid1'; inversion Hid2'; subst id1 id2.
    pose proof (Hm1 _ _ Hrd1') as Hld1'.
    destruct (Hm2 _ _ Hrd2) as (f' & content' & Hlk' & Hopen' & Hld2).
    rewrite Hlk2 in Hlk'. inversion Hlk'; subst f'.
    rewrite Hopen in Hopen'. inversion Hopen'; subst content'.
    rewrite Hld1' in Hld2. inversion Hld2; subst entry2 rest2.
    unfold submission in He1, He2. inversion He1; inversion He2; subst.
    by rewrite !stored_files_staged.
Qed.

(** C5 (what the code does). Archives are written in place: after a run,
    every path of the download directory holds what it held before, or an
    archive that a [tar] or [gzip] of this run wrote under this very
    path; and such an archive is incomplete only if that tool stopped
    while writing it. *)
Theorem archives_written_in_place E image command extras appname entrypoint
    prerun postrun create_work_args s :
  let '(o, s', t) :=
    boinc2docker_create_work E image command extras appname entrypoint
      prerun postrun create_work_args s in
  forall p,
    store s' !! p = store s !! p
    \/ exists f, store s' !! p = Some f /\ written_by E t p f.
Proof.
  pose proof (run_spec E image command extras appname entrypoint prerun postrun
                create_work_args s) as H.
  simpl in H.
  destruct (boinc2docker_create_work _ _ _ _ _ _ _ _ _ _) as [[o s'] t].
  by destruct H as (Hfr & _).
Qed.

Lemma bind_ext {A B} (m : M A) (k k' : A -> M B) s :
  (forall a s1, k a s1 = k' a s1) -> bind m k s = bind m k' s.
Proof.
  intros H. unfold bind. destruct (m s) as [[[a|e] s1] t1]; [|done].
  by rewrite H.
Qed.

Lemma layer_loop_with_rm_rf rm E tmpdir need layers :
  forall input_files s,
    layer_loop (with_rm_rf rm E) tmpdir need layers input_files s
    = layer_loop E tmpdir need layers input_files s.
Proof.
  induction layers as [|layer rest IH]; intros input_files s; [done|].
  simpl. change (layer_turn (with_rm_rf rm E)) with (layer_turn E).
  apply bind_ext. intros. apply IH.
Qed.

Lemma packaging_with_rm_rf rm E tmpdir image command extras appname entrypoint
    (prerun postrun : string) (args : gmap string string) s :
  packaging (with_rm_rf rm E) tmpdir image command extras appname entrypoint
    prerun postrun args s
  = packaging E tmpdir image command extras appname entrypoint prerun postrun args s.
Proof.
  unfold packaging, staging.
  change (resolve_image (with_rm_rf rm E)) with (resolve_image E).
  apply bind_ext. intros [[id need] m] s1.
  apply bind_ext. intros entry s2.
  unfold bind at 1 3. rewrite layer_loop_with_rm_rf. reflexivity.
Qed.

(** C6 (what the code does). In a run whose scratch directory was made:
    the cleanup [rm -rf tmpdir] is the last thing done, on every way out;
    the scratch directory is gone whenever that command succeeds; an
    interruption is never passed on to the caller; the outcome, the
    download directory and the events are the same whatever the cleanup
    answers; and an incomplete archive is in the download directory
    afterwards only if it was there before or if a [tar] or [gzip] of the
    run stopped while writing it. *)
Theorem cleanup_on_every_exit E image command extras appname entrypoint
    prerun postrun create_work_args s (tmpdir : string) :
  mkdtemp E = Val tmpdir ->
  let '(o, s', t) :=
    boinc2docker_create_work E image command extras appname entrypoint
      prerun postrun create_work_args s in
  (exists t0, t = t0 ++ [Sh (RmRf tmpdir)])
  /\ (forall u, rm_rf E tmpdir = Done u -> scratch s' !! tmpdir = None)
  /\ o <> Raised KeyboardInterrupt
  /\ (forall rm,
        let '(o2, s2, t2) :=
          boinc2docker_create_work (with_rm_rf rm E) image command extras appname
            entrypoint prerun postrun create_work_args s in
        o2 = o /\ store s2 = store s' /\ t2 = t)
  /\ (forall p f,
        store s' !! p = Some f -> is_complete f = false ->
        store s !! p = Some f \/ broken_write E t p).
Proof.
  intros Htmp.
  pose proof (run_spec E image command extras appname entrypoint prerun postrun
                create_work_args s) as Hfr.
  simpl in Hfr.
  destruct (run_unfold E image command extras appname entrypoint prerun postrun
              create_work_args s tmpdir Htmp)
    as (r & s1 & t1 & s2 & Hpack & Hrun & Hst & Hscr).
  rewrite Hrun in *. destruct Hfr as (Hfr & _). split_and!.
  - by exists t1.
  - intros u Hrm. rewrite Hscr, Hrm. apply lookup_delete_eq.
  - by destruct r as [j|[]].
  - intros rm.
    destruct (run_unfold (with_rm_rf rm E) image command extras appname entrypoint
                prerun postrun create_work_args s tmpdir Htmp)
      as (r' & s1' & t1' & s2' & Hpack' & Hrun' & Hst' & _).
    rewrite Hrun'. rewrite packaging_with_rm_rf, Hpack in Hpack'.
    inversion Hpack'; subst. split_and!; [done|congruence|done].
  - intros p f Hlk Hinc. destruct (Hfr p) as [Heq|(f' & Hlk' & Hw)].
    + left. congruence.
    + right. rewrite Hlk in Hlk'. inversion Hlk'; subst f'.
      destruct Hw as [(dir & ms & c & content & -> & Hin & Hc)
                     |(q & c & src & -> & -> & Hin & Hc)]; simpl in Hinc.
      * destruct (Hc Hinc) as (fl & kept & Hb). left. eauto 10.
      * destruct (Hc Hinc) as (fl & x & Hb). right. eauto 10.
Qed.

Lemma contains_app_r (c : ascii) (s1 s2 : string) :
  Py.contains c s2 = true -> Py.contains c (s1 +:+ s2) = true.
Proof. intros H. induction s1 as [|d s1 IH]; simpl; [done|]. by destruct (Ascii.eqb c d). Qed.

(** C8 (what the code does). For an image reference that holds no colon,
    the run is the run for the same reference with [:latest] appended:
    same outcome, same file system, same events, hence the same image and
    layer archive filenames. *)
Theorem no_colon_defaults_to_latest E image command extras appname entrypoint
    prerun postrun create_work_args s :
  Py.contains ":"%char image = false ->
  boinc2docker_create_work E image command extras appname entrypoint
    prerun postrun create_work_args s
  = boinc2docker_create_work E (image +:+ ":latest") command extras appname
      entrypoint prerun postrun create_work_args s.
Proof.
  intros Hno. unfold boinc2docker_create_work, default_tag.
  rewrite Hno. by rewrite (contains_app_r ":" image ":latest").
Qed.

Lemma script_text_reassembly (prerun entrypoint image command postrun : string) :
  exists before after,
    script_text prerun entrypoint image command postrun
    = before +:+ Py.nl +:+ reassembly_line +:+ Py.nl +:+ after.
Proof.
  exists (Py.join Py.nl
            [ ""; "#!/bin/sh"; "set -e "; "";
              "echo " +:+ Py.dq +:+ "Importing Docker data from BOINC..." +:+ Py.dq;
              "mkdir -p /tmp/image" ]).
  eexists. unfold script_text, reassembly_line, Py.join. cbn [String.concat].
  simpl. reflexivity.
Qed.

(** C2 (what the code does). The boinc_app script that a run submits is
    the text of the template filled in with the arguments of the call
    alone: the inline files of a submission are the caller's extra files
    and then this script, whatever manifest was read. The script puts the
    archives together with the one line
    [cat /root/shared/image/*.tar | tar xi -C /tmp/image], in which the
    shell expands the pattern. The order of the manifest is kept in the
    list of archives handed to [create_work]: the layer archives in the
    order of the manifest read, then the image archive. *)
Theorem script_independent_of_manifest E image command extras appname entrypoint
    prerun postrun create_work_args s :
  let '(o, s', t) :=
    boinc2docker_create_work E image command extras appname entrypoint
      prerun postrun create_work_args s in
  let script :=
    boinc_app_script (default_tag image) command entrypoint
      (default "" prerun) (default "" postrun) in
  (forall files, files ∈ submitted_files t ->
     inline_files files
     = map (fun '(open_name, contents, _) => (Py.basename open_name, contents))
         (default [] extras)
       ++ [("boinc_app", script)])
  /\ (exists before after,
        script = before +:+ Py.nl +:+ reassembly_line +:+ Py.nl +:+ after)
  /\ (forall files, files ∈ submitted_files t ->
        exists layers id,
          layers ∈ read_layers t
          /\ inspected_id E (default_tag image) = Some id
          /\ stored_files files
             = map layer_filename_of layers ++ [image_filename_of id]).
Proof.
  pose proof (run_spec E image command extras appname entrypoint prerun postrun
                create_work_args s) as H.
  simpl in H.
  destruct (boinc2docker_create_work _ _ _ _ _ _ _ _ _ _) as [[o s'] t].
  destruct H as (_ & _ & _ & Hsub & _). split_and!.
  - intros files Hin. apply elem_of_submitted_files in Hin as (a & g & x & Hin).
    destruct (Hsub _ Hin eq_refl)
      as (tmpdir & id & p & entry & rest & _ & _ & _ & doc & _ & He).
    unfold submission in He. inversion He; subst.
    apply inline_files_staged.
  - apply script_text_reassembly.
  - intros files Hin. apply elem_of_submitted_files in Hin as (a & g & x & Hin).
    destruct (Hsub _ Hin eq_refl)
      as (tmpdir & id & p & entry & rest & _ & Hid & Hrd & doc & _ & He).
    exists (Layers entry), id. split_and!; [|done|].
    + apply elem_of_read_layers. eauto.
    + unfold submission in He. inversion He; subst.
      apply stored_files_staged.
Qed.

End Claims.

Section Examples.

Import Sample.

(** A first run exports the image and writes every archive. *)
Example first_run_commands :
  commands (call (healthy layers2) "myimage" None empty).2
  = [ DockerInspect "myimage:latest";
      DockerSave "myimage:latest" "/tmp/tmpx";
      BinDirHierPath "layer_aaa.tar";
      TarCreate "download/layer_aaa.tar" "/tmp/tmpx" ["aaa"];
      GzipKeep "download/layer_aaa.tar";
      BinDirHierPath "layer_bbb.tar";
      TarCreate "download/layer_bbb.tar" "/tmp/tmpx" ["bbb"];
      GzipKeep "download/layer_bbb.tar";
      TarCreate "download/image_1111.tar" "/tmp/tmpx"
        ["1111.json"; "manifest.json"; "repositories"];
      GzipKeep "download/image_1111.tar";
      RmRf "/tmp/tmpx" ].
Proof. vm_compute. reflexivity. Qed.

Example first_run_outcome :
  (call (healthy layers2) "myimage" None empty).1.1 = Returned (Some "wu_1").
Proof. vm_compute. reflexivity. Qed.

(** Witness of C3: a first run on an empty download directory, then a
    second run with another command. *)
Lemma second_run_extracts_nothing_witness :
  let E := healthy layers2 in
  let run1 := call E "myimage" (Some (CmdStr "echo foo")) empty in
  let run2 := call E "myimage" (Some (CmdList ["ls"; "-l"])) run1.1.2 in
  run1.1.1 = Returned (Some "wu_1")
  /\ mkdtemp E = Val "/tmp/tmpx"
  /\ read_layers run1.2 = [layers2]
  /\ (Forall (fun e => is_write e = false) run2.2
      /\ (exists p, PathExists p true ∈ run2.2)
      /\ (forall p b, PathExists p b ∈ run2.2 -> b = true)
      /\ store run2.1.2 = store run1.1.2
      /\ submitted_files run1.2 <> []
      /\ (exists files2, submitted_files run2.2 = [files2])
      /\ (forall files1 files2,
            files1 ∈ submitted_files run1.2 ->
            files2 ∈ submitted_files run2.2 ->
            stored_files files2 = stored_files files1)).
Proof.
  intros E run1 run2.
  assert (Hlayers : read_layers run1.2 = [layers2]) by (vm_compute; reflexivity).
  split; [vm_compute; reflexivity|]. split; [reflexivity|].
  split; [exact Hlayers|].
  apply (second_run_extracts_nothing E E "myimage"
           (Some (CmdStr "echo foo")) None "boinc2docker" None None None None
           (Some (CmdList ["ls"; "-l"])) None "boinc2docker" None None None None
           empty "wu_1" "/tmp/tmpx").
  - reflexivity.
  - intros f. reflexivity.
  - vm_compute. reflexivity.
  - reflexivity.
  - intros layers layer _ _. eexists. reflexivity.
  - intros id layers Hid Hin.
    assert (id = "1111") as -> by (vm_compute in Hid; by inversion Hid).
    change (layers ∈ read_layers run1.2) in Hin. rewrite Hlayers in Hin.
    apply list_elem_of_singleton in Hin as ->.
    eexists. vm_compute. reflexivity.
Defined.

(** What the two runs of the witness do. *)
Example second_run_commands :
  let E := healthy layers2 in
  let run1 := call E "myimage" (Some (CmdStr "echo foo")) empty in
  let run2 := call E "myimage" (Some (CmdList ["ls"; "-l"])) run1.1.2 in
  commands run2.2
  = [ DockerInspect "myimage:latest"; BinDirHierPath "layer_aaa.tar";
      BinDirHierPath "layer_bbb.tar"; RmRf "/tmp/tmpx" ]
  /\ run2.1.1 = Returned (Some "wu_1")
  /\ map stored_files (submitted_files run1.2)
     = [["layer_aaa.tar"; "layer_bbb.tar"; "image_1111.tar"]]
  /\ map stored_files (submitted_files run2.2)
     = [["layer_aaa.tar"; "layer_bbb.tar"; "image_1111.tar"]].
Proof. vm_compute. repeat split. Qed.


(** Witness of C6: the run of the counterexample below, interrupted while
    the image archive is written. *)
Lemma cleanup_on_every_exit_witness :
  mkdtemp interrupted_on_image = Val "/tmp/tmpx"
  /\ let '(o, s', t) := call interrupted_on_image "myimage" None empty in
     (exists t0, t = t0 ++ [Sh (RmRf "/tmp/tmpx")])
     /\ (forall u, rm_rf interrupted_on_image "/tmp/tmpx" = Done u ->
           scratch s' !! "/tmp/tmpx" = None)
     /\ o <> Raised KeyboardInterrupt
     /\ (forall rm,
           let '(o2, s2, t2) :=
             boinc2docker_create_work (with_rm_rf rm interrupted_on_image) "myimage"
               None None "boinc2docker" None None None None empty in
           o2 = o /\ store s2 = store s' /\ t2 = t)
     /\ (forall p f,
           store s' !! p = Some f -> is_complete f = false ->
           store empty !! p = Some f \/ broken_write interrupted_on_image t p).
Proof.
  split; [reflexivity|].
  apply (cleanup_on_every_exit interrupted_on_image "myimage" None None
           "boinc2docker" None None None None empty "/tmp/tmpx").
  reflexivity.
Defined.

(** Witness of C8. *)
Lemma no_colon_defaults_to_latest_witness :
  Py.contains ":"%char "myimage" = false
  /\ call (healthy layers2) "myimage" None empty
     = call (healthy layers2) "myimage:latest" None empty.
Proof.
  split; [reflexivity|].
  apply (no_colon_defaults_to_latest (healthy layers2) "myimage" None None
           "boinc2docker" None None None None empty).
  reflexivity.
Defined.

(** The script is the same for the manifests [L1, L2, L3] and
    [L3, L2, L1]. *)
Example same_script_for_both_orders :
  let run123 := call (healthy layers123) "myimage" None empty in
  let run321 := call (healthy layers321) "myimage" None empty in
  map inline_files (submitted_files run123.2)
  = [[("boinc_app", boinc_app_script "myimage:latest" None None "" "")]]
  /\ map inline_files (submitted_files run321.2)
     = [[("boinc_app", boinc_app_script "myimage:latest" None None "" "")]]
  /\ map stored_files (submitted_files run123.2)
     = [["layer_L1.tar"; "layer_L2.tar"; "layer_L3.tar"; "image_1111.tar"]]
  /\ map stored_files (submitted_files run321.2)
     = [["layer_L3.tar"; "layer_L2.tar"; "layer_L1.tar"; "image_1111.tar"]]
  /\ read_layers run123.2 = [layers123]
  /\ read_layers run321.2 = [layers321].
Proof. vm_compute. repeat split. Qed.

(** Counterexample to C2: no reading of the script gives the manifest
    order for both the manifest [L1, L2, L3] and the manifest
    [L3, L2, L1], because both runs submit the same script. *)
Lemma script_cannot_follow_manifest_order :
  ~ exists order_of, reassembles_in_manifest_order order_of.
Proof.
  intros [order_of H].
  set (script := boinc_app_script "myimage:latest" None None "" "").
  set (backings ls :=
         Inline "boinc_app" script
           :: map (fun l => Stored (layer_filename_of l)) ls
           ++ [Stored "image_1111.tar"]).
  assert (H123 : order_of script = map layer_filename_of layers123).
  { apply (H (healthy layers123) "myimage" None None "boinc2docker" None None None
             None empty (backings layers123) script layers123).
    - vm_compute. apply list_elem_of_here.
    - vm_compute. reflexivity.
    - vm_compute. apply list_elem_of_here. }
  assert (H321 : order_of script = map layer_filename_of layers321).
  { apply (H (healthy layers321) "myimage" None None "boinc2docker" None None None
             None empty (backings layers321) script layers321).
    - vm_compute. apply list_elem_of_here.
    - vm_compute. reflexivity.
    - vm_compute. apply list_elem_of_here. }
  rewrite H123 in H321. vm_compute in H321. discriminate H321.
Qed.

(** Counterexample to C5: [tar] fails while it writes the archive of the
    first layer. The failed run leaves the incomplete archive under the
    final filename, which was not there before; the next run, with tools
    that work, finds the file, does not write it again, and submits it as
    it is. *)
Lemma failed_tar_leaves_partial_archive :
  let run1 := call tar_fails_on_layer "myimage" None empty in
  let run2 := call (healthy layers2) "myimage" None run1.1.2 in
  run1.1.1 = Raised CalledProcessError
  /\ commands run1.2
     = [ DockerInspect "myimage:latest";
         DockerSave "myimage:latest" "/tmp/tmpx";
         BinDirHierPath "layer_aaa.tar";
         TarCreate "download/layer_aaa.tar" "/tmp/tmpx" ["aaa"];
         RmRf "/tmp/tmpx" ]
  /\ store empty !! "download/layer_aaa.tar" = None
  /\ store run1.1.2 !! "download/layer_aaa.tar" = Some (Tar false [])
  /\ run2.1.1 = Returned (Some "wu_1")
  /\ commands run2.2
     = [ DockerInspect "myimage:latest";
         DockerSave "myimage:latest" "/tmp/tmpx";
         BinDirHierPath "layer_aaa.tar";
         BinDirHierPath "layer_bbb.tar";
         TarCreate "download/layer_bbb.tar" "/tmp/tmpx" ["bbb"];
         GzipKeep "download/layer_bbb.tar";
         TarCreate "download/image_1111.tar" "/tmp/tmpx"
           ["1111.json"; "manifest.json"; "repositories"];
         GzipKeep "download/image_1111.tar";
         RmRf "/tmp/tmpx" ]
  /\ store run2.1.2 !! "download/layer_aaa.tar" = Some (Tar false [])
  /\ map stored_files (submitted_files run2.2)
     = [["layer_aaa.tar"; "layer_bbb.tar"; "image_1111.tar"]].
Proof. vm_compute. repeat split. Qed.

(** Counterexample to C6: the run is interrupted after the layers are
    staged and before the submission, while the image archive is written.
    The interruption is swallowed and the scratch directory is removed,
    but the incomplete image archive stays in the download directory
    under its final filename; the next run takes it for the cached image
    and fails on it. *)
Lemma interruption_leaves_partial_archive :
  let run1 := call interrupted_on_image "myimage" None empty in
  let run2 := call (healthy layers2) "myimage" None run1.1.2 in
  run1.1.1 = Returned None
  /\ commands run1.2
     = [ DockerInspect "myimage:latest";
         DockerSave "myimage:latest" "/tmp/tmpx";
         BinDirHierPath "layer_aaa.tar";
         TarCreate "download/layer_aaa.tar" "/tmp/tmpx" ["aaa"];
         GzipKeep "download/layer_aaa.tar";
         BinDirHierPath "layer_bbb.tar";
         TarCreate "download/layer_bbb.tar" "/tmp/tmpx" ["bbb"];
         GzipKeep "download/layer_bbb.tar";
         TarCreate "download/image_1111.tar" "/tmp/tmpx"
           ["1111.json"; "manifest.json"; "repositories"];
         RmRf "/tmp/tmpx" ]
  /\ submitted_files run1.2 = []
  /\ scratch run1.1.2 !! "/tmp/tmpx" = None
  /\ store empty !! "download/image_1111.tar" = None
  /\ store run1.1.2 !! "download/image_1111.tar"
     = Some (Tar false [("1111.json", Blob "config")])
  /\ run2.1.1 = Raised KeyError
  /\ commands run2.2 = [DockerInspect "myimage:latest"; RmRf "/tmp/tmpx"].
Proof. vm_compute. repeat split. Qed.

(** Counterexample to C8: a reference with a registry port and no tag
    holds a colon, so that no tag is appended; the run is not the run for
    the reference with [:latest] (docker is asked about another name, and
    the script runs another name). *)
Lemma registry_port_is_not_defaulted :
  let E := healthy layers2 in
  let run_a := call E "localhost:5000/myimage" None empty in
  let run_b := call E "localhost:5000/myimage:latest" None empty in
  has_tag "localhost:5000/myimage" = false
  /\ default_tag "localhost:5000/myimage" = "localhost:5000/myimage"
  /\ run_a <> run_b
  /\ commands run_a.2 !! 0 = Some (DockerInspect "localhost:5000/myimage")
  /\ commands run_b.2 !! 0 = Some (DockerInspect "localhost:5000/myimage:latest")
  /\ map inline_files (submitted_files run_a.2)
     = [[("boinc_app", boinc_app_script "localhost:5000/myimage" None None "" "")]]
  /\ map inline_files (submitted_files run_b.2)
     = [[("boinc_app",
          boinc_app_script "localhost:5000/myimage:latest" None None "" "")]].
Proof.
  intros E run_a run_b.
  split_and!; try (vm_compute; reflexivity).
  intros Heq. apply (f_equal (fun r => commands r.2 !! 0)) in Heq.
  vm_compute in Heq. discriminate Heq.
Qed.

(** The staged files and the template of a first run (C10, C4, C7 at
    work). *)
Example first_run_submission :
  let run := call (healthy layers2) "myimage" None empty in
  submitted_files run.2
  = [[ Inline "boinc_app" (boinc_app_script "myimage:latest" None None "" "");
       Stored "layer_aaa.tar"; Stored "layer_bbb.tar"; Stored "image_1111.tar" ]]
  /\ map (fun x => map (field "open_name") (declared_refs x))
       (submitted_templates run.2)
     = [[ Some "shared/boinc_app"; Some "shared/image/layer_aaa.tar";
          Some "shared/image/layer_bbb.tar"; Some "shared/image/image_1111.tar" ]]
  /\ map (fun x => map marker_names (declared_infos x)) (submitted_templates run.2)
     = [[ []; ["sticky"; "no_delete"; "gzip"]; ["sticky"; "no_delete"; "gzip"];
          ["sticky"; "no_delete"; "gzip"] ]].
Proof. vm_compute. repeat split. Qed.

(** Counterexample to C4 as stated: the open name [a\rb] is declared as
    [a\nb] in the document. *)
Lemma carriage_return_in_open_name :
  ~ (forall (E : Env) (files : list input_file) (doc : dnode),
       template_document E (input_template files) = Val doc ->
       declares files doc).
Proof.
  intros H.
  pose (name := "a" +:+ String "013"%char "b").
  destruct (H (healthy layers2) [(name, Inline name "x", [])]
              (written (input_template [(name, Inline name "x", [])])) eq_refl)
    as (_ & _ & _ & _ & Hname).
  vm_compute in Hname. discriminate Hname.
Qed.

Example carriage_return_as_written :
  let name := "a" +:+ String "013"%char "b" in
  let files := [(name, Inline name "x", [])] in
  template_document (healthy layers2) (input_template files)
  = Val (written (input_template files))
  /\ map (field "open_name") (declared_refs (written (input_template files)))
     = [Some ("a" +:+ String "010"%char "b")].
Proof. vm_compute. split; reflexivity. Qed.

(** Why C4 asks for flags that are names: [ET.tostring] writes a flag as
    a tag, as it is. Python's libraries take the flag below and write the
    document below; with them, one file is declared twice. *)
Example flag_that_closes_its_declaration :
  let flag := "a/></file_info><file_info><number>7</number><b" in
  let files := [("n", Inline "n" "x", [flag])] in
  let doc :=
    DElement "input_template" []
      [ DElement "workunit" []
          [ DElement "file_ref" []
              [ DElement "file_number" [] [DText "0"];
                DElement "open_name" [] [DText "n"];
                DElement "copy_file" [] [] ] ];
        DElement "file_info" []
          [ DElement "number" [] [DText "0"]; DElement "a" [] [] ];
        DElement "file_info" []
          [ DElement "number" [] [DText "7"]; DElement "b" [] [] ] ] in
  let E := with_xml_libraries (fun _ => Document doc) (healthy layers2) in
  forallb template_ready files = false
  /\ template_document E (input_template files) = Val doc
  /\ length (declared_infos doc) = 2
  /\ length (declared_refs doc) = 1.
Proof. vm_compute. repeat split. Qed.

(** Witness of C4 (what the code does): the example of the function's
    documentation, and an open name with both kinds of line end. *)
Lemma written_template_dense_indices_witness :
  let files :=
    [ ("shared/foo", Inline "foo" "bar", ["gzip"; "nodelete"]);
      ("a" +:+ String "013"%char (String "010"%char "b") +:+ String "013"%char "c",
       Inline "x" "y", []) ] in
  forallb template_ready files = true
  /\ exists doc,
       template_document (healthy layers2) (input_template files) = Val doc
       /\ declares_parsed files doc.
Proof.
  split; [reflexivity|].
  apply (written_template_dense_indices (healthy layers2)). reflexivity.
Defined.

(** A cached image archive that is compressed is read like a plain one
    (C9, C3). *)
Example compressed_image_archive_is_read :
  let run := call (healthy layers2) "myimage" None compressed_image in
  run.1.1 = Returned (Some "wu_1")
  /\ commands run.2
     = [ DockerInspect "myimage:latest"; BinDirHierPath "layer_aaa.tar";
         BinDirHierPath "layer_bbb.tar"; RmRf "/tmp/tmpx" ]
  /\ store run.1.2 = store compressed_image
  /\ map stored_files (submitted_files run.2)
     = [["layer_aaa.tar"; "layer_bbb.tar"; "image_1111.tar"]].
Proof. vm_compute. repeat split. Qed.

(** Witness of C10: a first run with two extra input files, the first
    one the example of the function's documentation. *)
Lemma staged_files_order_witness :
  let E := healthy layers2 in
  let extras :=
    Some [ ("shared/foo", "bar", ["gzip"; "nodelete"]);
           ("in/data.txt", "1 2 3", []) ] in
  let run :=
    boinc2docker_create_work E "myimage" None extras "boinc2docker" None None
      None None empty in
  let script := boinc_app_script "myimage:latest" None None "" "" in
  run.1.1 = Returned (Some "wu_1")
  /\ submitted_files run.2
     = [[ Inline "foo" "bar"; Inline "data.txt" "1 2 3";
          Inline "boinc_app" script;
          Stored "layer_aaa.tar"; Stored "layer_bbb.tar";
          Stored "image_1111.tar" ]]
  /\ map (fun d => map (field "open_name") (declared_refs d))
       (submitted_templates run.2)
     = [[ Some "shared/foo"; Some "in/data.txt"; Some "shared/boinc_app";
          Some "shared/image/layer_aaa.tar"; Some "shared/image/layer_bbb.tar";
          Some "shared/image/image_1111.tar" ]]
  /\ map (fun d => map marker_names (declared_infos d))
       (submitted_templates run.2)
     = [[ ["gzip"; "nodelete"]; []; [];
          ["sticky"; "no_delete"; "gzip"]; ["sticky"; "no_delete"; "gzip"];
          ["sticky"; "no_delete"; "gzip"] ]]
  /\ forall e, e ∈ run.2 -> is_submit e = true ->
       exists doc,
         let staged :=
           [ ("shared/foo", Inline "foo" "bar", ["gzip"; "nodelete"]);
             ("in/data.txt", Inline "data.txt" "1 2 3", []);
             ("shared/boinc_app", Inline "boinc_app" script, []);
             ("shared/image/layer_aaa.tar", Stored "layer_aaa.tar",
              ["sticky"; "no_delete"; "gzip"]);
             ("shared/image/layer_bbb.tar", Stored "layer_bbb.tar",
              ["sticky"; "no_delete"; "gzip"]);
             ("shared/image/image_1111.tar", Stored "image_1111.tar",
              ["sticky"; "no_delete"; "gzip"]) ] in
         template_document E (input_template staged) = Val doc
         /\ e = CreateWork "boinc2docker"
                  {[ "wu_template" := "/tmp/tmpx/boinc2docker_in_0a1b" ]}
                  doc (map (fun f : input_file => f.1.2) staged).
Proof.
  intros E extras run script.
  assert (Hrd : forall p m, ReadManifest p m ∈ run.2 -> m = manifest_for layers2).
  { intros p m Hin. vm_compute in Hin.
    repeat (apply elem_of_cons in Hin as [Hin|Hin]; [by simplify_eq|]).
    by apply elem_of_nil in Hin. }
  split; [vm_compute; reflexivity|].
  split; [vm_compute; reflexivity|].
  split; [vm_compute; reflexivity|].
  split; [vm_compute; reflexivity|].
  pose proof (staged_files_order E "myimage" None extras "boinc2docker" None None
                None None empty) as H.
  fold run in H. destruct run as [[o s'] t]. destruct H as [_ H].
  intros e Hin Hs.
  destruct (H e Hin Hs)
    as (tmpdir & id & p & entry & rest & doc & Hmk & Hid & Hin' & Hdoc & He).
  assert (tmpdir = "/tmp/tmpx") as -> by (by inversion Hmk).
  assert (id = "1111") as -> by (vm_compute in Hid; by inversion Hid).
  pose proof (Hrd _ _ Hin') as Hm. inversion Hm; subst entry rest.
  exists doc. split; [exact Hdoc|]. rewrite He. reflexivity.
Defined.

(** Witness of C5 (what the code does): the run in which [tar] fails. *)
Lemma archives_written_in_place_witness :
  let '(o, s', t) := call tar_fails_on_layer "myimage" None empty in
  forall p,
    store s' !! p = store empty !! p
    \/ exists f, store s' !! p = Some f /\ written_by tar_fails_on_layer t p f.
Proof.
  exact (archives_written_in_place tar_fails_on_layer "myimage" None None
           "boinc2docker" None None None None empty).
Defined.

(** Witness of C2 (what the code does): the run for the manifest
    [L3, L2, L1]. *)
Lemma script_independent_of_manifest_witness :
  let '(o, s', t) := call (healthy layers321) "myimage" None empty in
  let script :=
    boinc_app_script (default_tag "myimage") None None
      (default "" None) (default "" None) in
  (forall files, files ∈ submitted_files t ->
     inline_files files
     = map (fun '(open_name, contents, _) => (Py.basename open_name, contents))
         (default [] (@None (list (string * string * list string))))
       ++ [("boinc_app", script)])
  /\ (exists before after,
        script = before +:+ Py.nl +:+ reassembly_line +:+ Py.nl +:+ after)
  /\ (forall files, files ∈ submitted_files t ->
        exists layers id,
          layers ∈ read_layers t
          /\ inspected_id (healthy layers321) (default_tag "myimage") = Some id
          /\ stored_files files
             = map layer_filename_of layers ++ [image_filename_of id]).
Proof.
  exact (script_independent_of_manifest (healthy layers321) "myimage" None None
           "boinc2docker" None None None None empty).
Defined.

End Examples.

(** * Further properties *)

(** ** Strings *)

Section Strings.

Lemma app_cons_s (x : ascii) (a b : string) : String x a +:+ b = String x (a +:+ b).
Proof. reflexivity. Qed.

Lemma app_nil_l_s (b : string) : "" +:+ b = b.
Proof. reflexivity. Qed.

Lemma app_assoc_s (a b c : string) : (a +:+ b) +:+ c = a +:+ (b +:+ c).
Proof.
  induction a as [|x a IH]; [done|]. rewrite !app_cons_s. by rewrite IH.
Qed.

Lemma app_nil_r_s (a : string) : a +:+ "" = a.
Proof. induction a as [|x a IH]; [done|]. rewrite app_cons_s. by rewrite IH. Qed.

Lemma app_inv_tail_s (a b t : string) : a +:+ t = b +:+ t -> a = b.
Proof.
  revert b. induction a as [|x a IH]; intros [|y b] H;
    rewrite ?app_cons_s, ?app_nil_l_s in H.
  - done.
  - apply (f_equal String.length) in H. simpl in H. rewrite length_app in H. lia.
  - apply (f_equal String.length) in H. simpl in H. rewrite length_app in H. lia.
  - injection H as -> H. f_equal. by apply IH.
Qed.

(** Two texts cut at the first occurrence of a character agree on both
    sides of the cut. *)
Lemma app_String_inv (c : ascii) (a b x y : string) :
  Py.contains c a = false -> Py.contains c b = false ->
  a +:+ String c x = b +:+ String c y -> a = b /\ x = y.
Proof.
  revert b. induction a as [|d a IH]; intros [|e b] Ha Hb H;
    rewrite ?app_cons_s, ?app_nil_l_s in H; simpl in Ha, Hb.
  - by injection H as ->.
  - injection H as -> _. by rewrite Ascii.eqb_refl in Hb.
  - injection H as -> _. by rewrite Ascii.eqb_refl in Ha.
  - injection H as -> H.
    destruct (Ascii.eqb c e); [done|].
    destruct (IH b Ha Hb H) as [-> ->]. done.
Qed.

Lemma contains_app (c : ascii) (a b : string) :
  Py.contains c (a +:+ b) = Py.contains c a || Py.contains c b.
Proof.
  induction a as [|d a IH]; [done|]. rewrite app_cons_s. simpl.
  by destruct (Ascii.eqb c d).
Qed.

Lemma contains_lstrip (c : ascii) (s : string) :
  Py.contains c s = false -> Py.contains c (Py.lstrip s) = false.
Proof.
  induction s as [|d s IH]; simpl; [done|].
  destruct (Ascii.eqb c d) eqn:Hcd; [done|]. intros H.
  destruct (Py.isspace d); [by apply IH|]. simpl. by rewrite Hcd.
Qed.

Lemma contains_rstrip (c : ascii) (s : string) :
  Py.contains c s = false -> Py.contains c (Py.rstrip s) = false.
Proof.
  induction s as [|d s IH]; simpl; [done|].
  destruct (Ascii.eqb c d) eqn:Hcd; [done|]. intros H.
  destruct (Py.is_empty (Py.rstrip s) && Py.isspace d); [done|].
  simpl. rewrite Hcd. by apply IH.
Qed.

Lemma contains_strip (c : ascii) (s : string) :
  Py.contains c s = false -> Py.contains c (Py.strip s) = false.
Proof. intros H. unfold Py.strip. by apply contains_rstrip, contains_lstrip. Qed.

Lemma split_on_from_none (sep : ascii) (s : string) :
  forall field,
    Py.contains sep s = false ->
    Py.split_on_from sep field s = [field +:+ s].
Proof.
  induction s as [|c s IH]; intros field H; simpl in *.
  - by rewrite app_nil_r_s.
  - rewrite Ascii.eqb_sym. destruct (Ascii.eqb sep c); [done|].
    rewrite IH by done. by rewrite app_assoc_s.
Qed.

Lemma split_on_from_first (sep : ascii) (a rest : string) :
  forall field,
    Py.contains sep a = false ->
    Py.split_on_from sep field (a +:+ String sep rest)
    = (field +:+ a) :: Py.split_on_from sep "" rest.
Proof.
  induction a as [|c a IH]; intros field H;
    rewrite ?app_cons_s, ?app_nil_l_s; simpl in *.
  - by rewrite Ascii.eqb_refl, app_nil_r_s.
  - rewrite Ascii.eqb_sym. destruct (Ascii.eqb sep c); [done|].
    rewrite IH by done. by rewrite app_assoc_s.
Qed.

End Strings.

(** ** Quoting of a list command (line 81) *)

Section ListQuoting.

Lemma quote_list_cons (a : string) (rest : list string) :
  quote_command (map PStr (a :: rest))
  = String "034"%char
      (a +:+ String "034"%char
               (match rest with
                | [] => ""
                | _ => " " +:+ quote_command (map PStr rest)
                end)).
Proof.
  destruct rest as [|b rest]; [reflexivity|].
  change (quote_command (map PStr (a :: b :: rest)))
    with (String "034"%char ((a +:+ Py.dq) +:+ " " +:+ quote_command (map PStr (b :: rest)))).
  by rewrite app_assoc_s.
Qed.

Lemma quote_list_inj (a : list string) :
  forall b,
    forallb quote_free a = true -> forallb quote_free b = true ->
    quote_command (map PStr a) = quote_command (map PStr b) -> a = b.
Proof.
  induction a as [|x a IH]; intros [|y b] Ha Hb H.
  - done.
  - rewrite quote_list_cons in H. discriminate H.
  - rewrite quote_list_cons in H. discriminate H.
  - rewrite !quote_list_cons in H. injection H as H.
    simpl in Ha, Hb. apply andb_prop in Ha as [Hx Ha]. apply andb_prop in Hb as [Hy Hb].
    unfold quote_free in Hx, Hy. apply negb_true_iff in Hx, Hy.
    destruct (app_String_inv _ _ _ _ _ Hx Hy H) as [-> Hrest].
    f_equal. destruct a as [|x' a], b as [|y' b].
    + done.
    + rewrite app_cons_s in Hrest. discriminate Hrest.
    + rewrite app_cons_s in Hrest. discriminate Hrest.
    + rewrite !app_cons_s, !app_nil_l_s in Hrest. injection Hrest as Hrest.
      by apply IH.
Qed.

(** X1. The quoted text of a list command tells the arguments: two lists
    of arguments without double quotes that are rendered alike are the same
    list. *)
Theorem quoted_list_determines_arguments (a b : list string) :
  forallb quote_free a = true -> forallb quote_free b = true ->
  command_text (Some (CmdList a)) = command_text (Some (CmdList b)) -> a = b.
Proof. apply quote_list_inj. Qed.

Lemma quoted_list_determines_arguments_witness :
  forallb quote_free ["echo"; "foo bar"; ""] = true
  /\ command_text (Some (CmdList ["echo"; "foo bar"; ""]))
     = Py.dq +:+ "echo" +:+ Py.dq +:+ " " +:+ Py.dq +:+ "foo bar" +:+ Py.dq
         +:+ " " +:+ Py.dq +:+ Py.dq
  /\ ["echo"; "foo bar"; ""] = ["echo"; "foo bar"; ""].
Proof.
  split; [reflexivity|]. split; [reflexivity|].
  apply (quoted_list_determines_arguments ["echo"; "foo bar"; ""] ["echo"; "foo bar"; ""]);
    reflexivity.
Defined.

(** Line 81 does not escape: with a double quote inside an argument, one
    argument is rendered like two. *)
Example quote_inside_argument :
  command_text (Some (CmdList ["a" +:+ Py.dq +:+ " " +:+ Py.dq +:+ "b"]))
  = command_text (Some (CmdList ["a"; "b"])).
Proof. reflexivity. Qed.

End ListQuoting.

(** ** Cache filenames (lines 58-59 and 114-115) *)

Section Filenames.

(** X2. An image archive and a layer archive never have the same filename;
    two layers have the same archive filename exactly when they have the
    same layer id; two image ids with the same archive filename are the
    same. *)
Theorem archive_filenames_tell_apart :
  (forall image_id layer, image_filename_of image_id <> layer_filename_of layer)
  /\ (forall layer1 layer2,
        layer_filename_of layer1 = layer_filename_of layer2
        <-> layer_id_of layer1 = layer_id_of layer2)
  /\ (forall id1 id2, image_filename_of id1 = image_filename_of id2 -> id1 = id2).
Proof.
  split_and!.
  - intros image_id layer H. unfold image_filename_of, layer_filename_of in H.
    rewrite !app_cons_s in H. discriminate H.
  - intros layer1 layer2. unfold layer_filename_of. split; [|by intros ->].
    intros H. rewrite !app_cons_s, !app_nil_l_s in H.
    injection H as H. by apply app_inv_tail_s in H.
  - intros id1 id2 H. unfold image_filename_of in H.
    rewrite !app_cons_s, !app_nil_l_s in H.
    injection H as H. by apply app_inv_tail_s in H.
Qed.

Lemma contains_cons (c d : ascii) (s : string) :
  Py.contains c (String d s) = if Ascii.eqb c d then true else Py.contains c s.
Proof. reflexivity. Qed.

Lemma after_last_slash_cons (c : ascii) (p : string) :
  Py.after_last_slash (String c p)
  = if 0 <? Py.after_last_slash p then S (Py.after_last_slash p)
    else if Ascii.eqb c "/"%char then 1 else 0.
Proof. reflexivity. Qed.

Lemma rstrip_slash_cons (c : ascii) (s : string) :
  Py.rstrip_slash (String c s)
  = if Py.is_empty (Py.rstrip_slash s) && Ascii.eqb c "/"%char then ""
    else String c (Py.rstrip_slash s).
Proof. reflexivity. Qed.

Lemma after_last_slash_none (name : string) :
  Py.contains "/"%char name = false -> Py.after_last_slash name = 0.
Proof.
  induction name as [|c name IH]; [done|].
  rewrite contains_cons, after_last_slash_cons, (Ascii.eqb_sym c "/").
  destruct (Ascii.eqb "/" c); [done|]. intros H. by rewrite IH.
Qed.

Lemma after_last_slash_slash (name : string) :
  Py.contains "/"%char name = false ->
  Py.after_last_slash (String "/"%char name) = 1.
Proof.
  intros H. rewrite after_last_slash_cons, after_last_slash_none by done.
  reflexivity.
Qed.

Lemma after_last_slash_app (x y : string) :
  0 < Py.after_last_slash y ->
  Py.after_last_slash (x +:+ y) = String.length x + Py.after_last_slash y.
Proof.
  intros Hy. induction x as [|c x IH]; [done|].
  rewrite app_cons_s, after_last_slash_cons, IH.
  destruct (0 <? String.length x + Py.after_last_slash y) eqn:Hlt; [done|].
  apply Nat.ltb_ge in Hlt. lia.
Qed.

Lemma take_app_length (x y : string) : Py.take (String.length x) (x +:+ y) = x.
Proof. induction x as [|c x IH]; [by destruct y|]. simpl. by rewrite IH. Qed.

Lemma drop_app_length (x y : string) : Py.drop (String.length x) (x +:+ y) = y.
Proof. induction x as [|c x IH]; [by destruct y|]. simpl. by rewrite IH. Qed.

Lemma rstrip_slash_dir (id : string) :
  Py.contains "/"%char id = false -> Py.rstrip_slash (id +:+ "/") = id.
Proof.
  induction id as [|c id IH]; [done|].
  rewrite app_cons_s, contains_cons, rstrip_slash_cons, (Ascii.eqb_sym c "/").
  destruct (Ascii.eqb "/" c); [done|]. intros H. rewrite IH by done.
  by rewrite andb_false_r.
Qed.

Lemma path_split_dir_name (id name : string) :
  Py.contains "/"%char id = false ->
  Py.contains "/"%char name = false ->
  Py.path_split (id +:+ "/" +:+ name)
  = (if Py.is_empty id then "/" else id, name).
Proof.
  intros Hid Hname. unfold Py.path_split.
  assert (Hi : Py.after_last_slash (id +:+ "/" +:+ name) = String.length (id +:+ "/")).
  { rewrite app_cons_s, app_nil_l_s.
    rewrite after_last_slash_app; rewrite after_last_slash_slash by done; [|lia].
    by rewrite length_app. }
  rewrite Hi. rewrite <- app_assoc_s.
  rewrite take_app_length, drop_app_length, rstrip_slash_dir by done.
  destruct id; reflexivity.
Qed.

(** X3. For a layer [id/name] of the manifest, with no slash in [id] nor in
    [name], the layer id of line 114 is [id] (a slash when [id] is empty);
    for a layer without any slash it is the empty string, so that the
    archive is called [layer_.tar]. *)
Theorem layer_id_of_manifest_layer (id name : string) :
  slash_free id = true -> slash_free name = true ->
  layer_id_of (id +:+ "/" +:+ name) = (if Py.is_empty id then "/" else id)
  /\ layer_filename_of (id +:+ "/" +:+ name)
     = "layer_" +:+ (if Py.is_empty id then "/" else id) +:+ ".tar"
  /\ layer_id_of name = ""
  /\ layer_filename_of name = "layer_.tar".
Proof.
  unfold slash_free. intros Hid%negb_true_iff Hname%negb_true_iff.
  assert (H1 : layer_id_of (id +:+ "/" +:+ name) = (if Py.is_empty id then "/" else id)).
  { unfold layer_id_of. by rewrite path_split_dir_name. }
  assert (H2 : layer_id_of name = "").
  { unfold layer_id_of, Py.path_split. by rewrite after_last_slash_none. }
  split_and!; [done| |done|].
  - unfold layer_filename_of. by rewrite H1.
  - unfold layer_filename_of. by rewrite H2.
Qed.

Lemma layer_id_of_manifest_layer_witness :
  slash_free "4f2a9c" = true /\ slash_free "layer.tar" = true
  /\ layer_id_of ("4f2a9c" +:+ "/" +:+ "layer.tar")
     = (if Py.is_empty "4f2a9c" then "/" else "4f2a9c")
  /\ layer_filename_of ("4f2a9c" +:+ "/" +:+ "layer.tar")
     = "layer_" +:+ (if Py.is_empty "4f2a9c" then "/" else "4f2a9c") +:+ ".tar"
  /\ layer_id_of "layer.tar" = ""
  /\ layer_filename_of "layer.tar" = "layer_.tar".
Proof.
  split; [reflexivity|]. split; [reflexivity|].
  apply (layer_id_of_manifest_layer "4f2a9c" "layer.tar"); reflexivity.
Defined.

End Filenames.

(** ** More about the phases of a run *)

Section MorePhases.

Variable E : Env.

#[local] Arguments tarfile_open : simpl never.
#[local] Arguments template_document : simpl never.

#[local] Arguments pick : simpl never.
#[local] Arguments input_template : simpl never.
#[local] Arguments well_formed : simpl never.

Lemma sat_conj {A} (m : M A) s (P Q : result A -> filesystem -> list event -> Prop) :
  sat m s P -> sat m s Q -> sat m s (fun r s' t => P r s' t /\ Q r s' t).
Proof. unfold sat. auto. Qed.

(** A path that is in the download directory stays in it. *)
Lemma frame_is_Some st st' t p :
  frame E st st' t -> is_Some (st !! p) -> is_Some (st' !! p).
Proof.
  intros H Hs. destruct (H p) as [Heq|(f0 & Heq & _)]; rewrite Heq; eauto.
Qed.

Lemma frame_None st st' t p :
  frame E st st' t -> st' !! p = None -> st !! p = None.
Proof.
  intros H Hn. destruct (st !! p) eqn:Hp; [|done].
  destruct (frame_is_Some st st' t p H) as [f0 Hf]; [by rewrite Hp|]. congruence.
Qed.

Ltac exec_all :=
  unfold sat, resolve_image, cached_manifest, exported_manifest, exists_,
    sh_docker_inspect, sh_docker_save, sh_bin_dir_hier_path, sh_tar_create,
    sh_gzip_keep, index, lift, log, get_store, get_scratch, put_scratch,
    put_file, remove_scratch, bind, ret, raise in *.

Ltac exec := exec_all; simpl; repeat (case_match; simpl in *; simplify_eq).

Ltac event_in Hin :=
  simpl in Hin;
  repeat (apply elem_of_cons in Hin as [Hin|Hin]; [simplify_eq; try done|]);
  try (by apply elem_of_nil in Hin).

Ltac insert_absurd :=
  match goal with
  | H : <[?p:=_]> _ !! ?p = None |- _ => by rewrite lookup_insert_eq in H
  end.

Ltac not_interrupted :=
  let Hni := fresh in
  let Hexc := fresh in
  intros Hni Hexc;
  destruct Hni as (Hcw & Hdi & Hds & Hbd & Htar & Hgz);
  repeat match goal with f : failure |- _ => destruct f end;
  simpl in Hexc; try discriminate Hexc;
  first [ by (eapply Hdi; eassumption)
        | by (eapply Hds; eassumption)
        | by (eapply Hbd; eassumption)
        | by (eapply Htar; eassumption)
        | by (eapply Hgz; eassumption)
        | by (inversion Hexc; subst; eapply Hcw; eassumption) ].

(** Lines 114-121, further. *)
Lemma layer_turn_more (tmpdir : string) (need_extract : bool) (layer : string)
    (input_files : list input_file) (s : filesystem) :
  sat (layer_turn E tmpdir need_extract layer input_files) s (fun r s' t =>
    (forall p dir ms, Sh (TarCreate p dir ms) ∈ t -> store s !! p = None)
    /\ (forall c, Sh c ∈ t -> is_staging_cmd c = true)
    /\ (never_interrupted E -> r <> Exc KeyboardInterrupt)
    /\ ((exists out, bin_dir_hier_path E (layer_filename_of layer) = Done out) ->
        (forall dest ms, tar_create E dest ms = Written) ->
        (forall path, gzip_keep E path = Written) ->
        r = Val (input_files ++ [archive_file (layer_filename_of layer)]))
    /\ (need_extract = true -> forall l, r = Val l ->
          exists out, bin_dir_hier_path E (layer_filename_of layer) = Done out
                      /\ is_Some (store s' !! Py.strip out))).
Proof.
  unfold layer_turn. exec.
  all: cbn [store scratch] in *.
  all: try insert_absurd.
  all: repeat match goal with
         | H : negb (bool_decide _) = true |- _ =>
             apply negb_true_iff, bool_decide_eq_false_1 in H;
             apply eq_None_not_Some in H
         | H : negb (bool_decide _) = false |- _ =>
             apply negb_false_iff, bool_decide_eq_true_1 in H
         end.
  all: split_and!.
  all: try (intros p dir ms Hin; event_in Hin; fail).
  all: try (intros c Hin; event_in Hin; fail).
  all: try (not_interrupted; fail).
  all: try done.
  all: try (intros [out' Hout] Htar Hgz;
            first
              [ congruence
              | match goal with
                | H : tar_create _ _ _ = Broken _ _ |- _ =>
                    rewrite Htar in H; discriminate H
                | H : gzip_keep _ _ = Broken _ _ |- _ =>
                    rewrite Hgz in H; discriminate H
                end ]).
  all: intros _ l _; eexists; split; [done|]; try done.
  all: rewrite lookup_insert_ne by apply gz_path_ne.
  all: rewrite lookup_insert_eq; by eauto.
Qed.

(** Lines 113-121, further. *)
Lemma layer_loop_more (tmpdir : string) (need_extract : bool) (layers : list string) :
  forall (input_files : list input_file) (s : filesystem),
  sat (layer_loop E tmpdir need_extract layers input_files) s (fun r s' t =>
    (forall p dir ms, Sh (TarCreate p dir ms) ∈ t -> store s !! p = None)
    /\ (forall c, Sh c ∈ t -> is_staging_cmd c = true)
    /\ (never_interrupted E -> r <> Exc KeyboardInterrupt)
    /\ ((forall layer, layer ∈ layers ->
           exists out, bin_dir_hier_path E (layer_filename_of layer) = Done out) ->
        (forall dest ms, tar_create E dest ms = Written) ->
        (forall path, gzip_keep E path = Written) ->
        r = Val (input_files
                   ++ map (fun layer => archive_file (layer_filename_of layer)) layers))
    /\ (need_extract = true -> forall l, r = Val l ->
          forall layer, layer ∈ layers ->
            exists out, bin_dir_hier_path E (layer_filename_of layer) = Done out
                        /\ is_Some (store s' !! Py.strip out))).
Proof.
  induction layers as [|layer rest IH]; intros input_files s.
  - apply sat_ret. rewrite app_nil_r. split_and!; try done.
    + intros p dir ms Hin. by apply elem_of_nil in Hin.
    + intros c Hin. by apply elem_of_nil in Hin.
    + intros _ l _ layer Hin. by apply elem_of_nil in Hin.
  - simpl. apply sat_bind.
    eapply sat_mono;
      [apply sat_conj; [apply layer_turn_spec|apply layer_turn_more]|].
    intros [l1|e] s1 t1 [(Hsc & Hfr & _ & _ & Hl) (Htar & Hcmd & Hni & Hok & Hst)].
    2: { split_and!; try done. intros Hall Ht Hg.
         discriminate (Hok (Hall layer (list_elem_of_here _ _)) Ht Hg). }
    pose proof (Hl l1 eq_refl) as Hl1.
    eapply sat_mono;
      [apply sat_conj; [apply layer_loop_spec|apply IH]|].
    intros r s2 t2 [(_ & Hfr2 & _ & _ & _) (Htar2 & Hcmd2 & Hni2 & Hok2 & Hst2)].
    split_and!.
    + intros p dir ms Hin. apply elem_of_app in Hin as [Hin|Hin]; [eauto|].
      eapply frame_None; [exact Hfr|]. eauto.
    + intros c Hin. apply elem_of_app in Hin as [Hin|Hin]; eauto.
    + done.
    + intros Hall Ht Hg. rewrite Hok2; [|by intros; apply Hall, list_elem_of_further|done|done].
      rewrite Hl1. simpl. by rewrite <- app_assoc.
    + intros Hneed l Hr layer' Hin.
      apply elem_of_cons in Hin as [->|Hin].
      * destruct (Hst Hneed l1 eq_refl) as (out & Hout & Hsome).
        exists out. split; [done|]. by eapply frame_is_Some.
      * by eapply Hst2.
Qed.

(** Lines 125-129, further. *)
Lemma image_archive_more (tmpdir image_id : string) (need_extract : bool)
    (input_files : list input_file) (s : filesystem) :
  sat (image_archive E tmpdir image_id need_extract input_files) s (fun r s' t =>
    (forall p dir ms, Sh (TarCreate p dir ms) ∈ t ->
       p = image_path_of E image_id /\ need_extract = true)
    /\ (forall c, Sh c ∈ t -> is_staging_cmd c = true)
    /\ (never_interrupted E -> r <> Exc KeyboardInterrupt)
    /\ ((forall dest ms, tar_create E dest ms = Written) ->
        (forall path, gzip_keep E path = Written) ->
        r = Val (input_files ++ [archive_file (image_filename_of image_id)]))
    /\ (need_extract = true -> forall l, r = Val l ->
          store s' !! (image_path_of E image_id +:+ ".gz")
          = Some (Gz true
                    (Tar true
                       (pick (image_members image_id)
                          (exported (default (ScratchDir [] None)
                                       (scratch s !! tmpdir)))))))).
Proof.
  unfold image_archive, image_path_of. exec.
  all: cbn [store scratch] in *.
  all: try insert_absurd.
  all: split_and!.
  all: try (intros p dir ms Hin; event_in Hin; fail).
  all: try (intros c Hin; event_in Hin; fail).
  all: try (not_interrupted; fail).
  all: try done.
  all: try (intros Htar Hgz;
            match goal with
            | H : tar_create _ _ _ = Broken _ _ |- _ =>
                rewrite Htar in H; discriminate H
            | H : gzip_keep _ _ = Broken _ _ |- _ =>
                rewrite Hgz in H; discriminate H
            end).
  all: intros _ l _.
  all: match goal with
       | H : <[?p:=?x]> _ !! ?p = Some ?y |- _ =>
           rewrite lookup_insert_eq in H; inversion H; subst
       end.
  all: apply lookup_insert_eq.
Qed.

(** Lines 133-147, further. *)
Lemma submit_more (tmpdir appname : string) (create_work_args : gmap string string)
    (input_files : list input_file) (s : filesystem) :
  sat (submit E tmpdir appname create_work_args input_files) s (fun r s' t =>
    let args :=
      <["wu_template" := tmpdir +:+ "/boinc2docker_in_" +:+ uuid_hex E]>
        create_work_args in
    let files := map backing_of input_files in
    (forall d, d <> tmpdir -> scratch s' !! d = scratch s !! d)
    /\ (forall c, Sh c ∉ t)
    /\ (never_interrupted E -> r <> Exc KeyboardInterrupt)
    /\ (t = [] /\ well_formed (input_template input_files) = false
        /\ (exists e, r = Exc e)
        \/ exists doc,
             template_document E (input_template input_files) = Val doc
             /\ t = [CreateWork appname args doc files]
             /\ r = match create_work E appname args files with
                    | Val out => Val (Py.strip out)
                    | Exc e => Exc e
                    end)).
Proof.
  unfold submit, template_document. exec.
  all: cbn [store scratch] in *.
  all: split_and!.
  all: try (intros d Hd; rewrite ?lookup_insert_ne by done; done).
  all: try (intros c Hin; event_in Hin; fail).
  all: try (not_interrupted; fail).
  all: try (by match goal with r : refusal |- _ => destruct r end).
  all: try (left; split_and!; [done|done|eauto]; fail).
  all: right; eexists; split_and!; try done.
  all: match goal with H : create_work _ _ _ _ = _ |- _ => by rewrite H end.
Qed.

(** Lines 58-70, further. *)
Lemma resolve_image_more (image tmpdir : string) (s : filesystem) :
  sat (resolve_image E image tmpdir) s (fun r s' t =>
    (forall d, d <> tmpdir -> scratch s' !! d = scratch s !! d)
    /\ (forall c, Sh c ∈ t ->
          c = DockerInspect image
          \/ (c = DockerSave image tmpdir
              /\ exists id, inspected_id E image = Some id
                            /\ store s !! image_path_of E id = None))
    /\ (forall id, inspected_id E image = Some id ->
          (exists rest,
              t = Sh (DockerInspect image)
                    :: PathExists (image_path_of E id)
                         (bool_decide (is_Some (store s !! image_path_of E id)))
                    :: rest)
          /\ (store s !! image_path_of E id = None ->
                Sh (DockerSave image tmpdir) ∈ t))
    /\ (inspected_id E image = None ->
          t = [Sh (DockerInspect image)] /\ s' = s
          /\ r = Exc (match docker_inspect E image with
                      | Done _ => IndexError
                      | Failed f => exn_of f
                      end))
    /\ (never_interrupted E -> r <> Exc KeyboardInterrupt)
    /\ (forall id m,
          inspected_id E image = Some id ->
          match store s !! image_path_of E id with
          | Some f => exists content,
                        tarfile_open f = Members content
                        /\ load_manifest KeyError content = Val m
          | None => exists tr, docker_save E image = Done tr
                               /\ load_manifest IOError tr = Val m
          end ->
          r = Val (id, negb (bool_decide (is_Some (store s !! image_path_of E id))), m))).
Proof.
  unfold inspected_id, image_path_of. exec_all. unfold load_manifest. simpl.
  repeat (case_match; simpl in *; simplify_eq).
  all: cbn [store scratch] in *.
  all: try (match goal with H : store ?f !! ?p = Some ?x |- _ =>
              assert (bool_decide (is_Some (store f !! p)) = true)
                by (apply bool_decide_eq_true_2; rewrite H; eauto) end).
  all: try (match goal with H : bool_decide (is_Some (?m !! ?p)) = false |- _ =>
              assert (m !! p = None)
                by (apply bool_decide_eq_false_1 in H; by apply eq_None_not_Some in H) end).
  all: split_and!.
  all: try (intros d Hd; rewrite ?lookup_insert_ne by done; done).
  all: try (not_interrupted; fail).
  all: try done.
  all: try (intros c Hin; event_in Hin; eauto 10; fail).
  all: try (intros id [= <-]; split;
            [ eexists; simpl;
              repeat match goal with H : bool_decide _ = _ |- _ => rewrite H end;
              reflexivity
            | intros Hn; first [congruence | simpl; by repeat constructor] ]; fail).
  all: try (intros _; by destruct (cut_archive E _)).
  all: intros id m [= <-].
  all: repeat match goal with H : store _ !! _ = _ |- _ => rewrite H end.
  all: intros (? & ? & ?); simplify_eq.
  all: try match goal with
         | H1 : tarfile_open ?f = _, H2 : tarfile_open ?f = _ |- _ =>
             rewrite H1 in H2; simplify_eq
         end.
  all: repeat match goal with
         | H : context [<[?k:=_]> _ !! ?k] |- _ =>
             rewrite lookup_insert_eq in H; simpl in H
         end.
  all: repeat match goal with
         | H : tree_lookup _ _ = _ |- _ => rewrite H in *
         end; simpl in *; simplify_eq.
  all: repeat match goal with H : bool_decide _ = _ |- _ => rewrite H end; done.
Qed.

(** Lines 73-147, further. *)
Lemma staging_more (tmpdir image : string) (command : option command)
    (extras : option (list (string * string * list string)))
    (appname : string) (entrypoint : option string) (prerun postrun : string)
    (create_work_args : gmap string string)
    (id : string) (need : bool) (m : manifest_json) (s : filesystem) :
  sat (staging E tmpdir image command extras appname entrypoint prerun postrun
         create_work_args id need m) s (fun r s' t =>
    (forall d, d <> tmpdir -> scratch s' !! d = scratch s !! d)
    /\ (forall p dir ms, Sh (TarCreate p dir ms) ∈ t ->
          store s !! p = None \/ (p = image_path_of E id /\ need = true))
    /\ (forall c, Sh c ∈ t -> is_staging_cmd c = true)
    /\ (forall a g x files, CreateWork a g x files ∈ t ->
          exists t0,
            t = t0 ++ [CreateWork a g x files]
            /\ Forall (fun e => is_submit e = false) t0
            /\ r = match create_work E a g files with
                   | Val out => Val (Py.strip out)
                   | Exc e => Exc e
                   end)
    /\ (never_interrupted E -> r <> Exc KeyboardInterrupt)
    /\ (forall entry rest out,
          m = entry :: rest ->
          (forall layer, layer ∈ Layers entry ->
             exists o, bin_dir_hier_path E (layer_filename_of layer) = Done o) ->
          (forall dest ms, tar_create E dest ms = Written) ->
          (forall path, gzip_keep E path = Written) ->
          let staged :=
            staged_files extras
              (boinc_app_script image command entrypoint prerun postrun)
              (Layers entry) id in
          well_formed (input_template staged) = true ->
          create_work E appname
            (<["wu_template" := tmpdir +:+ "/boinc2docker_in_" +:+ uuid_hex E]>
               create_work_args)
            (map backing_of staged) = Val out ->
          r = Val (Py.strip out))
    /\ (need = true -> forall job, r = Val job ->
          store s' !! (image_path_of E id +:+ ".gz")
          = Some (Gz true
                    (Tar true
                       (pick (image_members id)
                          (exported (default (ScratchDir [] None)
                                       (scratch s !! tmpdir))))))
          /\ forall entry rest, m = entry :: rest ->
               forall layer, layer ∈ Layers entry ->
                 exists o, bin_dir_hier_path E (layer_filename_of layer) = Done o
                           /\ is_Some (store s' !! Py.strip o))).
Proof.
  unfold staging. apply sat_bind. unfold index.
  destruct m as [|entry rest]; simpl.
  { unfold sat, raise; simpl. split_and!; try done.
    - intros p dir ms Hin. by apply elem_of_nil in Hin.
    - intros c Hin. by apply elem_of_nil in Hin.
    - intros a g x files Hin. by apply elem_of_nil in Hin. }
  apply sat_ret. simpl.
  apply sat_bind.
  eapply sat_mono; [apply sat_conj; [apply layer_loop_spec|apply layer_loop_more]|].
  intros [l2|e2] s2 t2
    [(Hsc2 & Hfr2 & Hev2 & _ & Hl2) (Htar2 & Hcmd2 & Hni2 & Hok2 & Hst2)].
  2: { rewrite Forall_forall in Hev2. split_and!; try done; try assumption.
       - by rewrite Hsc2.
       - intros p dir ms Hin. left. eauto.
       - intros a g x files Hin. by destruct (Hev2 _ Hin).
       - intros Hn [= ->]. by apply (Hni2 Hn).
       - intros entry' rest' out [= <- <-] Hall Ht Hg.
         discriminate (Hok2 Hall Ht Hg). }
  specialize (Hl2 l2 eq_refl).
  apply sat_bind.
  eapply sat_mono; [apply sat_conj; [apply image_archive_spec|apply image_archive_more]|].
  intros [l3|e3] s3 t3
    [(Hsc3 & Hfr3 & Hev3 & _ & Hl3) (Htar3 & Hcmd3 & Hni3 & Hok3 & Hgz3)].
  2: { rewrite Forall_forall in Hev2, Hev3. split_and!; try done; try assumption.
       - intros d Hd. by rewrite Hsc3, Hsc2.
       - intros p dir ms Hin. apply elem_of_app in Hin as [Hin|Hin]; [left; eauto|].
         right. eauto.
       - intros c Hin. apply elem_of_app in Hin as [Hin|Hin]; eauto.
       - intros a g x files Hin. apply elem_of_app in Hin as [Hin|Hin].
         + by destruct (Hev2 _ Hin).
         + by destruct (Hev3 _ Hin) as (? & ? & ?).
       - intros Hn [= ->]. by apply (Hni3 Hn).
       - intros entry' rest' out [= <- <-] Hall Ht Hg.
         discriminate (Hok3 Ht Hg). }
  destruct (Hl3 l3 eq_refl) as [Hl3eq _].
  assert (Hstaged : l3 = staged_files extras
                           (boinc_app_script image command entrypoint prerun postrun)
                           (Layers entry) id).
  { rewrite Hl3eq, Hl2. unfold staged_files. by rewrite <- !app_assoc. }
  eapply sat_mono; [apply sat_conj; [apply submit_spec|apply submit_more]|].
  intros r4 s4 t4 [(Hst4 & _ & _) (Hsc4 & Hcmd4 & Hni4 & Hcase)].
  rewrite Forall_forall in Hev2, Hev3.
  assert (Hquiet : Forall (fun e => is_submit e = false) (t2 ++ t3)).
  { apply Forall_app. split; apply Forall_forall; intros e Hin.
    - by destruct (Hev2 _ Hin).
    - by destruct (Hev3 _ Hin) as (? & ? & ?). }
  split_and!.
  - intros d Hd. by rewrite Hsc4, Hsc3, Hsc2.
  - intros p dir ms Hin.
    apply elem_of_app in Hin as [Hin|Hin]; [left; eauto|].
    apply elem_of_app in Hin as [Hin|Hin]; [right; eauto|].
    by destruct (Hcmd4 _ Hin).
  - intros c Hin.
    apply elem_of_app in Hin as [Hin|Hin]; [eauto|].
    apply elem_of_app in Hin as [Hin|Hin]; [eauto|].
    by destruct (Hcmd4 _ Hin).
  - intros a g x files Hin.
    apply elem_of_app in Hin as [Hin|Hin]; [by destruct (Hev2 _ Hin)|].
    apply elem_of_app in Hin as [Hin|Hin]; [by destruct (Hev3 _ Hin) as (? & ? & ?)|].
    destruct Hcase as [(-> & _)|(doc & _ & -> & ->)];
      [by apply elem_of_nil in Hin|].
    apply list_elem_of_singleton in Hin. inversion Hin; subst.
    exists (t2 ++ t3). split; [by rewrite app_assoc|]. split; [done|done].
  - assumption.
  - intros entry' rest' out [= <- <-] Hall Ht Hg. cbv zeta. intros Hwf Hcw.
    rewrite <- Hstaged in Hwf, Hcw.
    destruct Hcase as [(_ & Hbad & _)|(doc & _ & _ & ->)]; [congruence|].
    by rewrite Hcw.
  - intros Hneed job ->. split.
    + rewrite Hst4, <- Hsc2. by eapply Hgz3.
    + intros entry' rest' [= <- <-] layer Hin.
      destruct (Hst2 Hneed l2 eq_refl layer Hin) as (o & Ho & Hsome).
      exists o. split; [done|]. rewrite Hst4. by eapply frame_is_Some.
Qed.

(** Lines 56-147, further. *)
Lemma packaging_more (tmpdir image : string) (command : option command)
    (extras : option (list (string * string * list string)))
    (appname : string) (entrypoint : option string) (prerun postrun : string)
    (create_work_args : gmap string string) (s : filesystem) :
  sat (packaging E tmpdir image command extras appname entrypoint prerun postrun
         create_work_args) s (fun r s' t =>
    (forall d, d <> tmpdir -> scratch s' !! d = scratch s !! d)
    /\ (forall p dir ms, Sh (TarCreate p dir ms) ∈ t -> store s !! p = None)
    /\ (forall c, Sh c ∈ t ->
          c = DockerInspect image
          \/ (c = DockerSave image tmpdir
              /\ exists id, inspected_id E image = Some id
                            /\ store s !! image_path_of E id = None)
          \/ is_staging_cmd c = true)
    /\ (forall id, inspected_id E image = Some id ->
          (exists rest,
              t = Sh (DockerInspect image)
                    :: PathExists (image_path_of E id)
                         (bool_decide (is_Some (store s !! image_path_of E id)))
                    :: rest)
          /\ (store s !! image_path_of E id = None ->
                Sh (DockerSave image tmpdir) ∈ t))
    /\ (inspected_id E image = None ->
          t = [Sh (DockerInspect image)] /\ s' = s
          /\ r = Exc (match docker_inspect E image with
                      | Done _ => IndexError
                      | Failed f => exn_of f
                      end))
    /\ (forall a g x files, CreateWork a g x files ∈ t ->
          exists t0,
            t = t0 ++ [CreateWork a g x files]
            /\ Forall (fun e => is_submit e = false) t0
            /\ r = match create_work E a g files with
                   | Val out => Val (Py.strip out)
                   | Exc e => Exc e
                   end)
    /\ (never_interrupted E -> r <> Exc KeyboardInterrupt)
    /\ (forall id entry rest out,
          inspected_id E image = Some id ->
          match store s !! image_path_of E id with
          | Some f => exists content,
                        tarfile_open f = Members content
                        /\ load_manifest KeyError content = Val (entry :: rest)
          | None => exists tr, docker_save E image = Done tr
                               /\ load_manifest IOError tr = Val (entry :: rest)
          end ->
          (forall layer, layer ∈ Layers entry ->
             exists o, bin_dir_hier_path E (layer_filename_of layer) = Done o) ->
          (forall dest ms, tar_create E dest ms = Written) ->
          (forall path, gzip_keep E path = Written) ->
          let staged :=
            staged_files extras
              (boinc_app_script image command entrypoint prerun postrun)
              (Layers entry) id in
          well_formed (input_template staged) = true ->
          create_work E appname
            (<["wu_template" := tmpdir +:+ "/boinc2docker_in_" +:+ uuid_hex E]>
               create_work_args)
            (map backing_of staged) = Val out ->
          r = Val (Py.strip out))
    /\ (forall id job,
          r = Val job -> inspected_id E image = Some id ->
          store s !! image_path_of E id = None ->
          (exists tr,
              docker_save E image = Done tr
              /\ store s' !! image_path_of E id
                 = Some (Tar true (pick (image_members id) tr))
              /\ store s' !! (image_path_of E id +:+ ".gz")
                 = Some (Gz true (Tar true (pick (image_members id) tr))))
          /\ forall layers, layers ∈ read_layers t ->
               forall layer, layer ∈ layers ->
                 exists o, bin_dir_hier_path E (layer_filename_of layer) = Done o
                           /\ is_Some (store s' !! Py.strip o))).
Proof.
  unfold packaging. apply sat_bind.
  eapply sat_mono; [apply sat_conj; [apply resolve_image_spec|apply resolve_image_more]|].
  intros [[[id need] m]|e] s1 t1
    [(Hst1 & Hq1 & _ & Hr1) (Hsc1 & Hcmd1 & Hpre1 & Hnone1 & Hni1 & Hok1)].
  2: { rewrite Forall_forall in Hq1. split_and!.
       - assumption.
       - intros p dir ms Hin. destruct (Hcmd1 _ Hin) as [?|[? _]]; done.
       - intros c Hin. destruct (Hcmd1 _ Hin) as [?|?]; auto.
       - assumption.
       - intros Hn. by destruct (Hnone1 Hn) as (-> & -> & [= ->]).
       - intros a g x files Hin. by destruct (Hq1 _ Hin).
       - intros Hn [= ->]. by apply (Hni1 Hn).
       - intros id entry rest out Hid Hsrc. discriminate (Hok1 id _ Hid Hsrc).
       - intros id job Hr. discriminate Hr. }
  destruct Hr1 as (Hid & Hneed & Hread & Hsrc).
  rewrite Forall_forall in Hq1.
  assert (Hrd : forall p m', ReadManifest p m' ∈ t1 -> m' = m).
  { intros p m' Hin.
    assert (ReadManifest p m' ∈ filter (fun e => is_read e = true) t1)
      as Hf by (by apply list_elem_of_filter).
    rewrite Hread in Hf. apply list_elem_of_singleton in Hf. by inversion Hf. }
  eapply sat_mono; [apply sat_conj; [apply staging_spec|apply staging_more]|].
  intros r s2 t2
    [(Hfr2 & Hrd2 & _ & _ & Hr2) (Hsc2 & Htar2 & Hcmd2 & Hsub2 & Hni2 & Hok2 & Hst2)].
  rewrite Forall_forall in Hrd2.
  destruct (Hpre1 id Hid) as [[rest1 Hrest1] Hsave1].
  split_and!.
  - intros d Hd. by rewrite Hsc2, Hsc1.
  - intros p dir ms Hin. apply elem_of_app in Hin as [Hin|Hin].
    + destruct (Hcmd1 _ Hin) as [?|[? _]]; done.
    + destruct (Htar2 _ _ _ Hin) as [Hn|[-> ->]]; [by rewrite <- Hst1|].
      symmetry in Hneed. apply negb_true_iff, bool_decide_eq_false_1 in Hneed.
      by apply eq_None_not_Some in Hneed.
  - intros c Hin. apply elem_of_app in Hin as [Hin|Hin].
    + destruct (Hcmd1 _ Hin) as [?|?]; auto.
    + right. right. eauto.
  - intros id' Hid'. rewrite Hid in Hid'. inversion Hid'; subst id'. split.
    + exists (rest1 ++ t2). by rewrite Hrest1.
    + intros Hn. apply elem_of_app. left. by apply Hsave1.
  - intros Hn. congruence.
  - intros a g x files Hin. apply elem_of_app in Hin as [Hin|Hin].
    + by destruct (Hq1 _ Hin).
    + destruct (Hsub2 _ _ _ _ Hin) as (t0 & -> & Hq & ->).
      exists (t1 ++ t0). split; [by rewrite app_assoc|]. split; [|done].
      apply Forall_app. split; [|done]. apply Forall_forall.
      intros e Hin'. by destruct (Hq1 _ Hin').
  - assumption.
  - intros id' entry rest out Hid' Hsrc' Hall Ht Hg. cbv zeta. intros Hwf Hcw.
    rewrite Hid in Hid'. inversion Hid'; subst id'.
    pose proof (Hok1 id _ Hid Hsrc') as Hval. inversion Hval; subst.
    by eapply Hok2.
  - intros id' job -> Hid' Hnone.
    rewrite Hid in Hid'. inversion Hid'; subst id'.
    assert (need = true) as ->.
    { rewrite Hneed. apply negb_true_iff, bool_decide_eq_false_2.
      rewrite Hnone. by intros [? ?]. }
    destruct Hsrc as (tr & Hsave & Hscr & Hld).
    destruct (Hr2 job eq_refl) as [_ Himg].
    destruct (Hst2 eq_refl job eq_refl) as [Hgz Hlayers].
    rewrite Hscr in Himg, Hgz. simpl in Himg, Hgz.
    split.
    + exists tr. split_and!; [done|by apply Himg|done].
    + intros layers Hin layer Hlayer.
      apply elem_of_read_layers in Hin as (p & entry & rest & Hin & ->).
      assert (m = entry :: rest) as ->.
      { apply elem_of_app in Hin as [Hin|Hin]; [symmetry; by eapply Hrd|].
        by specialize (Hrd2 _ Hin). }
      by eapply Hlayers.
Qed.

End MorePhases.

(** ** Docker's answer to [docker inspect] (line 58) *)

Section InspectAnswer.

Lemma lstrip_spaces (ws x : string) :
  all_chars Py.isspace ws = true -> Py.lstrip (ws +:+ x) = Py.lstrip x.
Proof.
  induction ws as [|c ws IH]; [done|]. rewrite app_cons_s. simpl.
  intros [Hc Hws]%andb_true_iff. rewrite Hc. by apply IH.
Qed.

Lemma rstrip_spaces (ws : string) :
  all_chars Py.isspace ws = true -> Py.rstrip ws = "".
Proof.
  induction ws as [|c ws IH]; [done|]. simpl.
  intros [Hc Hws]%andb_true_iff. by rewrite (IH Hws), Hc.
Qed.

Lemma rstrip_app_spaces (x ws : string) :
  all_chars Py.isspace ws = true -> Py.rstrip (x +:+ ws) = Py.rstrip x.
Proof.
  intros Hws. induction x as [|c x IH].
  - rewrite app_nil_l_s. by apply rstrip_spaces.
  - rewrite app_cons_s. simpl. by rewrite IH.
Qed.

Lemma all_chars_app (p : ascii -> bool) (a b : string) :
  all_chars p (a +:+ b) = all_chars p a && all_chars p b.
Proof.
  induction a as [|c a IH]; [done|]. rewrite app_cons_s. simpl.
  by rewrite IH, andb_assoc.
Qed.

(** A text without white space is its own [strip]. *)
Lemma lstrip_solid (x : string) :
  all_chars (fun c => negb (Py.isspace c)) x = true -> Py.lstrip x = x.
Proof.
  destruct x as [|c x]; [done|]. simpl.
  intros [Hc _]%andb_true_iff. by apply negb_true_iff in Hc as ->.
Qed.

Lemma rstrip_solid (x : string) :
  all_chars (fun c => negb (Py.isspace c)) x = true -> Py.rstrip x = x.
Proof.
  induction x as [|c x IH]; [done|]. simpl.
  intros [Hc Hx]%andb_true_iff. rewrite (IH Hx).
  apply negb_true_iff in Hc as ->. by rewrite andb_false_r.
Qed.

Lemma strip_padded (lead x trail : string) :
  all_chars Py.isspace lead = true ->
  all_chars (fun c => negb (Py.isspace c)) x = true ->
  all_chars Py.isspace trail = true ->
  Py.strip (lead +:+ x +:+ trail) = x /\ Py.strip x = x.
Proof.
  intros Hl Hx Ht. unfold Py.strip. split.
  - rewrite lstrip_spaces by done. destruct x as [|c x].
    + rewrite app_nil_l_s, <- (app_nil_r_s trail).
      by rewrite lstrip_spaces.
    + rewrite app_cons_s. simpl in Hx |- *.
      apply andb_true_iff in Hx as [Hc Hx]. apply negb_true_iff in Hc. rewrite Hc.
      rewrite <- app_cons_s, rstrip_app_spaces by done.
      apply rstrip_solid. simpl. by rewrite Hc, Hx.
  - rewrite lstrip_solid by done. by apply rstrip_solid.
Qed.

Lemma plain_field_solid (a : string) :
  plain_field a = true ->
  all_chars (fun c => negb (Py.isspace c)) a = true
  /\ Py.contains ":"%char a = false.
Proof.
  unfold plain_field. induction a as [|c a IH]; [done|].
  rewrite contains_cons. cbn [all_chars].
  intros [[Hs Hc]%andb_true_iff Ha]%andb_true_iff.
  destruct (IH Ha) as [-> ->]. rewrite Hs. split; [done|].
  apply negb_true_iff in Hc. rewrite Ascii.eqb_sym. by rewrite Hc.
Qed.

(** The second field of [algorithm:digest], with white space around. *)
Lemma inspected_id_digest (E : Env) (image lead algo digest trail : string) :
  docker_inspect E image = Done (lead +:+ (algo +:+ ":" +:+ digest) +:+ trail) ->
  all_chars Py.isspace lead = true ->
  plain_field algo = true ->
  plain_field digest = true ->
  all_chars Py.isspace trail = true ->
  inspected_id E image = Some digest.
Proof.
  intros Hout Hl [Ha Hca]%plain_field_solid [Hd Hcd]%plain_field_solid Ht.
  unfold inspected_id. rewrite Hout.
  assert (Hx : all_chars (fun c => negb (Py.isspace c)) (algo +:+ ":" +:+ digest) = true).
  { rewrite !all_chars_app, Ha, Hd. done. }
  destruct (strip_padded lead _ trail Hl Hx Ht) as [-> ->].
  unfold Py.split_on. rewrite app_cons_s, app_nil_l_s.
  rewrite split_on_from_first by done.
  rewrite split_on_from_none by done. done.
Qed.

(** An answer without a colon has no second field. *)
Lemma inspected_id_no_colon (E : Env) (image out : string) :
  docker_inspect E image = Done out ->
  Py.contains ":"%char out = false ->
  inspected_id E image = None.
Proof.
  intros Hout Hc. unfold inspected_id. rewrite Hout.
  unfold Py.split_on. rewrite split_on_from_none; [done|].
  by apply contains_strip, contains_strip.
Qed.

End InspectAnswer.

(** ** More about whole runs *)

Section MoreRuns.

(** A run whose scratch directory was made is the packaging, run on the
    file system with the new directory, followed by the cleanup. *)
Lemma run_split (E : Env) (image : string) (command : option command)
    (extras : option (list (string * string * list string)))
    (appname : string) (entrypoint : option string) (prerun postrun : option string)
    (create_work_args : option (gmap string string)) (s : filesystem)
    (tmpdir : string) :
  mkdtemp E = Val tmpdir ->
  let p :=
    packaging E tmpdir (default_tag image) command extras appname entrypoint
      (default "" prerun) (default "" postrun) (default ∅ create_work_args)
      (Filesystem (store s) (<[tmpdir := ScratchDir [] None]> (scratch s))) in
  let run :=
    boinc2docker_create_work E image command extras appname entrypoint
      prerun postrun create_work_args s in
  run.1.1 = outcome_of p.1.1
  /\ run.2 = p.2 ++ [Sh (RmRf tmpdir)]
  /\ store run.1.2 = store p.1.2
  /\ scratch run.1.2 = match rm_rf E tmpdir with
                       | Done _ => delete tmpdir (scratch p.1.2)
                       | Failed _ => scratch p.1.2
                       end.
Proof.
  intros Hmk.
  destruct (run_unfold E image command extras appname entrypoint prerun postrun
              create_work_args s tmpdir Hmk)
    as (r & s1 & t1 & s2 & Hp & Hrun & Hst & Hsc).
  cbv zeta. rewrite Hp, Hrun. done.
Qed.

Ltac open_run Hmk :=
  match goal with
  | |- context [boinc2docker_create_work ?E ?image ?command ?extras ?appname
                  ?entrypoint ?prerun ?postrun ?cwa ?s] =>
      match type of Hmk with
      | mkdtemp _ = Val ?tmpdir =>
          let Hrun := fresh "Hrun" in
          let Hm := fresh "Hm" in
          pose proof (run_split E image command extras appname entrypoint
                        prerun postrun cwa s tmpdir Hmk) as Hrun;
          pose proof (packaging_more E tmpdir (default_tag image) command extras
                        appname entrypoint (default "" prerun) (default "" postrun)
                        (default ∅ cwa)
                        (Filesystem (store s)
                           (<[tmpdir := ScratchDir [] None]> (scratch s)))) as Hm;
          cbv zeta in Hrun; unfold sat in Hm;
          destruct (boinc2docker_create_work E image command extras appname
                      entrypoint prerun postrun cwa s) as [[o s'] t];
          destruct (packaging E tmpdir (default_tag image) command extras appname
                      entrypoint (default "" prerun) (default "" postrun)
                      (default ∅ cwa)
                      (Filesystem (store s)
                         (<[tmpdir := ScratchDir [] None]> (scratch s))))
            as [[r s1] t1];
          cbn [fst snd store scratch] in Hrun, Hm;
          destruct Hrun as (Ho & Htr & Hst & Hsc);
          destruct Hm as (Hpriv & Hfresh & Hcmds & Hhead & Hnoid & Hlast & Hnint
                          & Hprog & Hfull)
      end
  end.

(** X4. When docker answers [algorithm:digest], with white space around
    and neither colon nor white space in the two fields, the image id of
    the run is the digest: the archive that the run looks up in the
    download directory, right after asking docker, is
    [image_<digest>.tar]. *)
Theorem image_archive_named_after_digest (E : Env) image command extras appname
    entrypoint prerun postrun create_work_args s
    (tmpdir lead algo digest trail : string) :
  mkdtemp E = Val tmpdir ->
  docker_inspect E (default_tag image)
  = Done (lead +:+ (algo +:+ ":" +:+ digest) +:+ trail) ->
  all_chars Py.isspace lead = true ->
  plain_field algo = true ->
  plain_field digest = true ->
  all_chars Py.isspace trail = true ->
  let '(o, s', t) :=
    boinc2docker_create_work E image command extras appname entrypoint
      prerun postrun create_work_args s in
  let path := dir_hier_path E ("image_" +:+ digest +:+ ".tar") in
  inspected_id E (default_tag image) = Some digest
  /\ exists rest,
       t = Sh (DockerInspect (default_tag image))
             :: PathExists path (bool_decide (is_Some (store s !! path)))
             :: rest.
Proof.
  intros Hmk Hout Hl Ha Hd Ht.
  pose proof (inspected_id_digest E _ lead algo digest trail Hout Hl Ha Hd Ht) as Hid.
  open_run Hmk. cbv zeta. split; [done|].
  destruct (Hhead digest Hid) as [[rest ->] _].
  exists (rest ++ [Sh (RmRf tmpdir)]). by rewrite Htr.
Qed.

(** X5. When docker's answer holds no colon, line 58 raises [IndexError]:
    the caller gets this exception, nothing but the question to docker and
    the cleanup is run, and the download directory is as it was. *)
Theorem answer_without_colon_raises_IndexError (E : Env) image command extras
    appname entrypoint prerun postrun create_work_args s (tmpdir out : string) :
  mkdtemp E = Val tmpdir ->
  docker_inspect E (default_tag image) = Done out ->
  Py.contains ":"%char out = false ->
  let '(o, s', t) :=
    boinc2docker_create_work E image command extras appname entrypoint
      prerun postrun create_work_args s in
  o = Raised IndexError
  /\ t = [Sh (DockerInspect (default_tag image)); Sh (RmRf tmpdir)]
  /\ store s' = store s.
Proof.
  intros Hmk Hout Hc.
  pose proof (inspected_id_no_colon E _ out Hout Hc) as Hid.
  open_run Hmk.
  destruct (Hnoid Hid) as (-> & -> & ->). rewrite Hout in Ho.
  by rewrite Ho, Htr, Hst.
Qed.

(** X6. When [docker inspect] fails, nothing but the cleanup follows and
    the download directory is as it was; a non-zero exit status reaches
    the caller as [CalledProcessError], an interruption makes the function
    return [None]. *)
Theorem failed_inspect_stops_the_run (E : Env) image command extras
    appname entrypoint prerun postrun create_work_args s (tmpdir : string)
    (f : failure) :
  mkdtemp E = Val tmpdir ->
  docker_inspect E (default_tag image) = Failed f ->
  let '(o, s', t) :=
    boinc2docker_create_work E image command extras appname entrypoint
      prerun postrun create_work_args s in
  o = match f with
      | NonZeroExit => Raised CalledProcessError
      | Interrupt => Returned None
      end
  /\ t = [Sh (DockerInspect (default_tag image)); Sh (RmRf tmpdir)]
  /\ store s' = store s.
Proof.
  intros Hmk Hfail.
  assert (Hid : inspected_id E (default_tag image) = None)
    by (unfold inspected_id; by rewrite Hfail).
  open_run Hmk.
  destruct (Hnoid Hid) as (-> & -> & ->). rewrite Hfail in Ho.
  rewrite Ho, Htr, Hst. by destruct f.
Qed.

Lemma elem_of_run_trace (e : event) (t1 : list event) (tmpdir : string) :
  e ∈ t1 ++ [Sh (RmRf tmpdir)] -> e ∈ t1 \/ e = Sh (RmRf tmpdir).
Proof.
  intros Hin. apply elem_of_app in Hin as [?|Hin]; [by left|].
  apply list_elem_of_singleton in Hin. by right.
Qed.

(** X7. The image is exported ([docker save], line 69) exactly when its
    archive is not in the download directory at the start; every
    [docker inspect] and [docker save] of a run names the image reference
    as line 53 leaves it ([default_tag image]: with [:latest] appended
    when the reference holds no colon, unchanged otherwise), and docker
    exports only into the scratch directory of the run. *)
Theorem export_iff_archive_absent (E : Env) image command extras appname
    entrypoint prerun postrun create_work_args s (tmpdir id : string) :
  mkdtemp E = Val tmpdir ->
  inspected_id E (default_tag image) = Some id ->
  let '(o, s', t) :=
    boinc2docker_create_work E image command extras appname entrypoint
      prerun postrun create_work_args s in
  (Sh (DockerSave (default_tag image) tmpdir) ∈ t
   <-> store s !! image_path_of E id = None)
  /\ (forall img dir, Sh (DockerSave img dir) ∈ t ->
        img = default_tag image /\ dir = tmpdir)
  /\ (forall img, Sh (DockerInspect img) ∈ t -> img = default_tag image).
Proof.
  intros Hmk Hid. open_run Hmk. rewrite Htr. split_and!.
  - split.
    + intros [Hin|?]%elem_of_run_trace; [|done].
      destruct (Hcmds _ Hin) as [?|[(_ & id' & Hid' & Hn)|?]]; [done| |done].
      congruence.
    + intros Hn. apply elem_of_app. left. by apply (Hhead id Hid).
  - intros img dir [Hin|?]%elem_of_run_trace; [|done].
    destruct (Hcmds _ Hin) as [?|[(Heq & _)|?]]; [done| |done].
    by inversion Heq.
  - intros img [Hin|?]%elem_of_run_trace; [|done].
    destruct (Hcmds _ Hin) as [Heq|[(? & _)|?]]; [|done|done].
    by inversion Heq.
Qed.

(** X8. [tar] never writes over a file of the download directory: every
    archive that a run lets [tar] write is at a path that was free at the
    start. A file that was there is still there at the end, unchanged,
    unless it is the [.gz] companion that a [gzip -k] of the run wrote. *)
Theorem tar_targets_are_fresh (E : Env) image command extras appname
    entrypoint prerun postrun create_work_args s (tmpdir : string) :
  mkdtemp E = Val tmpdir ->
  let '(o, s', t) :=
    boinc2docker_create_work E image command extras appname entrypoint
      prerun postrun create_work_args s in
  (forall p dir ms, Sh (TarCreate p dir ms) ∈ t -> store s !! p = None)
  /\ (forall p f, store s !! p = Some f ->
        store s' !! p = Some f
        \/ exists q, p = q +:+ ".gz" /\ Sh (GzipKeep q) ∈ t).
Proof.
  intros Hmk.
  pose proof (run_spec E image command extras appname entrypoint prerun postrun
                create_work_args s) as Hspec.
  cbv zeta in Hspec. revert Hspec. open_run Hmk. intros (Hfr & _).
  assert (Htar : forall p dir ms, Sh (TarCreate p dir ms) ∈ t -> store s !! p = None).
  { rewrite Htr. intros p dir ms [Hin|?]%elem_of_run_trace; [|done].
    by eapply Hfresh. }
  split; [exact Htar|].
  intros p f Hp. destruct (Hfr p) as [Heq|(f' & Hf' & Hw)].
  - left. by rewrite Heq.
  - destruct Hw as [(dir & ms & c & content & _ & Hin & _)
                   |(q & c & src & _ & -> & Hin & _)].
    + rewrite (Htar _ _ _ Hin) in Hp. discriminate Hp.
    + right. by exists q.
Qed.

(** X9. A run works in its own scratch directory: every other scratch
    directory is at the end what it was at the start. *)
Theorem other_scratch_directories_untouched (E : Env) image command extras
    appname entrypoint prerun postrun create_work_args s (tmpdir : string) :
  mkdtemp E = Val tmpdir ->
  let '(o, s', t) :=
    boinc2docker_create_work E image command extras appname entrypoint
      prerun postrun create_work_args s in
  forall d, d <> tmpdir -> scratch s' !! d = scratch s !! d.
Proof.
  intros Hmk. open_run Hmk. intros d Hd. rewrite Hsc.
  destruct (rm_rf E tmpdir).
  - rewrite lookup_delete_ne by done. rewrite Hpriv by done.
    by rewrite lookup_insert_ne.
  - rewrite Hpriv by done. by rewrite lookup_insert_ne.
Qed.

(** X10. [create_work] is the last thing a run does before the cleanup,
    and it is called at most once: it gets the application name of the
    call and the caller's arguments, with [wu_template] set to the
    template file in the scratch directory whatever the caller gave
    there. How the run ends is how [create_work] ends: its output
    stripped, its exception raised, or [None] when it was interrupted. *)
Theorem create_work_is_the_last_step (E : Env) image command extras appname
    entrypoint prerun postrun create_work_args s (tmpdir : string) :
  mkdtemp E = Val tmpdir ->
  let '(o, s', t) :=
    boinc2docker_create_work E image command extras appname entrypoint
      prerun postrun create_work_args s in
  forall a g x files,
    CreateWork a g x files ∈ t ->
    (exists t0,
        t = t0 ++ [CreateWork a g x files; Sh (RmRf tmpdir)]
        /\ Forall (fun e => is_submit e = false) t0)
    /\ o = outcome_of_submission (create_work E a g files)
    /\ a = appname
    /\ g !! "wu_template" = Some (tmpdir +:+ "/boinc2docker_in_" +:+ uuid_hex E)
    /\ (forall k, k <> "wu_template" ->
          g !! k = default ∅ create_work_args !! k).
Proof.
  intros Hmk.
  pose proof (run_spec E image command extras appname entrypoint prerun postrun
                create_work_args s) as Hspec.
  cbv zeta in Hspec. revert Hspec. open_run Hmk. intros (_ & _ & _ & Hsub & _).
  intros a g x files Hin.
  destruct (Hsub _ Hin eq_refl)
    as (tmpdir' & id & p & entry & rest & Hmk' & _ & _ & doc & _ & He).
  rewrite Hmk in Hmk'. inversion Hmk'; subst tmpdir'.
  unfold submission in He. inversion He; subst. clear He.
  apply elem_of_run_trace in Hin as [Hin|?]; [|done].
  destruct (Hlast _ _ _ _ Hin) as (t0 & -> & Hq & ->).
  split_and!.
  - exists t0. split; [|done]. by rewrite <- app_assoc.
  - done.
  - done.
  - by rewrite lookup_insert_eq.
  - intros k Hk. by rewrite lookup_insert_ne.
Qed.


(** X12. A run that returned a job for an image whose archive was not in
    the download directory has staged everything: the image archive with
    the image's json file, the manifest and the repositories of the
    export, complete, and its [.gz] companion; and for every layer of the
    manifest a file at the path that [bin/dir_hier_path] gave for its
    archive. *)
Theorem first_run_stages_every_archive (E : Env) image command extras appname
    entrypoint prerun postrun create_work_args s (tmpdir id : string) :
  mkdtemp E = Val tmpdir ->
  inspected_id E (default_tag image) = Some id ->
  store s !! image_path_of E id = None ->
  let '(o, s', t) :=
    boinc2docker_create_work E image command extras appname entrypoint
      prerun postrun create_work_args s in
  forall job,
    o = Returned (Some job) ->
    (exists tr,
        docker_save E (default_tag image) = Done tr
        /\ store s' !! image_path_of E id
           = Some (Tar true (pick (image_members id) tr))
        /\ store s' !! (image_path_of E id +:+ ".gz")
           = Some (Gz true (Tar true (pick (image_members id) tr))))
    /\ forall layers, layers ∈ read_layers t ->
         forall layer, layer ∈ layers ->
           exists out, bin_dir_hier_path E (layer_filename_of layer) = Done out
                       /\ is_Some (store s' !! Py.strip out).
Proof.
  intros Hmk Hid Hnone. open_run Hmk. intros job Hjob.
  assert (r = Val job) as ->.
  { rewrite Ho in Hjob. destruct r as [j|[]]; simpl in Hjob; by inversion Hjob. }
  destruct (Hfull id job eq_refl Hid Hnone) as [Himg Hl]. rewrite Hst.
  split; [exact Himg|].
  intros layers Hin layer Hlayer. eapply Hl; [|exact Hlayer].
  apply elem_of_read_layers in Hin as (p & entry & rest & Hin & ->).
  apply elem_of_read_layers. exists p, entry, rest. split; [|done].
  rewrite Htr in Hin. by apply elem_of_run_trace in Hin as [?|?].
Qed.

(** X13. The function returns [None] only when something was interrupted:
    if no collaborator raises [KeyboardInterrupt], every run ends with a
    job or with an exception for the caller. *)
Theorem returns_None_only_when_interrupted (E : Env) image command extras
    appname entrypoint prerun postrun create_work_args s :
  never_interrupted E ->
  let '(o, s', t) :=
    boinc2docker_create_work E image command extras appname entrypoint
      prerun postrun create_work_args s in
  o <> Returned None.
Proof.
  intros Hni. destruct (mkdtemp E) as [tmpdir|e] eqn:Hmk.
  - open_run Hmk. specialize (Hnint Hni). rewrite Ho.
    destruct r as [j|[]]; simpl; done.
  - unfold boinc2docker_create_work. by rewrite Hmk.
Qed.

End MoreRuns.

(** ** The image reference (line 53) *)

Section ImageReference.

(** X14. After line 53 the image reference holds a colon, and the line
    changes nothing when applied again: a call with the default tag
    spelled out is the same run as the call without it. *)
Theorem default_tag_idempotent (E : Env) image command extras appname
    entrypoint prerun postrun create_work_args s :
  Py.contains ":"%char (default_tag image) = true
  /\ default_tag (default_tag image) = default_tag image
  /\ boinc2docker_create_work E (default_tag image) command extras appname
       entrypoint prerun postrun create_work_args s
     = boinc2docker_create_work E image command extras appname
         entrypoint prerun postrun create_work_args s.
Proof.
  assert (Hc : Py.contains ":"%char (default_tag image) = true).
  { unfold default_tag. destruct (Py.contains ":"%char image) eqn:Hi; [done|].
    rewrite contains_app. by rewrite orb_true_r. }
  assert (Hd : default_tag (default_tag image) = default_tag image).
  { unfold default_tag at 1. by rewrite Hc. }
  split; [done|]. split; [done|].
  unfold boinc2docker_create_work. by rewrite Hd.
Qed.

End ImageReference.

(** ** Further examples *)

Section MoreExamples.

Import Sample.

Lemma image_archive_named_after_digest_witness :
  let E := healthy layers2 in
  let '(o, s', t) := call E "myimage" None empty in
  let path := dir_hier_path E ("image_" +:+ "1111" +:+ ".tar") in
  inspected_id E (default_tag "myimage") = Some "1111"
  /\ exists rest,
       t = Sh (DockerInspect (default_tag "myimage"))
             :: PathExists path (bool_decide (is_Some (store empty !! path)))
             :: rest.
Proof.
  apply (image_archive_named_after_digest (healthy layers2) "myimage" None None
           "boinc2docker" None None None None empty "/tmp/tmpx"
           "" "sha256" "1111" Py.nl); reflexivity.
Defined.

Lemma answer_without_colon_raises_IndexError_witness :
  let E := with_docker_inspect (fun _ => Done "1111") (healthy layers2) in
  Py.contains ":"%char "1111" = false
  /\ let '(o, s', t) := call E "myimage" None empty in
     o = Raised IndexError
     /\ t = [Sh (DockerInspect (default_tag "myimage")); Sh (RmRf "/tmp/tmpx")]
     /\ store s' = store empty.
Proof.
  split; [reflexivity|].
  apply (answer_without_colon_raises_IndexError
           (with_docker_inspect (fun _ => Done "1111") (healthy layers2))
           "myimage" None None "boinc2docker" None None None None empty
           "/tmp/tmpx" "1111"); reflexivity.
Defined.

Lemma failed_inspect_stops_the_run_witness :
  let E := with_docker_inspect (fun _ => Failed Interrupt) (healthy layers2) in
  let '(o, s', t) := call E "myimage" None empty in
  o = Returned None
  /\ t = [Sh (DockerInspect (default_tag "myimage")); Sh (RmRf "/tmp/tmpx")]
  /\ store s' = store empty.
Proof.
  apply (failed_inspect_stops_the_run
           (with_docker_inspect (fun _ => Failed Interrupt) (healthy layers2))
           "myimage" None None "boinc2docker" None None None None empty
           "/tmp/tmpx" Interrupt); reflexivity.
Defined.

Lemma export_iff_archive_absent_witness :
  let E := healthy layers2 in
  let '(o, s', t) := call E "myimage" None image_only in
  (Sh (DockerSave (default_tag "myimage") "/tmp/tmpx") ∈ t
   <-> store image_only !! image_path_of E "1111" = None)
  /\ (forall img dir, Sh (DockerSave img dir) ∈ t ->
        img = default_tag "myimage" /\ dir = "/tmp/tmpx")
  /\ (forall img, Sh (DockerInspect img) ∈ t -> img = default_tag "myimage").
Proof.
  apply (export_iff_archive_absent (healthy layers2) "myimage" None None
           "boinc2docker" None None None None image_only "/tmp/tmpx" "1111");
    reflexivity.
Defined.

Lemma tar_targets_are_fresh_witness :
  let E := healthy layers2 in
  let '(o, s', t) := call E "myimage" None empty in
  (forall p dir ms, Sh (TarCreate p dir ms) ∈ t -> store empty !! p = None)
  /\ (forall p f, store empty !! p = Some f ->
        store s' !! p = Some f
        \/ exists q, p = q +:+ ".gz" /\ Sh (GzipKeep q) ∈ t).
Proof.
  apply (tar_targets_are_fresh (healthy layers2) "myimage" None None
           "boinc2docker" None None None None empty "/tmp/tmpx").
  reflexivity.
Defined.

Lemma other_scratch_directories_untouched_witness :
  let E := healthy layers2 in
  let s := Filesystem ∅ {[ "/tmp/other" := ScratchDir [] None ]} in
  let '(o, s', t) := call E "myimage" None s in
  forall d, d <> "/tmp/tmpx" -> scratch s' !! d = scratch s !! d.
Proof.
  apply (other_scratch_directories_untouched (healthy layers2) "myimage" None
           None "boinc2docker" None None None None
           (Filesystem ∅ {[ "/tmp/other" := ScratchDir [] None ]}) "/tmp/tmpx").
  reflexivity.
Defined.

Lemma create_work_is_the_last_step_witness :
  let E := healthy layers2 in
  let '(o, s', t) := call E "myimage" None empty in
  forall a g x files,
    CreateWork a g x files ∈ t ->
    (exists t0,
        t = t0 ++ [CreateWork a g x files; Sh (RmRf "/tmp/tmpx")]
        /\ Forall (fun e => is_submit e = false) t0)
    /\ o = outcome_of_submission (create_work E a g files)
    /\ a = "boinc2docker"
    /\ g !! "wu_template"
       = Some ("/tmp/tmpx" +:+ "/boinc2docker_in_" +:+ uuid_hex E)
    /\ (forall k, k <> "wu_template" ->
          g !! k = default (∅ : gmap string string) None !! k).
Proof.
  apply (create_work_is_the_last_step (healthy layers2) "myimage" None None
           "boinc2docker" None None None None empty "/tmp/tmpx").
  reflexivity.
Defined.


Lemma first_run_stages_every_archive_witness :
  let E := healthy layers2 in
  let '(o, s', t) := call E "myimage" None empty in
  forall job,
    o = Returned (Some job) ->
    (exists tr,
        docker_save E (default_tag "myimage") = Done tr
        /\ store s' !! image_path_of E "1111"
           = Some (Tar true (pick (image_members "1111") tr))
        /\ store s' !! (image_path_of E "1111" +:+ ".gz")
           = Some (Gz true (Tar true (pick (image_members "1111") tr))))
    /\ forall layers, layers ∈ read_layers t ->
         forall layer, layer ∈ layers ->
           exists out, bin_dir_hier_path E (layer_filename_of layer) = Done out
                       /\ is_Some (store s' !! Py.strip out).
Proof.
  apply (first_run_stages_every_archive (healthy layers2) "myimage" None None
           "boinc2docker" None None None None empty "/tmp/tmpx" "1111");
    reflexivity.
Defined.

Lemma returns_None_only_when_interrupted_witness :
  let E := healthy layers2 in
  never_interrupted E
  /\ let '(o, s', t) := call E "myimage" None empty in o <> Returned None.
Proof.
  assert (Hni : never_interrupted (healthy layers2))
    by (unfold never_interrupted; split_and!; intros; discriminate).
  split; [exact Hni|].
  apply (returns_None_only_when_interrupted (healthy layers2) "myimage" None
           None "boinc2docker" None None None None empty).
  exact Hni.
Defined.

(** The job of the first run is there, and so is every archive. *)
Example first_run_of_the_sample :
  let '(o, s', t) := call (healthy layers2) "myimage" None empty in
  o = Returned (Some "wu_1")
  /\ dom (store s')
     = {[ "download/image_1111.tar"; "download/image_1111.tar.gz";
          "download/layer_aaa.tar"; "download/layer_aaa.tar.gz";
          "download/layer_bbb.tar"; "download/layer_bbb.tar.gz" ]}.
Proof. vm_compute. split; reflexivity. Qed.

End MoreExamples.
